(** * skbold: region indexing and cross-validation result bookkeeping

    A shallow embedding of [skbold/transformers/roi_indexer.py] and
    [skbold/utils/mvp_results.py].

    numpy's float64 is Rocq's primitive binary64 [float]; a boolean or
    integer array is a list; Python exceptions are values of [exn], and a
    method that mutates [self] and may raise is a function from the
    object's state to the state it leaves behind together with its
    outcome.  Functions of numpy's linear algebra, of scikit-learn's
    metrics and of nibabel are not part of the repository: they are
    Section variables, so every theorem holds for any behaviour of
    theirs. *)

From Stdlib Require Import PrimFloat Uint63 ZArith Lia FloatAxioms.
From stdpp Require Import base list strings sorting gmap.

Open Scope string_scope.

(** ** Python exceptions and fallible results *)

Inductive exn : Type :=
  | IndexError
  | ValueError (msg : string)
  | AttributeError (attr : string)
  | IOError (path : string)
  | LibraryError (what : string).

Inductive result (A : Type) : Type :=
  | Ok (a : A)
  | Raise (e : exn).
Arguments Ok {A} a.
Arguments Raise {A} e.

#[global] Instance result_ret : MRet result := fun _ a => Ok a.
#[global] Instance result_bind : MBind result := fun _ _ f r =>
  match r with
  | Ok a => f a
  | Raise e => Raise e
  end.

Definition is_ok {A} (r : result A) : bool :=
  match r with Ok _ => true | Raise _ => false end.

(** ** numpy arrays *)

#[global] Instance float_inhabited : Inhabited float := populate 0%float.

Module np.

(** An array of any rank, as numpy stores it: a shape and the elements in
    C order. *)
Record ndarray : Type := mk_ndarray {
  shape : list nat;
  data : list float
}.

Definition size (a : ndarray) : nat := foldr Nat.mul 1 (shape a).

(** A 2-D array kept as its rows; [ncols] is [shape[1]], which the rows
    alone do not determine when there are none. *)
Record array2 (A : Type) : Type := mk_array2 {
  ncols : nat;
  rows : list (list A)
}.
Arguments mk_array2 {A} ncols rows.
Arguments ncols {A} a.
Arguments rows {A} a.

Definition nrows {A} (a : array2 A) : nat := length (rows a).

Definition wf2 {A} (a : array2 A) : Prop :=
  Forall (fun r => length r = ncols a) (rows a).

(** [np.zeros((n, k))] *)
Definition zeros2 (n k : nat) : array2 float :=
  mk_array2 k (replicate n (replicate k 0%float)).

(** [a.astype(int)] on a boolean array *)
Definition astype_int (a : list bool) : list Z := map Z.b2z a.

(** the number of [True] entries of a boolean array *)
Definition count_true (m : list bool) : nat := length (filter (fun b => b = true) m).

(** [a[m]] for a boolean index [m] over all of [a], sizes not checked:
    the entries of [a] where [m] is [True], in order. *)
Fixpoint select {A} (m : list bool) (a : list A) : list A :=
  match m, a with
  | b :: m', x :: a' => if b then x :: select m' a' else select m' a'
  | _, _ => []
  end.

(** [a[m]] for a boolean index array [m]: the sizes must agree. *)
Definition bool_index {A} (m : list bool) (a : list A) : result (list A) :=
  if decide (length m = length a) then Ok (select m a) else Raise IndexError.

(** [X[:, m]] for a boolean index array [m] over the columns *)
Definition bool_index_cols {A} (m : list bool) (X : array2 A) : result (array2 A) :=
  if decide (length m = ncols X)
  then Ok (mk_array2 (count_true m) (map (select m) (rows X)))
  else Raise IndexError.

(** [a + b] on 1-D integer arrays, with numpy's broadcasting: equal
    lengths add element-wise, a length-1 operand is stretched, anything
    else is an error. *)
Definition add (a b : list Z) : result (list Z) :=
  if decide (length a = length b) then Ok (zip_with Z.add a b)
  else match a, b with
       | [x], _ => Ok (map (Z.add x) b)
       | _, [y] => Ok (map (fun x => Z.add x y) a)
       | _, _ => Raise (ValueError "operands could not be broadcast together")
       end.

(** [a[i]] for a Python integer [i]: negative indices count from the end. *)
Definition norm_index (len : nat) (i : Z) : result nat :=
  if decide (0 <= i < Z.of_nat len)%Z then Ok (Z.to_nat i)
  else if decide (- Z.of_nat len <= i < 0)%Z then Ok (Z.to_nat (Z.of_nat len + i))
  else Raise IndexError.

Fixpoint norm_indices (len : nat) (l : list Z) : result (list nat) :=
  match l with
  | [] => Ok []
  | i :: l' => p ← norm_index len i; ps ← norm_indices len l'; Ok (p :: ps)
  end.

(** [a[l]] for an integer index array [l] *)
Definition take {A} (a : list A) (l : list Z) : result (list A) :=
  ps ← norm_indices (length a) l;
  Ok (omap (fun p : nat => a !! p) (ps : list nat)).

(** [a[i] = x] for a fold counter [i] *)
Definition setitem {A} (a : list A) (i : nat) (x : A) : result (list A) :=
  if decide (i < length a) then Ok (<[i:=x]> a) else Raise IndexError.

(** the positions, in increasing order, where a boolean array is [True] *)
Fixpoint flatnonzero_from (off : nat) (m : list bool) : list nat :=
  match m with
  | [] => []
  | b :: m' => if b then off :: flatnonzero_from (S off) m'
               else flatnonzero_from (S off) m'
  end.
Definition flatnonzero (m : list bool) : list nat := flatnonzero_from 0 m.

(** [a[ps] = vs] element by element; a position named twice keeps the
    last value written. *)
Fixpoint scatter {A} (a : list A) (ps : list nat) (vs : list A) : list A :=
  match ps, vs with
  | p :: ps', v :: vs' => scatter (<[p:=v]> a) ps' vs'
  | _, _ => a
  end.

(** [np.squeeze]: axes of length one are dropped, the elements stay. *)
Definition squeeze (a : ndarray) : ndarray :=
  mk_ndarray (filter (fun d => d ≠ 1) (shape a)) (data a).

(** The shape of the right-hand side of an assignment, once its leading
    axes of length one are stripped. *)
Fixpoint strip_ones (sh : list nat) : list nat :=
  match sh with
  | 1 :: sh' => strip_ones sh'
  | _ => sh
  end.

(** The right-hand side [src] of [target[...] = src] for a target of [m]
    elements in one axis: a single element is repeated, [m] elements are
    taken as they are, any other shape does not broadcast. *)
Definition broadcast_to_1d (m : nat) (src : ndarray) : result (list float) :=
  match strip_ones (shape src), data src with
  | [], [x] => Ok (replicate m x)
  | [d], vs =>
      if decide (d = m ∧ length vs = m) then Ok vs
      else Raise (ValueError "could not broadcast input array")
  | _, _ => Raise (ValueError "could not broadcast input array")
  end.

(** The right-hand side of [target[i, :, :] = src] for a target of shape
    [(n, m)]: an axis of [src] of length one is stretched. *)
Definition broadcast_to_2d {A} `{Inhabited A} (n m : nat) (src : array2 A)
  : result (array2 A) :=
  if decide ((nrows src = n ∨ nrows src = 1) ∧ (ncols src = m ∨ ncols src = 1))
  then Ok (mk_array2 m
             (map (fun i =>
                     let r := rows src !!! (if decide (nrows src = n) then i else 0) in
                     map (fun j => r !!! (if decide (ncols src = m) then j else 0))
                         (seq 0 m))
                  (seq 0 n)))
  else Raise (ValueError "could not broadcast input array").

(** the columns of a 2-D array, left to right *)
Definition columns (a : array2 float) : list (list float) :=
  map (fun j => map (fun r => r !!! j) (rows a)) (seq 0 (ncols a)).

(** [np.unique] of an array of feature-set identifiers: the distinct
    values in increasing order *)
Definition unique (l : list nat) : list nat :=
  filter (fun i => i ∈ l) (seq 0 (S (foldr Nat.max 0 l))).

(** a Python integer as a float64 *)
Definition float_of_nat (n : nat) : float :=
  PrimFloat.of_uint63 (Uint63.of_Z (Z.of_nat n)).
Definition float_of_Z (z : Z) : float :=
  if decide (z < 0)%Z then PrimFloat.opp (PrimFloat.of_uint63 (Uint63.of_Z (- z)))
  else PrimFloat.of_uint63 (Uint63.of_Z z).

(** a 2-D array as an [ndarray] *)
Definition of_array2 (a : array2 float) : ndarray :=
  mk_ndarray [nrows a; ncols a] (concat (rows a)).

(** [a.sum(axis=0)] of a stack of 2-D arrays of shape [(n, m)]: the
    arrays are added element by element, from the first on. *)
Definition add2 (a b : list (list float)) : list (list float) :=
  zip_with (zip_with PrimFloat.add) a b.
Definition sum_axis0 (n m : nat) (stack : list (array2 float)) : array2 float :=
  match stack with
  | [] => zeros2 n m
  | a :: rest => mk_array2 m (foldl add2 (rows a) (map rows rest))
  end.

(** the sum of a sequence of floats in the same order *)
Definition fsum (l : list float) : float :=
  match l with
  | [] => 0%float
  | x :: rest => foldl PrimFloat.add x rest
  end.

End np.

(** ** The pattern container (produced upstream, read-only here) *)

Record Mvp (L : Type) : Type := mk_Mvp {
  mvp_X : np.array2 float;
  mvp_y : list L;
  mvp_mask_index : list bool;
  mvp_directory : string;
  mvp_ref_space : string;
  mvp_data_shape : list (list nat);
  mvp_data_name : list string;
  mvp_affine : list (list float);
  mvp_voxel_idx : list Z;
  mvp_featureset_id : list nat
}.
Arguments mk_Mvp {L}.
Arguments mvp_X {L} m.
Arguments mvp_y {L} m.
Arguments mvp_mask_index {L} m.
Arguments mvp_directory {L} m.
Arguments mvp_ref_space {L} m.
Arguments mvp_data_shape {L} m.
Arguments mvp_data_name {L} m.
Arguments mvp_affine {L} m.
Arguments mvp_voxel_idx {L} m.
Arguments mvp_featureset_id {L} m.

(** ** roi_indexer.py *)

Module RoiIndexer.

Record t : Type := mk {
  mask : string;
  mask_threshold : float;
  orig_mask : list bool
}.

Section Methods.

(** [os.path] and [glob], [convert2epi] of [skbold.utils] and nibabel's
    loader, all outside this module of the repository. *)
Variable op_dirname op_basename : string -> string.
Variable op_join : list string -> string.
Variable glob_glob : string -> list string.
Variable convert2epi : string -> string -> string -> result (list string).
Variable nib_load_get_data : string -> result np.ndarray.

(** [__init__]; [os.makedirs] leaves no trace in the object and is not
    modelled. *)
Definition init {L} (mvp : Mvp L) (mask0 : string) (mask_threshold0 : float)
  : result t :=
  let main_dir := op_dirname (mvp_directory mvp) in
  if decide (mvp_ref_space mvp = "epi") then
    let laterality := op_basename (op_dirname mask0) in
    let epi_dir := op_join [main_dir; "epi_masks"; laterality] in
    let epi_name := op_basename mask0 in
    let epi_exists := glob_glob (op_join [epi_dir; epi_name]) in
    match epi_exists with
    | found :: _ => Ok (mk found mask_threshold0 (mvp_mask_index mvp))
    | [] =>
        let reg_dir := op_join [mvp_directory mvp; "reg"] in
        converted ← convert2epi mask0 reg_dir epi_dir;
        match converted with
        | m :: _ => Ok (mk m mask_threshold0 (mvp_mask_index mvp))
        | [] => Raise IndexError
        end
    end
  else Ok (mk mask0 mask_threshold0 (mvp_mask_index mvp)).

(** [fit] *)
Definition fit (self : t) : t := self.

(** [transform] *)
Definition transform {A} (self : t) (X : np.array2 A) : result (np.array2 A) :=
  vol ← nib_load_get_data (mask self);
  let roi_idx := map (fun v => PrimFloat.ltb (mask_threshold self) v) (np.data vol) in
  overlap ← np.add (np.astype_int roi_idx) (np.astype_int (orig_mask self));
  sel ← np.bool_index (orig_mask self) (map (fun o => Z.eqb o 2) overlap);
  np.bool_index_cols sel X.

End Methods.

End RoiIndexer.

(** ** Methods that mutate [self] and may raise

    An exception leaves behind whatever the method had already written to
    the object, so a method is a function from the state before to the
    state after together with its outcome. *)

Definition pym (S A : Type) : Type := S -> S * result A.

Module py.

Definition ret {S A} (a : A) : pym S A := fun s => (s, Ok a).
Definition bind {S A B} (m : pym S A) (f : A -> pym S B) : pym S B :=
  fun s => match m s with
           | (s', Ok a) => f a s'
           | (s', Raise e) => (s', Raise e)
           end.
Definition raise {S A} (e : exn) : pym S A := fun s => (s, Raise e).
Definition lift {S A} (r : result A) : pym S A := fun s => (s, r).
Definition gets {S A} (f : S -> A) : pym S A := fun s => (s, Ok (f s)).
Definition modify {S} (f : S -> S) : pym S unit := fun s => (f s, Ok tt).

(** a method of a base class run on the part of the object it sees *)
Definition zoom {S T A} (get : S -> T) (set : T -> S -> S) (m : pym T A)
  : pym S A :=
  fun s => let (t', r) := m (get s) in (set t' s, r).

End py.

#[global] Instance pym_ret S : MRet (pym S) := fun _ a => py.ret a.
#[global] Instance pym_bind S : MBind (pym S) := fun _ _ f m => py.bind m f.

(** ** mvp_results.py *)

Module MvpResults.

(** The [idx] argument, when it is not [None]: a boolean support mask or
    an array of integer positions. *)
Inductive index : Type :=
  | BoolIdx (m : list bool)
  | IntIdx (l : list Z).

(** What the code probes on a step of a pipeline, by attribute name:
    [coef_], [scores_], [estimators_] (each member's own [coef_]) and a
    callable [get_support]. *)
Record member : Type := mk_member { member_coef_ : option np.ndarray }.

Record step : Type := mk_step {
  coef_ : option np.ndarray;
  scores_ : option np.ndarray;
  estimators_ : option (list member);
  get_support : option (list bool)
}.

(** The [values] argument: an array, a [Pipeline] with its [named_steps],
    or a [GridSearchCV] whose [best_estimator_] is a pipeline. *)
Inductive values_arg : Type :=
  | Array (a : np.ndarray)
  | Pipeline (named_steps : list (string * step))
  | GridSearchCV (best_estimator_ : list (string * step)).

Definition dataframe : Type := list (string * list float).

(** One reconstructed image handed to [to_filename], and the count that
    is printed with it. *)
Record written : Type := mk_written {
  w_dir : string;
  w_filename : string;
  w_shape : list nat;
  w_img : list float;
  w_affine : list float;
  w_n_nonzero : nat
}.

(** The attributes the base-class methods read and write.  [n_class] is
    [None] when the object has no such attribute, [df] is [None] until
    [compute_scores] has run. *)
Record t (L : Type) : Type := mk {
  n_iter : nat;
  fs : string;
  verbose : bool;
  X : np.array2 float;
  y : list L;
  data_shape : list (list nat);
  data_name : list string;
  affine : list (list float);
  voxel_idx : list Z;
  featureset_id : list nat;
  iter : nat;
  out_path : string;
  n_vox : list float;
  voxel_values : np.array2 float;
  n_class : option nat;
  df : option dataframe
}.
Arguments mk {L}.
Arguments n_iter {L} _.
Arguments fs {L} _.
Arguments verbose {L} _.
Arguments X {L} _.
Arguments y {L} _.
Arguments data_shape {L} _.
Arguments data_name {L} _.
Arguments affine {L} _.
Arguments voxel_idx {L} _.
Arguments featureset_id {L} _.
Arguments iter {L} _.
Arguments out_path {L} _.
Arguments n_vox {L} _.
Arguments voxel_values {L} _.
Arguments n_class {L} _.
Arguments df {L} _.

Definition set_iter {L} (v : nat) (s : t L) : t L :=
  mk (n_iter s) (fs s) (verbose s) (X s) (y s) (data_shape s) (data_name s)
     (affine s) (voxel_idx s) (featureset_id s) v (out_path s) (n_vox s)
     (voxel_values s) (n_class s) (df s).
Definition set_n_vox {L} (v : list float) (s : t L) : t L :=
  mk (n_iter s) (fs s) (verbose s) (X s) (y s) (data_shape s) (data_name s)
     (affine s) (voxel_idx s) (featureset_id s) (iter s) (out_path s) v
     (voxel_values s) (n_class s) (df s).
Definition set_voxel_values {L} (v : np.array2 float) (s : t L) : t L :=
  mk (n_iter s) (fs s) (verbose s) (X s) (y s) (data_shape s) (data_name s)
     (affine s) (voxel_idx s) (featureset_id s) (iter s) (out_path s) (n_vox s)
     v (n_class s) (df s).
Definition set_df {L} (v : dataframe) (s : t L) : t L :=
  mk (n_iter s) (fs s) (verbose s) (X s) (y s) (data_shape s) (data_name s)
     (affine s) (voxel_idx s) (featureset_id s) (iter s) (out_path s) (n_vox s)
     (voxel_values s) (n_class s) (Some v).

(** [MvpResults.__init__], together with the two arrays that both
    subclasses create right after it ([n_vox], [voxel_values]); the
    subclass says whether it defines [n_class].  [out_path] is the path
    after the default has been filled in; creating the directory leaves
    no trace in the object. *)
Definition init {L} (mvp : Mvp L) (n_iter0 : nat) (out_path0 : string)
    (feature_scoring : string) (verbose0 : bool) (n_class0 : option nat) : t L :=
  mk n_iter0 feature_scoring verbose0 (mvp_X mvp) (mvp_y mvp)
     (mvp_data_shape mvp) (mvp_data_name mvp) (mvp_affine mvp)
     (mvp_voxel_idx mvp) (mvp_featureset_id mvp) 0 out_path0
     (replicate n_iter0 0%float)
     (np.zeros2 n_iter0 (np.ncols (mvp_X mvp)))
     n_class0 None.

(** [X[:, idx]], as the array handed on to numpy *)
Definition index_cols (X0 : np.array2 float) (idx : option index)
  : result np.ndarray :=
  match idx with
  | None => Ok (np.mk_ndarray [np.nrows X0; 1; np.ncols X0] (concat (np.rows X0)))
  | Some (BoolIdx m) => X' ← np.bool_index_cols m X0; Ok (np.of_array2 X')
  | Some (IntIdx l) =>
      ps ← np.norm_indices (np.ncols X0) l;
      Ok (np.of_array2
            (np.mk_array2 (length (ps : list nat))
               (map (fun r : list float => omap (fun p : nat => r !! p) ps)
                    (np.rows X0))))
  end.

(** [a[i, idx] = src] *)
Definition setitem_row (a : np.array2 float) (i : nat) (idx : option index)
    (src : np.ndarray) : result (np.array2 float) :=
  match np.rows a !! i with
  | None => Raise IndexError
  | Some row =>
      ps ← match idx with
           | None => Ok (seq 0 (np.ncols a))
           | Some (BoolIdx m) =>
               if decide (length m = np.ncols a) then Ok (np.flatnonzero m)
               else Raise IndexError
           | Some (IntIdx l) => np.norm_indices (np.ncols a) l
           end;
      vs ← np.broadcast_to_1d (length (ps : list nat)) src;
      Ok (np.mk_array2 (np.ncols a) (<[i:=np.scatter row ps vs]> (np.rows a)))
  end.

(** [getattr(step, match)] for [match] one of ['coef_'] and ['scores_'] *)
Definition getattr (name : string) (s : step) : option np.ndarray :=
  if decide (name = "coef_") then coef_ s else scores_ s.

(** line 110: ['coef_' if self.fs in ['coef', 'forward'] else 'scores_'] *)
Definition matched_attribute (fs0 : string) : string :=
  if bool_decide (fs0 ∈ ["coef"; "forward"]) then "coef_" else "scores_".

(** [fnmatch(fs, 'coef*')] and [fnmatch(fs, 'ufs')] *)
Definition fnmatch_coef_star (name : string) : bool :=
  bool_decide (String.substring 0 4 name = "coef").
Definition fnmatch_ufs (name : string) : bool := bool_decide (name = "ufs").

Section Methods.

Context {L : Type}.

(** numpy's linear algebra and reductions *)
Variable np_T : np.ndarray -> np.ndarray.
Variable np_dot : np.ndarray -> np.ndarray -> result np.ndarray.
Variable np_cov : np.ndarray -> result np.ndarray.
Variable np_pinv : np.ndarray -> result np.ndarray.
Variable np_concatenate_mean0 : list np.ndarray -> result np.ndarray.
Variable np_mean np_std : list float -> float.

(** lines 110--140: the feature scores and the index found in a pipeline *)
Definition extract_from_pipeline (named_steps : list (string * step))
    (idx : option index) : pym (t L) (np.ndarray * option index) :=
  fs0 ← py.gets fs;
  let match_ := matched_attribute fs0 in
  let steps := named_steps.*2 in
  let val := omap (getattr match_) steps in
  let ensemble := omap estimators_ steps in
  val ← match val, ensemble with
        | [v], _ => mret v
        | [], [members] =>
            py.lift (coefs ← mapM (fun ens => match member_coef_ ens with
                                               | Some c => Ok c
                                               | None => Raise (AttributeError "coef_")
                                               end) members;
                     np_concatenate_mean0 coefs)
        | [], _ =>
            py.raise (ValueError ("Found no " +:+ match_ +:+
                                  " attribute anywhere in the pipeline!"))
        | _, _ =>
            py.raise (ValueError ("Found more than one " +:+ match_ +:+
                                  " attribute in the pipeline!"))
        end;
  X0 ← py.gets X;
  idx ← (if bool_decide (np.size val ≠ np.ncols X0 ∧ idx = None) then
           match omap get_support steps with
           | [support] => mret (Some (BoolIdx support))
           | _ => py.raise (ValueError ("Found more than one " +:+ match_ +:+
                                        " attribute in pipeline!"))
           end
         else mret idx);
  mret (val, idx).

(** [self.n_vox[self.iter] = size] *)
Definition store_n_vox (size : nat) : pym (t L) unit :=
  i ← py.gets iter;
  nv ← py.gets n_vox;
  nv ← py.lift (np.setitem nv i (np.float_of_nat size));
  py.modify (set_n_vox nv).

(** [_update_voxel_values], lines 104--143: the array of feature scores
    (squeezed) and the index it is stored under; its size is recorded in
    [n_vox]. *)
Definition extract_values (values : values_arg) (idx : option index)
  : pym (t L) (np.ndarray * option index) :=
  let values := match values with
                | GridSearchCV best => Pipeline best
                | _ => values
                end in
  '(values, idx) ← match values with
                   | Pipeline named_steps => extract_from_pipeline named_steps idx
                   | GridSearchCV named_steps => extract_from_pipeline named_steps idx
                   | Array a => mret (a, idx)
                   end;
  let values := np.squeeze values in
  store_n_vox (np.size values);;
  mret (values, idx).

(** lines 153--161: the Haufe transform of the weights [W] *)
Definition forward_model (W : np.ndarray) (idx : option index)
  : pym (t L) np.ndarray :=
  X0 ← py.gets X;
  Xs ← py.lift (index_cols X0 idx);
  s ← py.lift (np_dot (np_T W) (np_T Xs));
  nc ← py.gets n_class;
  nc ← py.lift (from_option Ok (Raise (AttributeError "n_class")) nc);
  py.lift (if bool_decide (nc < 3) then
             c ← np_cov (np_T Xs); np_dot c W
           else
             X_cov ← np_cov (np_T Xs);
             XW ← np_dot X_cov W;
             cs ← np_cov s;
             p ← np_pinv cs;
             np_dot XW p).

(** [self.voxel_values[self.iter, idx] = a] *)
Definition store_voxel_values (idx : option index) (a : np.ndarray)
  : pym (t L) unit :=
  i ← py.gets iter;
  vv ← py.gets voxel_values;
  vv ← py.lift (setitem_row vv i idx a);
  py.modify (set_voxel_values vv).

(** [_update_voxel_values], lines 145--163 *)
Definition store_scores (values : np.ndarray) (idx : option index)
  : pym (t L) unit :=
  fs0 ← py.gets fs;
  if fnmatch_coef_star fs0 || fnmatch_ufs fs0 then
    store_voxel_values idx values
  else if bool_decide (fs0 = "forward") then
    A ← forward_model values idx;
    store_voxel_values idx A
  else mret tt.

(** [_update_voxel_values] *)
Definition _update_voxel_values (values : values_arg) (idx : option index)
  : pym (t L) unit :=
  '(values, idx) ← extract_values values idx;
  store_scores values idx.

(** the end of both [update] methods: lines 264--267 and 344--347 *)
Definition finish_update (values : option values_arg) (idx : option index)
  : pym (t L) unit :=
  match values with
  | Some v => _update_voxel_values v idx
  | None => mret tt
  end;;
  py.modify (fun s => set_iter (S (iter s)) s).

(** lines 82--86 of [write]: the per-voxel values, reduced over the folds *)
Definition reduce_values (to_tstat : bool) (values : np.array2 float)
  : list float :=
  if to_tstat then
    let n := np.nrows values in
    zip_with (fun m s => (m / (s / PrimFloat.sqrt (np.float_of_nat n)))%float)
             (map np_mean (np.columns values))
             (map np_std (np.columns values))
  else map np_mean (np.columns values).

(** [(subset > 0).sum()] *)
Definition n_positive (subset : list float) : nat :=
  length (filter (fun v => PrimFloat.ltb 0%float v = true) subset).

(** one turn of the loop of [write], for the feature set [i] *)
Definition write_featureset (self : t L) (values : list float) (i : nat)
  : result written :=
  shape_i ← from_option Ok (Raise IndexError) (data_shape self !! i);
  let img := replicate (foldr Nat.mul 1 shape_i) 0%float in
  let in_set := map (fun f => bool_decide (f = i)) (featureset_id self) in
  subset ← np.bool_index in_set values;
  positions ← np.bool_index in_set (voxel_idx self);
  ps ← np.norm_indices (length img) positions;
  let img := np.scatter img ps subset in
  affine_i ← from_option Ok (Raise IndexError) (affine self !! i);
  name_i ← from_option Ok (Raise IndexError) (data_name self !! i);
  Ok (mk_written (out_path self) (name_i +:+ ".nii.gz") shape_i img affine_i
                 (n_positive subset)).

Fixpoint write_loop (self : t L) (values : list float) (ids : list nat)
    (done : list written) : list written * result unit :=
  match ids with
  | [] => (done, Ok tt)
  | i :: ids' =>
      match write_featureset self values i with
      | Ok w => write_loop self values ids' (done ++ [w])
      | Raise e => (done, Raise e)
      end
  end.

(** [write]: the images written, in order, and the table saved as
    [results.tsv].  [_check_mvp_attributes] wraps a bare affine or shape
    in a list; here they are lists from the start. *)
Definition write (to_tstat : bool) (self : t L)
  : list written * result dataframe :=
  let values := reduce_values to_tstat (voxel_values self) in
  match write_loop self values (np.unique (featureset_id self)) [] with
  | (ws, Ok _) =>
      (ws, from_option Ok (Raise (AttributeError "df")) (df self))
  | (ws, Raise e) => (ws, Raise e)
  end.

End Methods.

End MvpResults.

(** [pd.DataFrame] from equally long columns *)
Definition pd_DataFrame (cols : list (string * list float)) : result MvpResults.dataframe :=
  match cols with
  | [] => Ok []
  | (_, c) :: rest =>
      if bool_decide (Forall (fun nc => length nc.2 = length c) rest) then Ok cols
      else Raise (ValueError "arrays must all be same length")
  end.

Module MvpResultsRegression.

(** [self.mse] starts as an array of [n_iter] zeros and is rebound to a
    plain number by [update]. *)
Inductive mse_attr : Type :=
  | MseArray (a : list float)
  | MseScalar (x : float).

Record t : Type := mk {
  base : MvpResults.t float;
  R2 : list float;
  mse : mse_attr
}.

Definition set_base (v : MvpResults.t float) (s : t) : t := mk v (R2 s) (mse s).
Definition set_R2 (v : list float) (s : t) : t := mk (base s) v (mse s).
Definition set_mse (v : mse_attr) (s : t) : t := mk (base s) (R2 s) v.

(** One call of [update]: its arguments. *)
Record fold : Type := mk_fold {
  test_idx : list Z;
  y_pred : list float;
  values : option MvpResults.values_arg;
  idx : option MvpResults.index
}.

Section Methods.

Variable np_T : np.ndarray -> np.ndarray.
Variable np_dot : np.ndarray -> np.ndarray -> result np.ndarray.
Variable np_cov : np.ndarray -> result np.ndarray.
Variable np_pinv : np.ndarray -> result np.ndarray.
Variable np_concatenate_mean0 : list np.ndarray -> result np.ndarray.
(** scikit-learn's metrics and pandas' summary of a column *)
Variable r2_score mean_squared_error : list float -> list float -> result float.
Variable pd_mean pd_std : list float -> float.

(** [__init__] *)
Definition init (mvp : Mvp float) (n_iter : nat) (feature_scoring : string)
    (verbose : bool) (out_path : string) : t :=
  mk (MvpResults.init mvp n_iter out_path feature_scoring verbose None)
     (replicate n_iter 0%float)
     (MseArray (replicate n_iter 0%float)).

(** [update], lines 255--262: the metrics of the fold *)
Definition store_metrics (f : fold) : pym t unit :=
  i ← py.gets (fun s => MvpResults.iter (base s));
  y0 ← py.gets (fun s => MvpResults.y (base s));
  y_true ← py.lift (np.take y0 (test_idx f));
  r ← py.lift (r2_score y_true (y_pred f));
  R2_0 ← py.gets R2;
  R2_1 ← py.lift (np.setitem R2_0 i r);
  py.modify (set_R2 R2_1);;
  m ← py.lift (mean_squared_error y_true (y_pred f));
  py.modify (set_mse (MseScalar m)).

(** [update] *)
Definition update (f : fold) : pym t unit :=
  store_metrics f;;
  py.zoom base set_base
    (MvpResults.finish_update np_T np_dot np_cov np_pinv np_concatenate_mean0
       (values f) (idx f)).

(** the column that [pd.DataFrame] makes of [self.mse]: an array as it
    is, a plain number repeated over the rows of the other columns *)
Definition mse_column (s : t) : list float :=
  match mse s with
  | MseArray a => a
  | MseScalar x => replicate (length (R2 s)) x
  end.

(** [compute_scores]: stores the table, returns what is printed (the
    mean and the standard deviation of every column). *)
Definition compute_scores : pym t (list (string * (float * float))) :=
  s ← py.gets id;
  d ← py.lift (pd_DataFrame [("R2", R2 s); ("MSE", mse_column s);
                             ("n_voxels", MvpResults.n_vox (base s))]);
  py.modify (fun s => set_base (MvpResults.set_df d (base s)) s);;
  mret (map (fun nc : string * list float => (nc.1, (pd_mean nc.2, pd_std nc.2))) d).

(** a sequence of calls of [update], each with its outcome *)
Fixpoint run (fs : list fold) (s : t) : t * list (result unit) :=
  match fs with
  | [] => (s, [])
  | f :: fs' =>
      let (s1, r) := update f s in
      let (s2, rs) := run fs' s1 in
      (s2, r :: rs)
  end.

End Methods.

End MvpResultsRegression.

Module MvpResultsClassification.

Record t : Type := mk {
  base : MvpResults.t Z;
  accuracy : list float;
  recall : list float;
  precision : list float;
  confmat : list (np.array2 float)
}.

Definition set_base (v : MvpResults.t Z) (s : t) : t :=
  mk v (accuracy s) (recall s) (precision s) (confmat s).
Definition set_accuracy (v : list float) (s : t) : t :=
  mk (base s) v (recall s) (precision s) (confmat s).
Definition set_recall (v : list float) (s : t) : t :=
  mk (base s) (accuracy s) v (precision s) (confmat s).
Definition set_precision (v : list float) (s : t) : t :=
  mk (base s) (accuracy s) (recall s) v (confmat s).
Definition set_confmat (v : list (np.array2 float)) (s : t) : t :=
  mk (base s) (accuracy s) (recall s) (precision s) v.

Record fold : Type := mk_fold {
  test_idx : list Z;
  y_pred : list Z;
  values : option MvpResults.values_arg;
  idx : option MvpResults.index
}.

(** [np.unique(y).size] *)
Definition n_unique (y : list Z) : nat := length (remove_dups y).

(** the class-count attribute of an object built by [init] *)
Definition the_n_class (s : t) : nat := default 0 (MvpResults.n_class (base s)).

Section Methods.

Variable np_T : np.ndarray -> np.ndarray.
Variable np_dot : np.ndarray -> np.ndarray -> result np.ndarray.
Variable np_cov : np.ndarray -> result np.ndarray.
Variable np_pinv : np.ndarray -> result np.ndarray.
Variable np_concatenate_mean0 : list np.ndarray -> result np.ndarray.
Variable accuracy_score precision_score_macro recall_score_macro
  : list Z -> list Z -> result float.
Variable confusion_matrix : list Z -> list Z -> result (np.array2 Z).
Variable pd_mean pd_std : list float -> float.

(** [__init__] *)
Definition init (mvp : Mvp Z) (n_iter : nat) (feature_scoring : string)
    (verbose : bool) (out_path : string) : t :=
  let n_class := n_unique (mvp_y mvp) in
  mk (MvpResults.init mvp n_iter out_path feature_scoring verbose (Some n_class))
     (replicate n_iter 0%float)
     (replicate n_iter 0%float)
     (replicate n_iter 0%float)
     (replicate n_iter (np.zeros2 n_class n_class)).

(** [self.confmat[i, :, :] = C] *)
Definition setitem_confmat (s : t) (i : nat) (C : np.array2 Z)
  : result (list (np.array2 float)) :=
  match confmat s !! i with
  | None => Raise IndexError
  | Some old =>
      C' ← np.broadcast_to_2d (np.nrows old) (np.ncols old)
             (np.mk_array2 (np.ncols C) (map (map np.float_of_Z) (np.rows C)));
      Ok (<[i:=C']> (confmat s))
  end.

(** [update], lines 333--342: the metrics of the fold *)
Definition store_metrics (f : fold) : pym t unit :=
  i ← py.gets (fun s => MvpResults.iter (base s));
  y0 ← py.gets (fun s => MvpResults.y (base s));
  y_true ← py.lift (np.take y0 (test_idx f));
  a ← py.lift (accuracy_score y_true (y_pred f));
  a0 ← py.gets accuracy;
  a1 ← py.lift (np.setitem a0 i a);
  py.modify (set_accuracy a1);;
  p ← py.lift (precision_score_macro y_true (y_pred f));
  p0 ← py.gets precision;
  p1 ← py.lift (np.setitem p0 i p);
  py.modify (set_precision p1);;
  r ← py.lift (recall_score_macro y_true (y_pred f));
  r0 ← py.gets recall;
  r1 ← py.lift (np.setitem r0 i r);
  py.modify (set_recall r1);;
  C ← py.lift (confusion_matrix y_true (y_pred f));
  s ← py.gets id;
  cm ← py.lift (setitem_confmat s i C);
  py.modify (set_confmat cm).

(** [update] *)
Definition update (f : fold) : pym t unit :=
  store_metrics f;;
  py.zoom base set_base
    (MvpResults.finish_update np_T np_dot np_cov np_pinv np_concatenate_mean0
       (values f) (idx f)).

(** [compute_scores]: stores the table, returns what is printed (the
    mean and the standard deviation of every column, and
    [self.confmat.sum(axis=0)]). *)
Definition compute_scores
  : pym t (list (string * (float * float)) * np.array2 float) :=
  s ← py.gets id;
  d ← py.lift (pd_DataFrame [("Accuracy", accuracy s); ("Precision", precision s);
                             ("Recall", recall s);
                             ("n_voxels", MvpResults.n_vox (base s))]);
  py.modify (fun s => set_base (MvpResults.set_df d (base s)) s);;
  mret (map (fun nc : string * list float => (nc.1, (pd_mean nc.2, pd_std nc.2))) d,
        np.sum_axis0 (the_n_class s) (the_n_class s) (confmat s)).

Fixpoint run (fs : list fold) (s : t) : t * list (result unit) :=
  match fs with
  | [] => (s, [])
  | f :: fs' =>
      let (s1, r) := update f s in
      let (s2, rs) := run fs' s1 in
      (s2, r :: rs)
  end.

End Methods.

End MvpResultsClassification.

(** ** Reference behaviour of the libraries

    Executable stand-ins for the library functions the theorems leave
    open, following each library's documentation.  They serve to run the
    model on concrete inputs; the general theorems hold for any library
    behaviour and do not depend on them. *)

Module Reference.

Definition fdiv_nat (x : float) (n : nat) : float := (x / np.float_of_nat n)%float.

(** [np.mean] and [np.std] (population standard deviation) of a column *)
Definition np_mean (l : list float) : float := fdiv_nat (np.fsum l) (length l).
Definition sq_dev (l : list float) : list float :=
  let m := np_mean l in map (fun x => ((x - m) * (x - m))%float) l.
Definition np_std (l : list float) : float := PrimFloat.sqrt (np_mean (sq_dev l)).

(** pandas' [mean] and [std] (sample standard deviation) of a column *)
Definition pd_mean (l : list float) : float := np_mean l.
Definition pd_std (l : list float) : float :=
  PrimFloat.sqrt (fdiv_nat (np.fsum (sq_dev l)) (length l - 1)).

Definition check_lengths {A B} (a : list A) (b : list B) : result unit :=
  if decide (length a = length b ∧ 0 < length a) then Ok tt
  else Raise (ValueError "Found input variables with inconsistent numbers of samples").

(** [sklearn.metrics.mean_squared_error] and [r2_score] *)
Definition mean_squared_error (y_true y_pred : list float) : result float :=
  _ ← check_lengths y_true y_pred;
  Ok (np_mean (zip_with (fun t p => ((t - p) * (t - p))%float) y_true y_pred)).
Definition r2_score (y_true y_pred : list float) : result float :=
  _ ← check_lengths y_true y_pred;
  let ss_res := np.fsum (zip_with (fun t p => ((t - p) * (t - p))%float) y_true y_pred) in
  let ss_tot := np.fsum (sq_dev y_true) in
  Ok (1 - ss_res / ss_tot)%float.

(** the sorted distinct labels of the two label vectors *)
Definition unique_labels (y_true y_pred : list Z) : list Z :=
  merge_sort Z.le (remove_dups (y_true ++ y_pred)).

Definition count_pairs (t p : Z) (y_true y_pred : list Z) : Z :=
  Z.of_nat (length (filter (fun tp : Z * Z => tp = (t, p)) (zip y_true y_pred))).

(** [sklearn.metrics.confusion_matrix] *)
Definition confusion_matrix (y_true y_pred : list Z) : result (np.array2 Z) :=
  _ ← check_lengths y_true y_pred;
  let labels := unique_labels y_true y_pred in
  Ok (np.mk_array2 (length labels)
        (map (fun t => map (fun p => count_pairs t p y_true y_pred) labels) labels)).

(** [sklearn.metrics.accuracy_score] *)
Definition accuracy_score (y_true y_pred : list Z) : result float :=
  _ ← check_lengths y_true y_pred;
  let hits := length (filter (fun tp : Z * Z => tp.1 = tp.2) (zip y_true y_pred)) in
  Ok (fdiv_nat (np.float_of_nat hits) (length y_true)).

Definition ratio (num den : Z) : float :=
  if decide (den = 0)%Z then 0%float
  else (np.float_of_Z num / np.float_of_Z den)%float.

(** [precision_score] and [recall_score] with [average='macro'] *)
Definition precision_score_macro (y_true y_pred : list Z) : result float :=
  _ ← check_lengths y_true y_pred;
  let labels := unique_labels y_true y_pred in
  Ok (np_mean (map (fun c =>
                      ratio (count_pairs c c y_true y_pred)
                            (Z.of_nat (length (filter (fun p => p = c) y_pred))))
                   labels)).
Definition recall_score_macro (y_true y_pred : list Z) : result float :=
  _ ← check_lengths y_true y_pred;
  let labels := unique_labels y_true y_pred in
  Ok (np_mean (map (fun c =>
                      ratio (count_pairs c c y_true y_pred)
                            (Z.of_nat (length (filter (fun t => t = c) y_true))))
                   labels)).

(** a 2-D [ndarray] as its rows *)
Fixpoint chunks (k n : nat) (l : list float) : list (list float) :=
  match n with
  | 0 => []
  | S n' => take k l :: chunks k n' (drop k l)
  end.

Definition transpose_rows (k : nat) (rows : list (list float)) : list (list float) :=
  map (fun j => map (fun r : list float => r !!! j) rows) (seq 0 k).

(** [a.T] for arrays of up to two axes *)
Definition np_T (a : np.ndarray) : np.ndarray :=
  match np.shape a with
  | [n; k] => np.mk_ndarray [k; n] (concat (transpose_rows k (chunks k n (np.data a))))
  | _ => a
  end.

Definition dot1 (u v : list float) : float := np.fsum (zip_with PrimFloat.mul u v).

(** [a.dot(b)] for arrays of one or two axes *)
Definition np_dot (a b : np.ndarray) : result np.ndarray :=
  match np.shape a, np.shape b with
  | [n], [m] =>
      if decide (n = m) then Ok (np.mk_ndarray [] [dot1 (np.data a) (np.data b)])
      else Raise (ValueError "shapes not aligned")
  | [n], [m; k] =>
      if decide (n = m)
      then Ok (np.mk_ndarray [k]
                 (map (dot1 (np.data a)) (transpose_rows k (chunks k m (np.data b)))))
      else Raise (ValueError "shapes not aligned")
  | [n; m], [k] =>
      if decide (m = k)
      then Ok (np.mk_ndarray [n]
                 (map (fun r => dot1 r (np.data b)) (chunks m n (np.data a))))
      else Raise (ValueError "shapes not aligned")
  | [n; m], [m'; k] =>
      if decide (m = m')
      then Ok (np.mk_ndarray [n; k]
                 (concat (map (fun r => map (dot1 r)
                                          (transpose_rows k (chunks k m' (np.data b))))
                              (chunks m n (np.data a)))))
      else Raise (ValueError "shapes not aligned")
  | _, _ => Raise (ValueError "shapes not aligned")
  end.

Definition centred (r : list float) : list float :=
  let m := np_mean r in map (fun x => (x - m)%float) r.

(** [np.cov]: each row is a variable; the result is squeezed *)
Definition np_cov (a : np.ndarray) : result np.ndarray :=
  let '(vars, n) := match np.shape a with
                    | [m; n] => (chunks n m (np.data a), n)
                    | _ => ([np.data a], length (np.data a))
                    end in
  let cs := map centred vars in
  Ok (np.squeeze
        (np.mk_ndarray [length vars; length vars]
           (concat (map (fun u => map (fun v => fdiv_nat (dot1 u v) (n - 1)) cs) cs)))).

(** [np.linalg.pinv]: defined on arrays of at least two axes; the
    pseudo-inverse itself is left out. *)
Definition np_pinv (a : np.ndarray) : result np.ndarray :=
  match np.shape a with
  | [] | [_] => Raise (LibraryError "LinAlgError: array must be at least two-dimensional")
  | _ => Raise (LibraryError "pinv: not part of the reference")
  end.

(** [np.concatenate(arrays).mean(axis=0)] for arrays of two axes *)
Definition np_concatenate_mean0 (arrays : list np.ndarray) : result np.ndarray :=
  match arrays with
  | [] => Raise (ValueError "need at least one array to concatenate")
  | a :: _ =>
      match np.shape a with
      | [_; k] =>
          if forallb (fun b => match np.shape b with
                               | [_; k'] => bool_decide (k' = k)
                               | _ => false
                               end) arrays
          then let rows := chunks k (length (concat (map np.data arrays)) / k)
                             (concat (map np.data arrays)) in
               Ok (np.mk_ndarray [k] (map np_mean (transpose_rows k rows)))
          else Raise (ValueError "array dimensions must match")
      | _ => Raise (LibraryError "concatenate: not part of the reference")
      end
  end.

End Reference.

(** ** [save_model] and [load_model]

    joblib keeps what [joblib.dump] was given under the path it was given,
    and [joblib.load] hands it back: the files are a finite map from
    paths to estimators.  [E] is the type of the estimators, [V] that of
    the values of their attributes. *)

Module MvpResultsIO.

(** The [model] argument of [save_model]: a [Pipeline], of which the
    [steps] are taken, or already a list of (name, estimator) pairs. *)
Inductive model_arg (E : Type) : Type :=
  | PipelineModel (steps : list (string * E))
  | StepList (steps : list (string * E)).
Arguments PipelineModel {E} steps.
Arguments StepList {E} steps.

(** The [param] argument of [load_model], when it is not [None]: one
    name or a list of names. *)
Inductive param_arg : Type :=
  | OneParam (p : string)
  | ParamList (ps : list string).

(** What [load_model] returns: the model, or a dict from the requested
    names to the values of the model's attributes. *)
Inductive loaded (E V : Type) : Type :=
  | Model (model : E)
  | Params (d : gmap string V).
Arguments Model {E V} model.
Arguments Params {E V} d.

Section Methods.

Context {L E V : Type}.

(** [os.path.join] of two components, and [getattr] *)
Variable op_join : string -> string -> string.
Variable getattr : E -> string -> option V.

(** [joblib.dump(step[1], fn, compress=3)] *)
Definition joblib_dump (obj : E) (fn : string) : pym (gmap string E) unit :=
  py.modify (fun files => <[fn:=obj]> files).

(** [joblib.load(path)] *)
Definition joblib_load (path : string) : pym (gmap string E) E :=
  files ← py.gets id;
  py.lift (from_option Ok (Raise (IOError path)) (files !! path)).

(** the loop of [save_model] *)
Fixpoint save_steps (out_path : string) (steps : list (string * E))
  : pym (gmap string E) unit :=
  match steps with
  | [] => mret tt
  | step :: steps' =>
      let fn := op_join out_path (step.1 +:+ ".jl") in
      joblib_dump step.2 fn;;
      save_steps out_path steps'
  end.

(** [save_model] *)
Definition save_model (self : MvpResults.t L) (model : model_arg E)
  : pym (gmap string E) unit :=
  let model := match model with
               | PipelineModel steps => steps
               | StepList steps => steps
               end in
  save_steps (MvpResults.out_path self) model.

(** [{p: getattr(model, p) for p in param}]: the attributes are read in
    the order of [param]; a name that occurs again overwrites its entry. *)
Fixpoint getattr_dict (model : E) (param : list string) (d : gmap string V)
  : result (gmap string V) :=
  match param with
  | [] => Ok d
  | p :: param' =>
      v ← from_option Ok (Raise (AttributeError p)) (getattr model p);
      getattr_dict model param' (<[p:=v]> d)
  end.

(** [load_model] *)
Definition load_model (path : string) (param : option param_arg)
  : pym (gmap string E) (loaded E V) :=
  model ← joblib_load path;
  match param with
  | None => mret (Model model)
  | Some param =>
      let param := match param with
                   | OneParam p => [p]
                   | ParamList ps => ps
                   end in
      d ← py.lift (getattr_dict model param ∅);
      mret (Params d)
  end.

End Methods.

End MvpResultsIO.

(** * Notions used in the statements *)

Module Reg := MvpResultsRegression.
Module Cls := MvpResultsClassification.

(** ** Region indexer *)

(** the thresholded region mask, voxel by voxel: value strictly greater
    than the threshold *)
Definition roi_mask (thr : float) (vol : np.ndarray) : list bool :=
  map (fun v => PrimFloat.ltb thr v) (np.data vol).

(** Column [j] of the feature matrix is the [j]-th voxel of the original
    mask; it lies in the region when the region mask holds there. *)
Definition column_in_roi (M R : list bool) (j : nat) : bool :=
  match np.flatnonzero M !! j with
  | Some voxel => bool_decide (R !! voxel = Some true)
  | None => false
  end.

(** the columns to keep, left to right *)
Definition kept_columns (M R : list bool) : list nat :=
  filter (fun j => column_in_roi M R j = true) (seq 0 (np.count_true M)).

Definition overlap_columns {A} (M R : list bool) (row : list A) : list A :=
  omap (fun j => row !! j) (kept_columns M R).

(** the logical AND of the two masks *)
Definition and_mask (M R : list bool) : list bool := zip_with andb M R.

(** ** Methods *)

(** [preserves R m]: whatever [m] does, also when it raises, the state it
    leaves is related by [R] to the one it started from. *)
Definition preserves {S A} (R : S -> S -> Prop) (m : pym S A) : Prop :=
  forall s, R s (m s).1.

(** what [_update_voxel_values] can change: the contents of [n_vox] and
    of [voxel_values], not their shapes *)
Definition frame {L} (s s' : MvpResults.t L) : Prop :=
  exists nv vv,
    length nv = length (MvpResults.n_vox s) /\
    np.nrows vv = np.nrows (MvpResults.voxel_values s) /\
    np.ncols vv = np.ncols (MvpResults.voxel_values s) /\
    (np.wf2 (MvpResults.voxel_values s) -> np.wf2 vv) /\
    s' = MvpResults.set_n_vox nv (MvpResults.set_voxel_values vv s).

(** what extracting the values can change: the contents of [n_vox] *)
Definition n_vox_only {L} (s s' : MvpResults.t L) : Prop :=
  exists nv, s' = MvpResults.set_n_vox nv s.

(** what no call of [update] changes *)
Definition base_same {L} (s s' : MvpResults.t L) : Prop :=
  MvpResults.n_iter s' = MvpResults.n_iter s /\
  MvpResults.fs s' = MvpResults.fs s /\
  MvpResults.n_class s' = MvpResults.n_class s /\
  MvpResults.y s' = MvpResults.y s /\
  MvpResults.X s' = MvpResults.X s /\
  length (MvpResults.n_vox s') = length (MvpResults.n_vox s) /\
  np.nrows (MvpResults.voxel_values s') = np.nrows (MvpResults.voxel_values s) /\
  np.ncols (MvpResults.voxel_values s') = np.ncols (MvpResults.voxel_values s) /\
  (np.wf2 (MvpResults.voxel_values s) -> np.wf2 (MvpResults.voxel_values s')).

(** the number of calls of [update] that returned *)
Definition completed (rs : list (result unit)) : nat :=
  length (filter (fun r => is_ok r = true) rs).

(** ** Regression *)

(** the R² of a fold and its mean squared error, from the labels stored
    at construction *)
Definition fold_r2 (r2_score : list float -> list float -> result float)
    (y : list float) (f : Reg.fold) : result float :=
  y_true ← np.take y (Reg.test_idx f); r2_score y_true (Reg.y_pred f).
Definition fold_mse (mean_squared_error : list float -> list float -> result float)
    (y : list float) (f : Reg.fold) : result float :=
  y_true ← np.take y (Reg.test_idx f); mean_squared_error y_true (Reg.y_pred f).

(** ** Classification *)

(** a 2-D array of shape [(n, m)] *)
Definition has_shape {A} (n m : nat) (a : np.array2 A) : Prop :=
  np.nrows a = n /\ np.ncols a = m /\ np.wf2 a.

(** the entry [(a, b)] of a 2-D array *)
Definition entry (M : np.array2 float) (a b : nat) : float :=
  (np.rows M !!! a) !!! b.

(** the metric arrays keep their lengths *)
Definition same_lengths (s s' : Cls.t) : Prop :=
  length (Cls.accuracy s') = length (Cls.accuracy s) /\
  length (Cls.precision s') = length (Cls.precision s) /\
  length (Cls.recall s') = length (Cls.recall s).

(** the matrix that a completed [update] leaves at the fold's index: the
    fold's confusion matrix, as floats, in the shape of the slot *)
Definition stored_confmat
    (confusion_matrix : list Z -> list Z -> result (np.array2 Z))
    (s : Cls.t) (f : Cls.fold) (C' : np.array2 float) : Prop :=
  exists y_true C old,
    np.take (MvpResults.y (Cls.base s)) (Cls.test_idx f) = Ok y_true /\
    confusion_matrix y_true (Cls.y_pred f) = Ok C /\
    Cls.confmat s !! MvpResults.iter (Cls.base s) = Some old /\
    np.broadcast_to_2d (np.nrows old) (np.ncols old)
      (np.mk_array2 (np.ncols C) (map (map np.float_of_Z) (np.rows C))) = Ok C'.

(** the classes of a label vector, as [np.unique] gives them *)
Definition class_labels (y : list Z) : list Z := merge_sort Z.le (remove_dups y).

(** the confusion matrix of a fold over the classes [labels]: the entry
    [(a, b)] counts the test samples of class [labels[a]] that were
    predicted as class [labels[b]] *)
Definition confusion_over (labels y_true y_pred : list Z) : np.array2 float :=
  np.mk_array2 (length labels)
    (map (fun t => map (fun p => np.float_of_Z
                                  (Reference.count_pairs t p y_true y_pred))
                       labels)
         labels).

(** ** Pipelines *)

(** the values of the matched attribute found on the steps of a pipeline *)
Definition exposing (fs0 : string) (named_steps : list (string * MvpResults.step))
  : list np.ndarray :=
  omap (MvpResults.getattr (MvpResults.matched_attribute fs0)) named_steps.*2.

(** the ensemble steps of a pipeline *)
Definition ensembles (named_steps : list (string * MvpResults.step))
  : list (list MvpResults.member) :=
  omap MvpResults.estimators_ named_steps.*2.

Definition more_than_one_error (fs0 : string) : exn :=
  ValueError ("Found more than one " +:+ MvpResults.matched_attribute fs0 +:+
              " attribute in the pipeline!").
Definition found_no_error (fs0 : string) : exn :=
  ValueError ("Found no " +:+ MvpResults.matched_attribute fs0 +:+
              " attribute anywhere in the pipeline!").

(** ** Writing *)

(** the number of selected entries before position [j] *)
Definition rank (m : list bool) (j : nat) : nat := np.count_true (take j m).

(** the stored per-fold values of voxel [j]: one per row of the array *)
Definition voxel_column (vv : np.array2 float) (j : nat) : list float :=
  map (fun r : list float => r !!! j) (np.rows vv).

(** what [write] is to produce for voxel [j]: the mean over the folds,
    divided by [std / sqrt(n_folds)] when the conversion is on *)
Definition voxel_value (np_mean np_std : list float -> float) (to_tstat : bool)
    (n_folds : nat) (vv : np.array2 float) (j : nat) : float :=
  let col := voxel_column vv j in
  if to_tstat
  then (np_mean col / (np_std col / PrimFloat.sqrt (np.float_of_nat n_folds)))%float
  else np_mean col.

(** the number of entries that are not equal to zero *)
Definition n_nonzero (subset : list float) : nat :=
  length (filter (fun v => PrimFloat.eqb v 0%float = false) subset).

(** * Concrete inputs

    Two six-voxel volumes with a four-voxel original mask, a regression and
    a classification container over three voxels, and a few pipelines. *)

Module Examples.

Import Reference.

Definition vol : np.ndarray :=
  np.mk_ndarray [1; 2; 3] [0; 30; 60; 10; 0; 90]%float.

(** a region that lies outside the original mask *)
Definition vol_outside : np.ndarray :=
  np.mk_ndarray [1; 2; 3] [0; 0; 60; 0; 70; 0]%float.

(** nibabel's loader over a file system that holds two masks *)
Definition nib (path : string) : result np.ndarray :=
  if decide (path = "roi.nii.gz") then Ok vol
  else if decide (path = "outside.nii.gz") then Ok vol_outside
  else Raise (IOError path).

Definition original_mask : list bool := [true; true; false; true; false; true].

Definition roi : RoiIndexer.t := RoiIndexer.mk "roi.nii.gz" 25%float original_mask.
Definition roi_outside : RoiIndexer.t :=
  RoiIndexer.mk "outside.nii.gz" 25%float original_mask.

Definition X : np.array2 float := np.mk_array2 4 [[1; 2; 3; 4]; [5; 6; 7; 8]]%float.

Definition mvp_reg : Mvp float :=
  mk_Mvp (np.mk_array2 3 [[1; 2; 3]; [4; 5; 6]; [7; 8; 10]; [1; 0; 1]]%float)
    [1; 2; 3; 5]%float [true; true; true] "/data/sub01" "mni"
    [[3]] ["stat"] [[1; 0; 0; 0]%float] [0; 1; 2]%Z [0; 0; 0].

Definition mvp_cls : Mvp Z :=
  mk_Mvp (np.mk_array2 3 [[1; 2; 3]; [4; 5; 6]; [7; 8; 10]; [1; 0; 1]]%float)
    [0; 1; 0; 1]%Z [true; true; true] "/data/sub01" "mni"
    [[3]] ["stat"] [[1; 0; 0; 0]%float] [0; 1; 2]%Z [0; 0; 0].

Definition weights : np.ndarray := np.mk_ndarray [1; 3] [0.5; -1; 2]%float.

Definition reg_update :=
  Reg.update np_T np_dot np_cov np_pinv np_concatenate_mean0
    r2_score mean_squared_error.
Definition reg_run :=
  Reg.run np_T np_dot np_cov np_pinv np_concatenate_mean0
    r2_score mean_squared_error.
Definition cls_update :=
  Cls.update np_T np_dot np_cov np_pinv np_concatenate_mean0
    accuracy_score precision_score_macro recall_score_macro confusion_matrix.

Definition fold1 : Reg.fold :=
  Reg.mk_fold [0; 1]%Z [1; 3]%float (Some (MvpResults.Array weights)) None.
Definition fold2 : Reg.fold := Reg.mk_fold [2; 3]%Z [3; 4]%float None None.

(** a linear model and a second step that also has coefficients *)
Definition linear_step : MvpResults.step :=
  MvpResults.mk_step (Some weights) None None None.
Definition scaler_step : MvpResults.step :=
  MvpResults.mk_step None None None None.

Definition two_models : list (string * MvpResults.step) :=
  [("svm", linear_step); ("ridge", linear_step)].
Definition no_model : list (string * MvpResults.step) := [("scaler", scaler_step)].

Definition fold_two_models : Reg.fold :=
  Reg.mk_fold [0; 1]%Z [1; 3]%float (Some (MvpResults.Pipeline two_models)) None.
Definition fold_no_model : Reg.fold :=
  Reg.mk_fold [0; 1]%Z [1; 3]%float (Some (MvpResults.Pipeline no_model)) None.
Definition fold_weights : Reg.fold :=
  Reg.mk_fold [0; 1]%Z [1; 3]%float (Some (MvpResults.Array weights))
    (Some (MvpResults.BoolIdx [true; true; true])).

Definition cls_run :=
  Cls.run np_T np_dot np_cov np_pinv np_concatenate_mean0
    accuracy_score precision_score_macro recall_score_macro confusion_matrix.

Definition cfold1 : Cls.fold := Cls.mk_fold [0; 1]%Z [0; 1]%Z None None.
Definition cfold2 : Cls.fold := Cls.mk_fold [2; 3]%Z [1; 1]%Z None None.

Definition cfold_two_models : Cls.fold :=
  Cls.mk_fold [0; 1]%Z [0; 0]%Z (Some (MvpResults.Pipeline two_models)) None.

(** a regression aggregator after both folds and [compute_scores] *)
Definition finished : Reg.t :=
  (Reg.compute_scores pd_mean pd_std
     (reg_run [fold1; fold2] (Reg.init mvp_reg 2 "coef" false "out")).1).1.

Definition finished_table : MvpResults.dataframe :=
  default [] (MvpResults.df (Reg.base finished)).

End Examples.

(** * Notions used in the further properties *)

(** what a call of [update] leaves alone in the base object: the counter
    until the call completes, the table, and every entry of [n_vox] and
    row of [voxel_values] but the current fold's *)
Definition other_folds_same {L} (s s' : MvpResults.t L) : Prop :=
  MvpResults.iter s' = MvpResults.iter s /\
  MvpResults.df s' = MvpResults.df s /\
  MvpResults.featureset_id s' = MvpResults.featureset_id s /\
  forall i, i <> MvpResults.iter s ->
    MvpResults.n_vox s' !! i = MvpResults.n_vox s !! i /\
    np.rows (MvpResults.voxel_values s') !! i
    = np.rows (MvpResults.voxel_values s) !! i.

(** the entries of a fold that has not been run *)
Definition fold_slot_untouched_reg (n_features : nat) (s : Reg.t) (i : nat) : Prop :=
  Reg.R2 s !! i = Some 0%float /\
  MvpResults.n_vox (Reg.base s) !! i = Some 0%float /\
  np.rows (MvpResults.voxel_values (Reg.base s)) !! i
  = Some (replicate n_features 0%float).

Definition fold_slot_untouched_cls (n_features n_class : nat) (s : Cls.t) (i : nat)
  : Prop :=
  Cls.accuracy s !! i = Some 0%float /\
  Cls.precision s !! i = Some 0%float /\
  Cls.recall s !! i = Some 0%float /\
  Cls.confmat s !! i = Some (np.zeros2 n_class n_class) /\
  MvpResults.n_vox (Cls.base s) !! i = Some 0%float /\
  np.rows (MvpResults.voxel_values (Cls.base s)) !! i
  = Some (replicate n_features 0%float).

(** the number of entries below zero, and of entries that are not a
    number *)
Definition n_negative (subset : list float) : nat :=
  length (filter (fun v => PrimFloat.ltb v 0%float = true) subset).
Definition n_nan (subset : list float) : nat :=
  length (filter (fun v => PrimFloat.eqb v v = false) subset).

(** the files that [save_model] writes for a list of steps *)
Definition step_files (op_join : string -> string -> string) (out_path : string)
    {E} (steps : list (string * E)) : list string :=
  map (fun step : string * E => op_join out_path (step.1 +:+ ".jl")) steps.

(** * Further concrete inputs *)

Module MoreExamples.

Import Reference.

(** a container with two feature sets: two voxels of a 2x2 image and two
    voxels, the second counted from the end, of a five-voxel image *)
Definition mvp_two_sets : Mvp float :=
  mk_Mvp (np.mk_array2 4 [[1; 2; 3; 4]; [5; 6; 7; 9]]%float)
    [1; 2]%float [true; true; true; true] "/data/sub01" "mni"
    [[2; 2]; [5]] ["zstat"; "vbm"] [[1; 0; 0; 0]; [2; 0; 0; 0]]%float
    [1; 3; 0; -1]%Z [0; 0; 1; 1].

(** its aggregator after one fold with a weight per voxel *)
Definition two_sets : MvpResults.t float :=
  Reg.base
    (Examples.reg_run
       [Reg.mk_fold [0; 1]%Z [1; 3]%float
          (Some (MvpResults.Array (np.mk_ndarray [1; 4] [0.5; -1; 2; 4]%float))) None]
       (Reg.init mvp_two_sets 1 "coef" false "out")).1.

(** a container whose second feature set has no shape *)
Definition mvp_missing_shape : Mvp float :=
  mk_Mvp (np.mk_array2 2 [[1; 2]; [5; 6]]%float)
    [1; 2]%float [true; true] "/data/sub01" "mni"
    [[2]] ["zstat"; "vbm"] [[1; 0; 0; 0]; [2; 0; 0; 0]]%float
    [0; 1]%Z [0; 1].

(** a classification container with three classes *)
Definition mvp_three_classes : Mvp Z :=
  mk_Mvp (np.mk_array2 3 [[1; 2; 3]; [4; 5; 6]; [7; 8; 10]; [1; 0; 1]]%float)
    [0; 1; 2; 0]%Z [true; true; true] "/data/sub01" "mni"
    [[3]] ["stat"] [[1; 0; 0; 0]%float] [0; 1; 2]%Z [0; 0; 0].

(** a fold in which every label and prediction is of the first class, and
    one that sees two of three classes *)
Definition cfold_one_class : Cls.fold := Cls.mk_fold [0; 2]%Z [0; 0]%Z None None.
Definition cfold_two_classes : Cls.fold := Cls.mk_fold [0; 1]%Z [0; 1]%Z None None.

(** a fold with a test index past the last label *)
Definition fold_bad_index : Reg.fold := Reg.mk_fold [0; 4]%Z [1; 3]%float None None.

(** a feature selector that keeps two of three features, a model on the
    two, and the pipelines made of them *)
Definition scores : np.ndarray := np.mk_ndarray [2] [3; 7]%float.
Definition selector_step : MvpResults.step :=
  MvpResults.mk_step None (Some scores) None (Some [true; false; true]).
Definition selecting_pipeline : list (string * MvpResults.step) :=
  [("ufs", selector_step); ("scaler", Examples.scaler_step)].
Definition opaque_selector_step : MvpResults.step :=
  MvpResults.mk_step None (Some scores) None None.
Definition opaque_pipeline : list (string * MvpResults.step) :=
  [("ufs", opaque_selector_step); ("scaler", Examples.scaler_step)].

(** a bagging ensemble of two linear models, and one with a member that
    has no coefficients *)
Definition bagging_step : MvpResults.step :=
  MvpResults.mk_step None None
    (Some [MvpResults.mk_member (Some (np.mk_ndarray [1; 3] [1; 2; 3]%float));
           MvpResults.mk_member (Some (np.mk_ndarray [1; 3] [3; 2; 5]%float))])
    None.
Definition bagging_pipeline : list (string * MvpResults.step) :=
  [("scaler", Examples.scaler_step); ("bagging", bagging_step)].
(** an ensemble of models on the two features that a selector keeps, and
    the same behind a step that does not say which it keeps *)
Definition small_bagging_step : MvpResults.step :=
  MvpResults.mk_step None None
    (Some [MvpResults.mk_member (Some (np.mk_ndarray [1; 2] [1; 2]%float));
           MvpResults.mk_member (Some (np.mk_ndarray [1; 2] [3; 6]%float))])
    None.
Definition selected_bagging_pipeline : list (string * MvpResults.step) :=
  [("ufs", selector_step); ("bagging", small_bagging_step)].
Definition unselected_bagging_pipeline : list (string * MvpResults.step) :=
  [("ufs", opaque_selector_step); ("bagging", small_bagging_step)].
Definition tree_bagging_pipeline : list (string * MvpResults.step) :=
  [("bagging",
    MvpResults.mk_step None None
      (Some [MvpResults.mk_member (Some (np.mk_ndarray [1; 3] [1; 2; 3]%float));
             MvpResults.mk_member None])
      None)].

(** [os.path.join] on POSIX, for a relative second component *)
Definition op_join (a b : string) : string := a +:+ "/" +:+ b.

(** estimators that expose their coefficient, a number, as [coef_] *)
Definition getattr (model : nat) (name : string) : option nat :=
  if decide (name = "coef_") then Some model else None.

Definition pipeline_model : MvpResultsIO.model_arg nat :=
  MvpResultsIO.PipelineModel [("scaler", 1); ("svm", 2); ("pca", 3)].

End MoreExamples.

(** * Region indexer: selection lemmas and theorems *)

Lemma flatnonzero_from_S off m :
  np.flatnonzero_from (S off) m = S <$> np.flatnonzero_from off m.
Proof.
  revert off. induction m as [|b m IH]; intros off; simpl; [done|].
  destruct b; simpl; by rewrite IH.
Qed.

Lemma count_true_cons b m :
  np.count_true (b :: m) = (if b then S (np.count_true m) else np.count_true m).
Proof.
  unfold np.count_true. destruct b.
  - by rewrite filter_cons_True.
  - by rewrite filter_cons_False.
Qed.

Lemma length_flatnonzero_from off m :
  length (np.flatnonzero_from off m) = np.count_true m.
Proof.
  revert off. induction m as [|b m IH]; intros off; [done|].
  rewrite count_true_cons. destruct b; simpl; by rewrite IH.
Qed.

Lemma length_select {A} (m : list bool) (a : list A) :
  length m = length a -> length (np.select m a) = np.count_true m.
Proof.
  revert a. induction m as [|b m IH]; intros [|x a] Hlen; try done.
  rewrite count_true_cons. simpl in *. destruct b; simpl; rewrite IH; auto.
Qed.

Lemma omap_lookup_cons_S {A} (x : A) (a : list A) (l : list nat) :
  omap (fun j => (x :: a) !! j) (S <$> l) = omap (fun j => a !! j) l.
Proof.
  induction l as [|p l IHl]; [done|].
  change (omap (fun j => (x :: a) !! j) (S <$> p :: l))
    with (match a !! p with
          | Some v => v :: omap (fun j => (x :: a) !! j) (S <$> l)
          | None => omap (fun j => (x :: a) !! j) (S <$> l)
          end).
  rewrite IHl. done.
Qed.

Lemma select_flatnonzero {A} (m : list bool) (a : list A) :
  length m = length a ->
  np.select m a = omap (fun j => a !! j) (np.flatnonzero m).
Proof.
  unfold np.flatnonzero. revert a.
  induction m as [|b m IH]; intros [|x a] Hlen; try done.
  cbn [np.select np.flatnonzero_from]. rewrite flatnonzero_from_S.
  destruct b.
  - change (omap (fun j => (x :: a) !! j) (0 :: (S <$> np.flatnonzero_from 0 m)))
      with (x :: omap (fun j => (x :: a) !! j) (S <$> np.flatnonzero_from 0 m)).
    rewrite omap_lookup_cons_S, <- IH; auto.
  - rewrite omap_lookup_cons_S, <- IH; auto.
Qed.

(* the j-th entry of the region mask restricted to the original mask *)
Lemma lookup_select (M R : list bool) j :
  length R = length M ->
  np.select M R !! j = (np.flatnonzero M !! j) ≫= (fun v => R !! v).
Proof.
  unfold np.flatnonzero. revert R j.
  induction M as [|b M IH]; intros [|r R] j Hlen; try done.
  simpl in Hlen. simpl. rewrite flatnonzero_from_S.
  destruct b.
  - destruct j as [|j]; simpl; [done|].
    rewrite IH by lia. rewrite list_lookup_fmap.
    by destruct (np.flatnonzero_from 0 M !! j).
  - rewrite IH by lia. rewrite list_lookup_fmap.
    by destruct (np.flatnonzero_from 0 M !! j).
Qed.

Lemma filter_fmap_S (P : nat -> Prop) `{!forall j, Decision (P j)} (l : list nat) :
  filter P (S <$> l) = S <$> filter (fun j => P (S j)) l.
Proof.
  induction l as [|p l IH]; [done|].
  rewrite fmap_cons, !filter_cons, IH.
  by destruct (decide (P (S p))).
Qed.

Lemma flatnonzero_filter (m : list bool) :
  np.flatnonzero m = filter (fun j => m !! j = Some true) (seq 0 (length m)).
Proof.
  unfold np.flatnonzero.
  induction m as [|b m IH]; [done|].
  cbn [length np.flatnonzero_from]. rewrite flatnonzero_from_S, IH.
  rewrite <- cons_seq, <- fmap_S_seq, filter_cons, filter_fmap_S.
  destruct b; simpl; done.
Qed.

Lemma kept_columns_flatnonzero (M R : list bool) :
  length R = length M ->
  kept_columns M R = np.flatnonzero (np.select M R).
Proof.
  intros Hlen. unfold kept_columns.
  rewrite flatnonzero_filter, length_select by done.
  apply list_filter_iff. intros j. unfold column_in_roi.
  rewrite lookup_select by done.
  destruct (np.flatnonzero M !! j) as [v|]; simpl; [|done].
  rewrite bool_decide_eq_true. done.
Qed.

Lemma overlap_restricted (M R : list bool) :
  length R = length M ->
  np.select M (map (fun o => Z.eqb o 2)
                 (zip_with Z.add (np.astype_int R) (np.astype_int M)))
  = np.select M R.
Proof.
  revert R. induction M as [|b M IH]; intros [|r R] Hlen; try done.
  simpl in *. destruct b; simpl; rewrite IH by lia; [|done].
  by destruct r.
Qed.

Lemma select_and_mask (M R : list bool) :
  np.select M (and_mask M R) = np.select M R.
Proof.
  unfold and_mask.
  revert R. induction M as [|b M IH]; intros [|r R]; try done.
  simpl. destruct b; simpl; by rewrite IH.
Qed.

Lemma count_true_select_and (M R : list bool) :
  length R = length M ->
  np.count_true (np.select M R) = np.count_true (and_mask M R).
Proof.
  revert R. induction M as [|b M IH]; intros [|r R] Hlen; try done.
  simpl in Hlen. unfold and_mask in *. cbn [np.select zip_with].
  destruct b; simpl; rewrite ?count_true_cons, IH by lia; done.
Qed.

Lemma count_true_and_mask_empty (M R : list bool) :
  (forall voxel, ~ (M !! voxel = Some true /\ R !! voxel = Some true)) ->
  np.count_true (and_mask M R) = 0.
Proof.
  unfold and_mask.
  revert R. induction M as [|b M IH]; intros [|r R] Hempty; try done.
  cbn [zip_with]. rewrite count_true_cons.
  rewrite IH by (intros v; apply (Hempty (S v))).
  destruct b, r; try done. exfalso. by apply (Hempty 0).
Qed.

Lemma select_count_true_0 {A} (m : list bool) (a : list A) :
  np.count_true m = 0 -> np.select m a = [].
Proof.
  revert a. induction m as [|b m IH]; intros [|x a]; try done.
  rewrite count_true_cons. destruct b; [done|]. apply IH.
Qed.

Lemma transform_eq {A} nib (self : RoiIndexer.t) (X : np.array2 A) vol :
  nib (RoiIndexer.mask self) = Ok vol ->
  length (np.data vol) = length (RoiIndexer.orig_mask self) ->
  np.ncols X = np.count_true (RoiIndexer.orig_mask self) ->
  let sel := np.select (RoiIndexer.orig_mask self)
               (roi_mask (RoiIndexer.mask_threshold self) vol) in
  RoiIndexer.transform nib self X
  = Ok (np.mk_array2 (np.count_true sel) (map (np.select sel) (np.rows X))).
Proof.
  intros Hload Hgeom Hcols sel. unfold RoiIndexer.transform.
  rewrite Hload. cbn [mbind result_bind].
  fold (roi_mask (RoiIndexer.mask_threshold self) vol).
  assert (length (roi_mask (RoiIndexer.mask_threshold self) vol)
          = length (RoiIndexer.orig_mask self)) as HlenR.
  { unfold roi_mask. by rewrite length_map. }
  unfold np.add. rewrite decide_True
    by (unfold np.astype_int; rewrite !length_map; done).
  cbn [mbind result_bind]. unfold np.bool_index.
  rewrite decide_True
    by (unfold np.astype_int; rewrite length_map, length_zip_with, !length_map; lia).
  cbn [mbind result_bind]. rewrite overlap_restricted by done.
  unfold np.bool_index_cols. fold sel.
  rewrite decide_True; [done|].
  unfold sel. rewrite length_select by done. done.
Qed.

Section RoiIndexer_spec.

Variable nib_load_get_data : string -> result np.ndarray.

(** C1: for a feature matrix [X] with one column per voxel of the
    original mask and a region mask volume over the same geometry,
    [transform] returns, with the rows of [X] kept, exactly the columns
    of [X] whose voxel passes the threshold (value strictly greater than
    [mask_threshold]) in the region mask, in the original left-to-right
    order; this is the selection by the logical AND of the two masks
    restricted to the voxels of the original mask. *)
Theorem transform_selects_overlap {A} (self : RoiIndexer.t) (X : np.array2 A)
    (vol : np.ndarray) :
  nib_load_get_data (RoiIndexer.mask self) = Ok vol ->
  length (np.data vol) = length (RoiIndexer.orig_mask self) ->
  np.wf2 X ->
  np.ncols X = np.count_true (RoiIndexer.orig_mask self) ->
  let M := RoiIndexer.orig_mask self in
  let R := roi_mask (RoiIndexer.mask_threshold self) vol in
  exists X_new,
    RoiIndexer.transform nib_load_get_data self X = Ok X_new /\
    np.nrows X_new = np.nrows X /\
    np.wf2 X_new /\
    np.ncols X_new = np.count_true (and_mask M R) /\
    np.rows X_new = map (overlap_columns M R) (np.rows X) /\
    np.rows X_new = map (np.select (np.select M (and_mask M R))) (np.rows X).
Proof.
  intros Hload Hgeom Hwf Hcols M R.
  assert (length R = length M) as HlenR.
  { unfold R, roi_mask. by rewrite length_map. }
  eexists. split; [by apply transform_eq|].
  fold M R. cbn [np.rows np.ncols]. unfold np.nrows. cbn [np.rows].
  split; [by rewrite length_map|]. split.
  { unfold np.wf2. cbn [np.rows np.ncols]. apply Forall_fmap.
    eapply Forall_impl; [exact Hwf|]. intros row Hrow. cbn.
    apply length_select. rewrite length_select by done.
    unfold M. congruence. }
  split; [by apply count_true_select_and|]. split.
  - apply map_ext_Forall. eapply Forall_impl; [exact Hwf|].
    intros row Hrow. cbn in Hrow.
    rewrite select_flatnonzero
      by (rewrite length_select by done; unfold M; congruence).
    unfold overlap_columns. rewrite kept_columns_flatnonzero by done. done.
  - by rewrite select_and_mask.
Qed.

(** C5: when no voxel lies both in the original mask and in the
    thresholded region mask, [transform] raises nothing and returns a
    well-formed matrix with the rows of [X] and zero columns. *)
Theorem transform_empty_intersection {A} (self : RoiIndexer.t) (X : np.array2 A)
    (vol : np.ndarray) :
  nib_load_get_data (RoiIndexer.mask self) = Ok vol ->
  length (np.data vol) = length (RoiIndexer.orig_mask self) ->
  np.wf2 X ->
  np.ncols X = np.count_true (RoiIndexer.orig_mask self) ->
  let M := RoiIndexer.orig_mask self in
  let R := roi_mask (RoiIndexer.mask_threshold self) vol in
  (forall voxel, ~ (M !! voxel = Some true /\ R !! voxel = Some true)) ->
  exists X_new,
    RoiIndexer.transform nib_load_get_data self X = Ok X_new /\
    np.nrows X_new = np.nrows X /\
    np.ncols X_new = 0 /\
    np.wf2 X_new /\
    Forall (fun row => row = []) (np.rows X_new).
Proof.
  intros Hload Hgeom Hwf Hcols M R Hempty.
  assert (length R = length M) as HlenR.
  { unfold R, roi_mask. by rewrite length_map. }
  assert (np.count_true (np.select M R) = 0) as Hzero.
  { rewrite count_true_select_and by done. by apply count_true_and_mask_empty. }
  eexists. split; [by apply transform_eq|].
  fold M R. unfold np.nrows, np.wf2. cbn [np.rows np.ncols].
  split; [by rewrite length_map|]. split; [done|].
  rewrite Hzero. split.
  - apply Forall_fmap, Forall_true. intros row. cbn.
    by rewrite select_count_true_0.
  - apply Forall_fmap, Forall_true. intros row. cbn.
    by apply select_count_true_0.
Qed.

End RoiIndexer_spec.

(** * Reasoning about methods *)

Lemma bind_unfold {S A B} (m : pym S A) (f : A -> pym S B) (s : S) :
  (m ≫= f) s = match m s with
               | (s', Ok a) => f a s'
               | (s', Raise e) => (s', Raise e)
               end.
Proof. reflexivity. Qed.

Section preserves.
Context {S : Type} (R : S -> S -> Prop) `{!Reflexive R} `{!Transitive R}.

Lemma preserves_ret {A} (a : A) : preserves R (mret a : pym S A).
Proof using Type*. intros s. simpl. reflexivity. Qed.
Lemma preserves_raise {A} e : preserves R (py.raise e : pym S A).
Proof using Type*. intros s. simpl. reflexivity. Qed.
Lemma preserves_lift {A} (r : result A) : preserves R (py.lift r : pym S A).
Proof using Type*. intros s. simpl. reflexivity. Qed.
Lemma preserves_gets {A} (f : S -> A) : preserves R (py.gets f).
Proof using Type*. intros s. simpl. reflexivity. Qed.
Lemma preserves_modify (f : S -> S) : (forall s, R s (f s)) -> preserves R (py.modify f).
Proof. intros H s. simpl. apply H. Qed.
Lemma preserves_bind {A B} (m : pym S A) (f : A -> pym S B) :
  preserves R m -> (forall a, preserves R (f a)) -> preserves R (m ≫= f).
Proof using Type*.
  intros Hm Hf s. rewrite bind_unfold. specialize (Hm s).
  destruct (m s) as [s' [a|e]]; simpl in *; [|done].
  etrans; [exact Hm|]. apply Hf.
Qed.
End preserves.

Ltac preserves_step :=
  lazymatch goal with
  | |- preserves _ (mbind _ _) => apply preserves_bind; [try apply _ ..| |intros ?]
  | |- preserves _ (mret _) => apply preserves_ret; try apply _
  | |- preserves _ (py.raise _) => apply preserves_raise; try apply _
  | |- preserves _ (py.lift _) => apply preserves_lift; try apply _
  | |- preserves _ (py.gets _) => apply preserves_gets; try apply _
  | |- preserves _ (py.modify _) => apply preserves_modify; intros ?
  | |- preserves _ (match ?x with _ => _ end) => destruct x
  | |- preserves _ (let '(_, _) := ?x in _) => destruct x
  end.

Ltac unfold_py :=
  unfold mbind, pym_bind, mret, pym_ret, py.bind, py.ret, py.gets, py.lift,
    py.modify, py.raise, py.zoom in *.

#[local] Instance frame_refl {L} : Reflexive (@frame L).
Proof.
  intros s. exists (MvpResults.n_vox s), (MvpResults.voxel_values s).
  by destruct s.
Qed.
#[local] Instance frame_trans {L} : Transitive (@frame L).
Proof.
  intros s1 s2 s3 (nv & vv & H1 & H2 & H3 & H4 & ->)
    (nv' & vv' & H1' & H2' & H3' & H4' & ->).
  exists nv', vv'. destruct s1; cbn in *.
  repeat split; try congruence. auto.
Qed.

Lemma length_scatter {A} (a : list A) ps vs : length (np.scatter a ps vs) = length a.
Proof.
  revert a vs. induction ps as [|p ps IH]; intros a [|v vs]; try done.
  cbn. by rewrite IH, length_insert.
Qed.

Lemma setitem_row_shape a i idx src a' :
  MvpResults.setitem_row a i idx src = Ok a' ->
  np.nrows a' = np.nrows a /\ np.ncols a' = np.ncols a /\ (np.wf2 a -> np.wf2 a').
Proof.
  unfold MvpResults.setitem_row.
  destruct (np.rows a !! i) as [row|] eqn:Erow; [|done].
  destruct (match idx with None => _ | Some _ => _ end) as [ps|]; [|done].
  cbn [mbind result_bind].
  destruct (np.broadcast_to_1d _ _) as [vs|]; [|done].
  intros [= <-]. unfold np.nrows, np.wf2. cbn [np.rows np.ncols].
  rewrite length_insert. repeat split.
  intros Hwf. apply Forall_insert; [done|].
  rewrite length_scatter. by eapply Forall_lookup_1 in Hwf.
Qed.

#[local] Instance base_same_refl {L} : Reflexive (@base_same L).
Proof. intros s. unfold base_same. tauto. Qed.
#[local] Instance base_same_trans {L} : Transitive (@base_same L).
Proof.
  unfold base_same. intros s1 s2 s3 H1 H2.
  destruct H1 as (?&?&?&?&?&?&?&?&?), H2 as (?&?&?&?&?&?&?&?&?).
  repeat split; try congruence. auto.
Qed.

Lemma frame_base_same {L} (s s' : MvpResults.t L) : frame s s' -> base_same s s'.
Proof.
  intros (nv & vv & ? & ? & ? & ? & ->). unfold base_same. by destruct s.
Qed.

Lemma set_iter_base_same {L} i (s : MvpResults.t L) :
  base_same s (MvpResults.set_iter i s).
Proof. unfold base_same. by destruct s. Qed.

Lemma completed_cons r rs :
  completed (r :: rs) = (if is_ok r then 1 else 0) + completed rs.
Proof.
  unfold completed. rewrite filter_cons.
  destruct r; simpl; done.
Qed.

Lemma broadcast_to_2d_shape {A} `{Inhabited A} n m (src C : np.array2 A) :
  np.broadcast_to_2d n m src = Ok C -> has_shape n m C.
Proof.
  unfold np.broadcast_to_2d. destruct (decide _); [|done].
  intros [= <-]. unfold has_shape, np.nrows, np.wf2. cbn [np.rows np.ncols].
  rewrite length_map, length_seq. repeat split.
  apply Forall_fmap, Forall_true. intros i. cbn.
  by rewrite length_map, length_seq.
Qed.

(* a right-hand side of the shape of the target is taken as it is *)
Lemma broadcast_to_2d_entry {A} `{Inhabited A} n m (src C : np.array2 A) a b
    (row : list A) (x : A) :
  np.broadcast_to_2d n m src = Ok C ->
  np.nrows src = n -> np.ncols src = m ->
  a < n -> b < m ->
  np.rows src !! a = Some row -> row !! b = Some x ->
  (np.rows C !!! a) !!! b = x.
Proof.
  unfold np.broadcast_to_2d. destruct (decide _); [|done].
  intros [= <-] Hn Hm Ha Hb Hrow Hx. cbn [np.rows].
  erewrite (list_lookup_total_correct (map _ (seq 0 n)) a);
    [|rewrite list_lookup_fmap, lookup_seq_lt by lia; reflexivity].
  cbn beta zeta. rewrite decide_True by done.
  rewrite (list_lookup_total_correct _ _ _ Hrow).
  erewrite (list_lookup_total_correct (map _ (seq 0 m)) b);
    [|rewrite list_lookup_fmap, lookup_seq_lt by lia; reflexivity].
  cbn beta. rewrite decide_True by done.
  by apply list_lookup_total_correct.
Qed.

Lemma zeros2_shape n m : has_shape n m (np.zeros2 n m).
Proof.
  unfold has_shape, np.zeros2, np.nrows, np.wf2. cbn.
  rewrite length_replicate. repeat split.
  apply Forall_replicate. by rewrite length_replicate.
Qed.

Lemma reg_init_facts mvp n fsc verbose out :
  let s := Reg.init mvp n fsc verbose out in
  length (Reg.R2 s) = n /\ MvpResults.iter (Reg.base s) = 0 /\
  MvpResults.n_iter (Reg.base s) = n /\
  MvpResults.n_class (Reg.base s) = None /\
  MvpResults.fs (Reg.base s) = fsc /\
  MvpResults.y (Reg.base s) = mvp_y mvp /\
  length (MvpResults.n_vox (Reg.base s)) = n.
Proof. cbn. rewrite !length_replicate. done. Qed.

Lemma cls_init_facts mvp n fsc verbose out :
  let s := Cls.init mvp n fsc verbose out in
  let c := Cls.n_unique (mvp_y mvp) in
  length (Cls.accuracy s) = n /\ MvpResults.iter (Cls.base s) = 0 /\
  MvpResults.n_iter (Cls.base s) = n /\
  MvpResults.n_class (Cls.base s) = Some c /\
  MvpResults.fs (Cls.base s) = fsc /\
  MvpResults.y (Cls.base s) = mvp_y mvp /\
  length (MvpResults.n_vox (Cls.base s)) = n /\
  length (Cls.confmat s) = n /\
  Forall (has_shape c c) (Cls.confmat s).
Proof.
  cbn. rewrite !length_replicate. repeat split.
  apply Forall_replicate, zeros2_shape.
Qed.

Lemma add2_entry (acc : list (list float)) (M : np.array2 float) c a b :
  length acc = c -> Forall (fun r => length r = c) acc -> has_shape c c M ->
  a < c -> b < c ->
  length (np.add2 acc (np.rows M)) = c /\
  Forall (fun r => length r = c) (np.add2 acc (np.rows M)) /\
  (np.add2 acc (np.rows M) !!! a) !!! b
  = ((acc !!! a) !!! b + entry M a b)%float.
Proof.
  intros Hlen Hwf (Hn & Hm & HwfM) Ha Hb. unfold np.add2, entry.
  unfold np.nrows in Hn. unfold np.wf2 in HwfM. rewrite Hm in HwfM.
  split; [rewrite length_zip_with; lia|]. split.
  - apply Forall_lookup. intros i r Hr.
    apply lookup_zip_with_Some in Hr as (r1 & r2 & -> & H1 & H2).
    rewrite length_zip_with.
    eapply Forall_lookup_1 in H1; [|exact Hwf].
    eapply Forall_lookup_1 in H2; [|exact HwfM]. cbn in *. lia.
  - destruct (lookup_lt_is_Some_2 acc a) as [r1 H1]; [lia|].
    destruct (lookup_lt_is_Some_2 (np.rows M) a) as [r2 H2]; [lia|].
    rewrite (list_lookup_total_correct _ _ _ H1).
    rewrite (list_lookup_total_correct _ _ _ H2).
    erewrite (list_lookup_total_correct (zip_with _ acc _));
      [|by apply lookup_zip_with_Some; eauto].
    eapply Forall_lookup_1 in Hwf; [|exact H1].
    eapply Forall_lookup_1 in HwfM; [|exact H2]. cbn in *.
    destruct (lookup_lt_is_Some_2 r1 b) as [x1 Hx1]; [lia|].
    destruct (lookup_lt_is_Some_2 r2 b) as [x2 Hx2]; [lia|].
    rewrite (list_lookup_total_correct _ _ _ Hx1).
    rewrite (list_lookup_total_correct _ _ _ Hx2).
    apply list_lookup_total_correct.
    apply lookup_zip_with_Some; eauto.
Qed.

Lemma foldl_add2_entry (rest : list (np.array2 float)) acc c a b :
  length acc = c -> Forall (fun r => length r = c) acc ->
  Forall (has_shape c c) rest -> a < c -> b < c ->
  length (foldl np.add2 acc (map np.rows rest)) = c /\
  Forall (fun r => length r = c) (foldl np.add2 acc (map np.rows rest)) /\
  (foldl np.add2 acc (map np.rows rest) !!! a) !!! b
  = foldl PrimFloat.add ((acc !!! a) !!! b) (map (fun M => entry M a b) rest).
Proof.
  intros Hlen Hwf Hrest Ha Hb. revert acc Hlen Hwf.
  induction Hrest as [|M rest HM Hrest IH]; intros acc Hlen Hwf; [done|].
  cbn [map foldl].
  destruct (add2_entry acc M c a b) as (H1 & H2 & H3); try done.
  destruct (IH _ H1 H2) as (? & ? & ->). by rewrite H3.
Qed.

Lemma sum_axis0_entry (stack : list (np.array2 float)) c a b :
  Forall (has_shape c c) stack -> a < c -> b < c ->
  has_shape c c (np.sum_axis0 c c stack) /\
  entry (np.sum_axis0 c c stack) a b
  = np.fsum (map (fun M => entry M a b) stack).
Proof.
  intros Hst Ha Hb. destruct stack as [|A rest].
  - cbn [np.sum_axis0]. split; [apply zeros2_shape|].
    unfold entry. cbn [np.zeros2 np.rows map np.fsum].
    by rewrite !lookup_total_replicate_2 by done.
  - apply Forall_cons in Hst as [(Hn & Hm & Hwf) Hrest].
    unfold np.wf2 in Hwf. rewrite Hm in Hwf.
    destruct (foldl_add2_entry rest (np.rows A) c a b) as (H1 & H2 & H3);
      [done..|].
    unfold has_shape, np.nrows, np.wf2, entry. cbn [np.sum_axis0 np.rows np.ncols].
    repeat split; done.
Qed.

#[local] Instance n_vox_only_refl {L} : Reflexive (@n_vox_only L).
Proof. intros s. exists (MvpResults.n_vox s). by destruct s. Qed.
#[local] Instance n_vox_only_trans {L} : Transitive (@n_vox_only L).
Proof. intros s1 s2 s3 (nv & ->) (nv' & ->). exists nv'. by destruct s1. Qed.

Lemma rank_mono m j j' : j <= j' -> rank m j <= rank m j'.
Proof.
  unfold rank. revert j j'. induction m as [|b m IH]; intros j j' Hle.
  { by rewrite !take_nil. }
  destruct j as [|j]; [cbn; lia|]. destruct j' as [|j']; [lia|].
  cbn [take]. rewrite !count_true_cons.
  specialize (IH j j' ltac:(lia)). destruct b; lia.
Qed.

Lemma select_lookup_rank {A} (m : list bool) (a : list A) j x :
  m !! j = Some true -> a !! j = Some x ->
  np.select m a !! rank m j = Some x.
Proof.
  unfold rank. revert a j. induction m as [|b m IH]; intros [|y a] j Hm Ha; try done.
  destruct j as [|j].
  - cbn in *. by injection Hm as ->.
  - cbn [take]. rewrite count_true_cons. cbn in Hm, Ha.
    destruct b; cbn; by apply IH.
Qed.

Lemma select_lookup_inv {A} (m : list bool) (a : list A) t x :
  np.select m a !! t = Some x ->
  exists j, m !! j = Some true /\ a !! j = Some x /\ rank m j = t.
Proof.
  unfold rank. revert a t. induction m as [|b m IH]; intros [|y a] t Ht; try done.
  cbn in Ht. destruct b.
  - destruct t as [|t].
    + exists 0. cbn in *. done.
    + cbn in Ht. destruct (IH a t Ht) as (j & ? & ? & Hr).
      exists (S j). cbn [take]. rewrite count_true_cons. cbn. auto.
  - destruct (IH a t Ht) as (j & ? & ? & Hr).
    exists (S j). cbn [take]. rewrite count_true_cons. cbn. auto.
Qed.

Lemma scatter_other {A} (a : list A) ps vs q :
  (forall t, ps !! t <> Some q) -> np.scatter a ps vs !! q = a !! q.
Proof.
  revert a vs. induction ps as [|p ps IH]; intros a [|v vs] Hq; try done.
  cbn. rewrite IH by (intros t; apply (Hq (S t))).
  apply list_lookup_insert_ne. intros ->. by apply (Hq 0).
Qed.

Lemma scatter_lookup {A} (a : list A) ps vs t q v :
  ps !! t = Some q -> vs !! t = Some v -> q < length a ->
  (forall t', t < t' -> ps !! t' <> Some q) ->
  np.scatter a ps vs !! q = Some v.
Proof.
  revert a vs t. induction ps as [|p ps IH]; intros a [|v0 vs] t Hp Hv Hq Hlater;
    try done.
  destruct t as [|t].
  - cbn in Hp, Hv. injection Hp as ->. injection Hv as ->. cbn.
    rewrite scatter_other by (intros t; apply (Hlater (S t)); lia).
    by apply list_lookup_insert_eq.
  - cbn in Hp, Hv. cbn. eapply IH; eauto.
    + by rewrite length_insert.
    + intros t' Ht'. apply (Hlater (S t')). lia.
Qed.

Lemma norm_indices_Forall2 len l ps :
  np.norm_indices len l = Ok ps ->
  Forall2 (fun p q => np.norm_index len p = Ok q) l ps.
Proof.
  revert ps. induction l as [|p l IH]; intros ps.
  { intros [= <-]. constructor. }
  cbn. destruct (np.norm_index len p) as [q|] eqn:Eq; [|done].
  cbn. destruct (np.norm_indices len l) as [qs|]; [|done].
  intros [= <-]. constructor; auto.
Qed.

Lemma norm_indices_ok len l :
  Forall (fun p => is_ok (np.norm_index len p) = true) l ->
  exists ps, np.norm_indices len l = Ok ps.
Proof.
  induction 1 as [|p l Hp Hl (ps & IH)]; [by eexists|].
  cbn. destruct (np.norm_index len p) as [q|]; [|done].
  rewrite IH. by eexists.
Qed.

Lemma norm_index_lt len p q : np.norm_index len p = Ok q -> q < len.
Proof.
  unfold np.norm_index. repeat case_decide; intros [= <-]; lia.
Qed.

Lemma elem_of_unique (l : list nat) i : i ∈ np.unique l <-> i ∈ l.
Proof.
  unfold np.unique. rewrite list_elem_of_filter, elem_of_seq.
  split; [tauto|]. intros Hi. split; [done|]. split; [lia|].
  cbn. induction Hi as [i l|i x l Hi IH]; cbn; lia.
Qed.

(** * The aggregators *)

Section aggregators.

Variable np_T : np.ndarray -> np.ndarray.
Variable np_dot : np.ndarray -> np.ndarray -> result np.ndarray.
Variable np_cov : np.ndarray -> result np.ndarray.
Variable np_pinv : np.ndarray -> result np.ndarray.
Variable np_concatenate_mean0 : list np.ndarray -> result np.ndarray.
Variable np_mean np_std : list float -> float.
Variable r2_score mean_squared_error : list float -> list float -> result float.
Variable accuracy_score precision_score_macro recall_score_macro
  : list Z -> list Z -> result float.
Variable confusion_matrix : list Z -> list Z -> result (np.array2 Z).
Variable pd_mean pd_std : list float -> float.

Abbreviation reg_update :=
  (Reg.update np_T np_dot np_cov np_pinv np_concatenate_mean0
     r2_score mean_squared_error).
Abbreviation reg_store_metrics := (Reg.store_metrics r2_score mean_squared_error).
Abbreviation reg_run :=
  (Reg.run np_T np_dot np_cov np_pinv np_concatenate_mean0
     r2_score mean_squared_error).
Abbreviation cls_update :=
  (Cls.update np_T np_dot np_cov np_pinv np_concatenate_mean0
     accuracy_score precision_score_macro recall_score_macro confusion_matrix).
Abbreviation cls_store_metrics :=
  (Cls.store_metrics accuracy_score precision_score_macro recall_score_macro
     confusion_matrix).
Abbreviation cls_run :=
  (Cls.run np_T np_dot np_cov np_pinv np_concatenate_mean0
     accuracy_score precision_score_macro recall_score_macro confusion_matrix).

Section base.
Context {L : Type}.

Lemma store_n_vox_frame size :
  preserves frame (MvpResults.store_n_vox (L:=L) size).
Proof.
  intros s. unfold MvpResults.store_n_vox. unfold_py. unfold np.setitem.
  destruct (decide _); cbn; [|reflexivity].
  exists (<[MvpResults.iter s:=np.float_of_nat size]> (MvpResults.n_vox s)),
    (MvpResults.voxel_values s).
  rewrite length_insert. by destruct s.
Qed.

Lemma store_voxel_values_frame idx a :
  preserves frame (MvpResults.store_voxel_values (L:=L) idx a).
Proof.
  intros s. unfold MvpResults.store_voxel_values. unfold_py.
  destruct (MvpResults.setitem_row _ _ _ _) as [vv|] eqn:E; cbn; [|reflexivity].
  apply setitem_row_shape in E as (? & ? & ?).
  exists (MvpResults.n_vox s), vv. by destruct s.
Qed.

Lemma extract_from_pipeline_frame steps idx :
  preserves frame (MvpResults.extract_from_pipeline (L:=L) np_concatenate_mean0 steps idx).
Proof.
  unfold MvpResults.extract_from_pipeline.
  repeat preserves_step.
Qed.

Lemma extract_values_frame v idx :
  preserves frame (MvpResults.extract_values (L:=L) np_concatenate_mean0 v idx).
Proof.
  unfold MvpResults.extract_values.
  apply preserves_bind; [apply _..| |].
  - destruct v; try apply extract_from_pipeline_frame.
    apply preserves_ret; apply _.
  - intros [a i]. apply preserves_bind; [apply _..|apply store_n_vox_frame|].
    intros _. apply preserves_ret; apply _.
Qed.

Lemma forward_model_frame W idx :
  preserves frame (MvpResults.forward_model (L:=L) np_T np_dot np_cov np_pinv W idx).
Proof. unfold MvpResults.forward_model. repeat preserves_step. Qed.

Lemma store_scores_frame a idx :
  preserves frame (MvpResults.store_scores (L:=L) np_T np_dot np_cov np_pinv a idx).
Proof.
  unfold MvpResults.store_scores.
  apply preserves_bind; [apply _..|apply preserves_gets; apply _|]. intros fs0.
  destruct (_ || _); [apply store_voxel_values_frame|].
  destruct (bool_decide _); [|apply preserves_ret; apply _].
  apply preserves_bind; [apply _..|apply forward_model_frame|].
  intros A. apply store_voxel_values_frame.
Qed.

Lemma _update_voxel_values_frame v idx :
  preserves frame
    (MvpResults._update_voxel_values (L:=L) np_T np_dot np_cov np_pinv
       np_concatenate_mean0 v idx).
Proof.
  unfold MvpResults._update_voxel_values.
  apply preserves_bind; [apply _..|apply extract_values_frame|].
  intros [a i]. apply store_scores_frame.
Qed.

(** [finish_update] either completes, and then the counter has moved by
    one, or raises, and then it has not moved; nothing but [n_vox],
    [voxel_values] and the counter changes. *)
Lemma finish_update_spec values idx (s : MvpResults.t L) :
  let '(s', r) := MvpResults.finish_update np_T np_dot np_cov np_pinv
                    np_concatenate_mean0 values idx s in
  exists s1, frame s s1 /\
    match r with
    | Ok _ => s' = MvpResults.set_iter (S (MvpResults.iter s1)) s1
    | Raise _ => s' = s1
    end.
Proof.
  unfold MvpResults.finish_update. rewrite bind_unfold.
  destruct values as [v|].
  - pose proof (_update_voxel_values_frame v idx s) as Hf.
    destruct (MvpResults._update_voxel_values _ _ _ _ _ _ _ s) as [s1 [[]|e]];
      simpl in *; eauto.
  - simpl. exists s. split; [reflexivity|done].
Qed.

Lemma extract_from_pipeline_error steps idx (b : MvpResults.t L) :
  (1 < length (exposing (MvpResults.fs b) steps) ->
   MvpResults.extract_from_pipeline np_concatenate_mean0 steps idx b
   = (b, Raise (more_than_one_error (MvpResults.fs b)))) /\
  (exposing (MvpResults.fs b) steps = [] -> length (ensembles steps) <> 1 ->
   MvpResults.extract_from_pipeline np_concatenate_mean0 steps idx b
   = (b, Raise (found_no_error (MvpResults.fs b)))).
Proof.
  unfold exposing, ensembles, MvpResults.extract_from_pipeline,
    more_than_one_error, found_no_error.
  unfold_py. split.
  - intros Hlen.
    destruct (omap (MvpResults.getattr _) _) as [|v1 [|v2 vs]]; cbn in Hlen;
      [lia|lia|done].
  - intros -> Hens.
    destruct (omap MvpResults.estimators_ _) as [|e1 [|e2 es]]; cbn in Hens;
      [done|lia|done].
Qed.

Lemma finish_update_pipeline_error steps idx (b : MvpResults.t L) e :
  MvpResults.extract_from_pipeline np_concatenate_mean0 steps idx b = (b, Raise e) ->
  MvpResults.finish_update np_T np_dot np_cov np_pinv np_concatenate_mean0
    (Some (MvpResults.Pipeline steps)) idx b = (b, Raise e) /\
  MvpResults.finish_update np_T np_dot np_cov np_pinv np_concatenate_mean0
    (Some (MvpResults.GridSearchCV steps)) idx b = (b, Raise e).
Proof.
  intros He.
  unfold MvpResults.finish_update, MvpResults._update_voxel_values,
    MvpResults.extract_values.
  unfold_py. rewrite He. done.
Qed.

Lemma extract_values_n_vox_only v idx :
  preserves n_vox_only (MvpResults.extract_values (L:=L) np_concatenate_mean0 v idx).
Proof.
  unfold MvpResults.extract_values.
  apply preserves_bind; [apply _..| |].
  - unfold MvpResults.extract_from_pipeline.
    destruct v; repeat preserves_step.
  - intros [a i]. unfold MvpResults.store_n_vox. repeat preserves_step.
    by eexists.
Qed.

Lemma forward_model_no_n_class W idx (b : MvpResults.t L) :
  MvpResults.n_class b = None ->
  exists e,
    MvpResults.forward_model np_T np_dot np_cov np_pinv W idx b = (b, Raise e) /\
    forall Xs sp,
      MvpResults.index_cols (MvpResults.X b) idx = Ok Xs ->
      np_dot (np_T W) (np_T Xs) = Ok sp ->
      e = AttributeError "n_class".
Proof.
  intros Hnc. unfold MvpResults.forward_model. unfold_py. rewrite Hnc.
  destruct (MvpResults.index_cols _ _) as [Xs|e1] eqn:EX.
  2:{ exists e1. split; [done|]. intros; discriminate. }
  destruct (np_dot _ _) as [sp|e2] eqn:Ed.
  2:{ exists e2. split; [done|]. intros ? ? [= <-] Hd. congruence. }
  cbn. eexists. split; [done|]. done.
Qed.

Lemma store_scores_forward_no_n_class W idx (b : MvpResults.t L) :
  MvpResults.fs b = "forward" ->
  MvpResults.n_class b = None ->
  exists e,
    MvpResults.store_scores np_T np_dot np_cov np_pinv W idx b = (b, Raise e) /\
    forall Xs sp,
      MvpResults.index_cols (MvpResults.X b) idx = Ok Xs ->
      np_dot (np_T W) (np_T Xs) = Ok sp ->
      e = AttributeError "n_class".
Proof.
  intros Hfs Hnc. unfold MvpResults.store_scores.
  rewrite bind_unfold. cbn [py.gets]. rewrite Hfs.
  change (MvpResults.fnmatch_coef_star "forward" || MvpResults.fnmatch_ufs "forward")
    with false.
  change (bool_decide ("forward" = "forward")) with true. cbn match.
  rewrite bind_unfold.
  destruct (forward_model_no_n_class W idx b Hnc) as (e & -> & He).
  by exists e.
Qed.

Lemma _update_voxel_values_forward_no_n_class v idx (b : MvpResults.t L) :
  MvpResults.fs b = "forward" ->
  MvpResults.n_class b = None ->
  exists b' e,
    MvpResults._update_voxel_values np_T np_dot np_cov np_pinv
      np_concatenate_mean0 v idx b = (b', Raise e) /\
    n_vox_only b b' /\
    forall b2 W idx' Xs sp,
      MvpResults.extract_values np_concatenate_mean0 v idx b = (b2, Ok (W, idx')) ->
      MvpResults.index_cols (MvpResults.X b2) idx' = Ok Xs ->
      np_dot (np_T W) (np_T Xs) = Ok sp ->
      e = AttributeError "n_class".
Proof.
  intros Hfs Hnc. unfold MvpResults._update_voxel_values. rewrite bind_unfold.
  pose proof (extract_values_n_vox_only v idx b) as Hnv.
  destruct (MvpResults.extract_values _ _ _ b) as [b1 [[W idx']|e1]]; cbn in Hnv.
  - destruct Hnv as (nv & ->).
    destruct (store_scores_forward_no_n_class W idx'
                (MvpResults.set_n_vox nv b)) as (e & -> & He);
      [by destruct b..|].
    eexists _, e. split; [done|]. split; [by eexists|].
    intros b2 W' idx'' Xs sp [= <- <- <-]. apply He.
  - eexists _, e1. split; [done|]. split; [done|]. intros; discriminate.
Qed.

Lemma reduce_values_length to_tstat vv :
  length (MvpResults.reduce_values np_mean np_std to_tstat vv) = np.ncols vv.
Proof.
  unfold MvpResults.reduce_values, np.columns. destruct to_tstat.
  - rewrite length_zip_with, !length_map, length_seq. lia.
  - by rewrite !length_map, length_seq.
Qed.

Lemma reduce_values_lookup to_tstat vv j :
  j < np.ncols vv ->
  MvpResults.reduce_values np_mean np_std to_tstat vv !! j
  = Some (voxel_value np_mean np_std to_tstat (np.nrows vv) vv j).
Proof.
  intros Hj. unfold MvpResults.reduce_values, np.columns, voxel_value.
  fold (voxel_column vv).
  assert (seq 0 (np.ncols vv) !! j = Some j) as Hs by (by apply lookup_seq).
  destruct to_tstat.
  - apply lookup_zip_with_Some. eexists _, _. split; [done|].
    rewrite !list_lookup_fmap, Hs. done.
  - rewrite !list_lookup_fmap, Hs. done.
Qed.

(** the image and the count that one turn of the loop produces *)
Lemma write_featureset_ok (self : MvpResults.t L) (values : list float) i sh aff name :
  length values = length (MvpResults.featureset_id self) ->
  length (MvpResults.voxel_idx self) = length (MvpResults.featureset_id self) ->
  MvpResults.data_shape self !! i = Some sh ->
  MvpResults.affine self !! i = Some aff ->
  MvpResults.data_name self !! i = Some name ->
  (forall j p, MvpResults.featureset_id self !! j = Some i ->
     MvpResults.voxel_idx self !! j = Some p ->
     is_ok (np.norm_index (foldr Nat.mul 1 sh) p) = true) ->
  let in_set := map (fun f => bool_decide (f = i)) (MvpResults.featureset_id self) in
  let subset := np.select in_set values in
  exists ps,
    np.norm_indices (foldr Nat.mul 1 sh) (np.select in_set (MvpResults.voxel_idx self))
      = Ok ps /\
    MvpResults.write_featureset self values i
    = Ok (MvpResults.mk_written (MvpResults.out_path self) (name +:+ ".nii.gz") sh
            (np.scatter (replicate (foldr Nat.mul 1 sh) 0%float) ps subset)
            aff (MvpResults.n_positive subset)).
Proof.
  intros Hlv Hli Hsh Haff Hname Hpos in_set subset.
  assert (length in_set = length (MvpResults.featureset_id self)) as Hin
    by (unfold in_set; by rewrite length_map).
  destruct (norm_indices_ok (foldr Nat.mul 1 sh)
              (np.select in_set (MvpResults.voxel_idx self))) as (ps & Hps).
  { apply Forall_lookup. intros t p Ht.
    apply select_lookup_inv in Ht as (j & Hm & Hp & _).
    unfold in_set in Hm. rewrite list_lookup_fmap in Hm.
    destruct (MvpResults.featureset_id self !! j) as [f|] eqn:Ef; [|done].
    cbn in Hm. injection Hm as Hm. apply bool_decide_eq_true in Hm as ->.
    eauto. }
  exists ps. split; [done|].
  unfold MvpResults.write_featureset. rewrite Hsh. cbn [from_option mbind result_bind].
  fold in_set. unfold np.bool_index.
  rewrite !decide_True by congruence. cbn [mbind result_bind].
  rewrite length_replicate, Hps. cbn [mbind result_bind].
  rewrite Haff, Hname. done.
Qed.

Lemma write_loop_ok (self : MvpResults.t L) values ids done :
  (forall i, i ∈ ids -> exists w, MvpResults.write_featureset self values i = Ok w) ->
  exists ws,
    MvpResults.write_loop self values ids done = ((done ++ ws)%list, Ok tt) /\
    Forall2 (fun i w => MvpResults.write_featureset self values i = Ok w) ids ws.
Proof.
  revert done. induction ids as [|i ids IH]; intros done Hall.
  { exists []. rewrite app_nil_r. split; [done|constructor]. }
  destruct (Hall i) as (w & Hw); [by left|].
  destruct (IH (done ++ [w])%list) as (ws & Hloop & Hws).
  { intros i' Hi'. apply Hall. by right. }
  exists (w :: ws). cbn. rewrite Hw, Hloop, <- app_assoc. split; [done|].
  by constructor.
Qed.

(** C7: [write] puts, at the image position of every voxel, the mean of
    the [n_folds] stored per-fold values of that voxel divided by their
    standard deviation over [sqrt n_folds] when the conversion is on, and
    the plain mean when it is off.  The positions are in range, and a
    position that several voxels of one feature set share keeps the last
    of them. *)
Theorem write_t_statistic_per_voxel (self : MvpResults.t L) (to_tstat : bool)
    (table : MvpResults.dataframe) :
  let vv := MvpResults.voxel_values self in
  let n_folds := MvpResults.n_iter self in
  np.nrows vv = n_folds ->
  length (MvpResults.featureset_id self) = np.ncols vv ->
  length (MvpResults.voxel_idx self) = np.ncols vv ->
  MvpResults.df self = Some table ->
  (forall i, i ∈ MvpResults.featureset_id self ->
     i < length (MvpResults.data_shape self) /\
     i < length (MvpResults.affine self) /\
     i < length (MvpResults.data_name self)) ->
  (forall j i p sh,
     MvpResults.featureset_id self !! j = Some i ->
     MvpResults.voxel_idx self !! j = Some p ->
     MvpResults.data_shape self !! i = Some sh ->
     is_ok (np.norm_index (foldr Nat.mul 1 sh) p) = true) ->
  exists ws,
    MvpResults.write np_mean np_std to_tstat self = (ws, Ok table) /\
    length ws = length (np.unique (MvpResults.featureset_id self)) /\
    forall j i p sh name q,
      MvpResults.featureset_id self !! j = Some i ->
      MvpResults.voxel_idx self !! j = Some p ->
      MvpResults.data_shape self !! i = Some sh ->
      MvpResults.data_name self !! i = Some name ->
      np.norm_index (foldr Nat.mul 1 sh) p = Ok q ->
      (forall j' p', j < j' ->
         MvpResults.featureset_id self !! j' = Some i ->
         MvpResults.voxel_idx self !! j' = Some p' ->
         np.norm_index (foldr Nat.mul 1 sh) p' <> Ok q) ->
      exists w,
        w ∈ ws /\
        MvpResults.w_filename w = name +:+ ".nii.gz" /\
        MvpResults.w_shape w = sh /\
        MvpResults.w_img w !! q
        = Some (voxel_value np_mean np_std to_tstat n_folds vv j).
Proof.
  intros vv n_folds Hrows Hfs Hvi Hdf Hmeta Hpos. rewrite <- Hrows. clear Hrows.
  set (values := MvpResults.reduce_values np_mean np_std to_tstat vv).
  assert (length values = length (MvpResults.featureset_id self)) as Hlv.
  { unfold values. by rewrite reduce_values_length. }
  assert (length (MvpResults.voxel_idx self)
          = length (MvpResults.featureset_id self)) as Hli by congruence.
  destruct (write_loop_ok self values (np.unique (MvpResults.featureset_id self)) [])
    as (ws & Hloop & Hws).
  { intros i Hi. rewrite elem_of_unique in Hi.
    destruct (Hmeta i Hi) as (H1 & H2 & H3).
    apply lookup_lt_is_Some_2 in H1 as [sh Hsh].
    apply lookup_lt_is_Some_2 in H2 as [aff Haff].
    apply lookup_lt_is_Some_2 in H3 as [name Hname].
    destruct (write_featureset_ok self values i sh aff name) as (ps & _ & ->);
      eauto. }
  exists ws. split; [|split].
  - unfold MvpResults.write. fold vv. fold values. rewrite Hloop, Hdf. done.
  - symmetry. by eapply Forall2_length.
  - intros j i p sh name q Hj Hp Hsh Hname Hq Hlater.
    assert (i ∈ np.unique (MvpResults.featureset_id self)) as Hi.
    { rewrite elem_of_unique. by eapply list_elem_of_lookup_2. }
    apply list_elem_of_lookup_1 in Hi as (t0 & Ht0).
    destruct (Forall2_lookup_l _ _ _ _ _ Hws Ht0) as (w & Hw & Hwf).
    exists w. split; [by eapply list_elem_of_lookup_2|].
    destruct (Hmeta i) as (_ & H2 & _); [by eapply list_elem_of_lookup_2|].
    apply lookup_lt_is_Some_2 in H2 as [aff Haff].
    destruct (write_featureset_ok self values i sh aff name) as (ps & Hps & Hwf');
      eauto.
    rewrite Hwf' in Hwf. injection Hwf as <-. cbn.
    split; [done|]. split; [done|].
    set (in_set := map (fun f => bool_decide (f = i)) (MvpResults.featureset_id self)).
    fold in_set in Hps.
    assert (in_set !! j = Some true) as Hin.
    { unfold in_set. rewrite list_lookup_fmap, Hj. cbn.
      by rewrite bool_decide_eq_true_2. }
    assert (j < np.ncols vv) as Hjk.
    { rewrite <- Hfs. by eapply lookup_lt_Some. }
    apply norm_indices_Forall2 in Hps.
    pose proof (select_lookup_rank in_set (MvpResults.voxel_idx self) j p Hin Hp) as Hsp.
    destruct (Forall2_lookup_l _ _ _ _ _ Hps Hsp) as (q' & Hq' & Hnq).
    assert (q' = q) as -> by congruence.
    apply scatter_lookup with (t := rank in_set j).
    + done.
    + apply select_lookup_rank; [done|]. unfold values.
      by apply reduce_values_lookup.
    + rewrite length_replicate. by eapply norm_index_lt.
    + intros t' Ht' Hps'.
      destruct (Forall2_lookup_r _ _ _ _ _ Hps Hps') as (p' & Hp' & Hnp').
      apply select_lookup_inv in Hp' as (j' & Hin' & Hvp' & Hrank).
      assert (j < j') as Hjj'.
      { destruct (decide (j < j')); [done|].
        pose proof (rank_mono in_set j' j ltac:(lia)). lia. }
      apply (Hlater j' p' Hjj'); [|done..].
      unfold in_set in Hin'. rewrite list_lookup_fmap in Hin'.
      destruct (MvpResults.featureset_id self !! j') as [f|]; [|done].
      cbn in Hin'. injection Hin' as Hin'.
      by apply bool_decide_eq_true in Hin' as ->.
Qed.

End base.

Lemma reg_store_metrics_spec f s :
  let '(s1, r) := reg_store_metrics f s in
  Reg.base s1 = Reg.base s /\
  length (Reg.R2 s1) = length (Reg.R2 s) /\
  match r with
  | Ok _ =>
      MvpResults.iter (Reg.base s) < length (Reg.R2 s) /\
      exists y_true r2 m,
        np.take (MvpResults.y (Reg.base s)) (Reg.test_idx f) = Ok y_true /\
        r2_score y_true (Reg.y_pred f) = Ok r2 /\
        mean_squared_error y_true (Reg.y_pred f) = Ok m /\
        Reg.R2 s1 = <[MvpResults.iter (Reg.base s):=r2]> (Reg.R2 s) /\
        Reg.mse s1 = Reg.MseScalar m
  | Raise _ => True
  end.
Proof.
  unfold Reg.store_metrics. unfold_py. unfold np.setitem.
  destruct (np.take _ _) as [y_true|e] eqn:Et; [|done].
  destruct (r2_score _ _) as [r2|e] eqn:Er; [|done].
  destruct (decide _) as [Hlt|Hge]; [|done].
  destruct (mean_squared_error _ _) as [m|e] eqn:Em; cbn.
  - rewrite length_insert. repeat split; eauto 10.
  - rewrite length_insert. done.
Qed.

Lemma reg_update_step f s :
  let '(s', r) := reg_update f s in
  exists b', frame (Reg.base s) b' /\
    length (Reg.R2 s') = length (Reg.R2 s) /\
    match r with
    | Ok _ => Reg.base s' = MvpResults.set_iter (S (MvpResults.iter (Reg.base s))) b'
              /\ MvpResults.iter (Reg.base s) < length (Reg.R2 s)
    | Raise _ => Reg.base s' = b'
    end.
Proof.
  unfold Reg.update. rewrite bind_unfold.
  pose proof (reg_store_metrics_spec f s) as Hm.
  destruct (reg_store_metrics f s) as [s1 [[]|e]].
  - destruct Hm as (Hb & Hl & Hlt & _).
    unfold py.zoom.
    pose proof (finish_update_spec
                  (Reg.values f) (Reg.idx f) (Reg.base s1)) as Hf.
    destruct (MvpResults.finish_update _ _ _ _ _ _ _ _) as [b2 r].
    destruct Hf as (b1 & Hfr & Hr). rewrite Hb in Hfr.
    exists b1. split; [done|]. cbn. split; [done|].
    destruct r as [[]|e]; subst b2.
    + split; [|done]. destruct Hfr as (nv & vv & _ & _ & _ & _ & ->). by rewrite <- Hb.
    + done.
  - destruct Hm as (Hb & Hl & _). exists (Reg.base s).
    split; [reflexivity|]. split; [done|]. done.
Qed.

Lemma reg_update_same f s :
  let '(s', r) := reg_update f s in
  base_same (Reg.base s) (Reg.base s') /\
  length (Reg.R2 s') = length (Reg.R2 s) /\
  MvpResults.iter (Reg.base s')
    = MvpResults.iter (Reg.base s) + (if is_ok r then 1 else 0) /\
  (is_ok r = true -> MvpResults.iter (Reg.base s) < length (Reg.R2 s)).
Proof.
  pose proof (reg_update_step f s) as Hstep.
  destruct (reg_update f s) as [s1 r].
  destruct Hstep as (b' & Hfr & HR2 & Hr).
  pose proof Hfr as (nv & vv & _ & _ & _ & _ & Hb').
  apply frame_base_same in Hfr.
  destruct r as [[]|e].
  - destruct Hr as [-> Hlt]. split.
    { etrans; [exact Hfr|]. apply set_iter_base_same. }
    cbn. repeat split; auto with lia.
  - rewrite Hr. split; [done|]. split; [done|]. split; [|done].
    rewrite Hb'. cbn. lia.
Qed.

Lemma reg_run_spec folds s :
  let '(s', rs) := reg_run folds s in
  length rs = length folds /\
  base_same (Reg.base s) (Reg.base s') /\
  length (Reg.R2 s') = length (Reg.R2 s) /\
  MvpResults.iter (Reg.base s') = MvpResults.iter (Reg.base s) + completed rs /\
  (MvpResults.iter (Reg.base s) <= length (Reg.R2 s) ->
   MvpResults.iter (Reg.base s') <= length (Reg.R2 s)).
Proof.
  revert s. induction folds as [|f folds IH]; intros s.
  { cbn. unfold completed. cbn. split; [done|]. split; [reflexivity|].
    repeat split; auto with lia. }
  cbn [Reg.run].
  pose proof (reg_update_same f s) as Hstep.
  destruct (reg_update f s) as [s1 r].
  destruct Hstep as (Hsame & HR2 & Hit & Hlt).
  specialize (IH s1).
  destruct (reg_run folds s1) as [s2 rs].
  destruct IH as (Hl & Hsame2 & HR2' & Hit2 & Hle2).
  rewrite completed_cons. cbn [length].
  split; [congruence|]. split; [by etrans|].
  split; [congruence|]. split; [lia|].
  intros Hle. rewrite <- HR2. apply Hle2. rewrite HR2.
  destruct r; cbn in *; [specialize (Hlt eq_refl)|]; lia.
Qed.

Lemma cls_store_metrics_spec f s :
  let '(s1, r) := cls_store_metrics f s in
  Cls.base s1 = Cls.base s /\
  same_lengths s s1 /\
  match r with
  | Ok _ =>
      MvpResults.iter (Cls.base s) < length (Cls.accuracy s) /\
      exists C', stored_confmat confusion_matrix s f C' /\
        Cls.confmat s1 = <[MvpResults.iter (Cls.base s):=C']> (Cls.confmat s)
  | Raise _ => Cls.confmat s1 = Cls.confmat s
  end.
Proof.
  unfold Cls.store_metrics, stored_confmat, same_lengths. unfold_py. unfold np.setitem.
  destruct (np.take _ _) as [y_true|e] eqn:Et; [|done].
  destruct (accuracy_score _ _) as [a|e] eqn:Ea; [|done].
  destruct (decide _) as [Hlt|Hge]; [|done].
  destruct (precision_score_macro _ _) as [p|e] eqn:Ep;
    [|by cbn; rewrite ?length_insert].
  destruct (decide _) as [Hlt2|Hge2]; [|by cbn; rewrite ?length_insert].
  destruct (recall_score_macro _ _) as [r|e] eqn:Er;
    [|by cbn; rewrite ?length_insert].
  destruct (decide _) as [Hlt3|Hge3]; [|by cbn; rewrite ?length_insert].
  destruct (confusion_matrix _ _) as [C|e] eqn:Ec;
    [|by cbn; rewrite ?length_insert].
  unfold Cls.setitem_confmat. cbn [Cls.confmat Cls.set_recall Cls.set_precision
    Cls.set_accuracy Cls.base id].
  destruct (Cls.confmat s !! MvpResults.iter (Cls.base s)) as [old|] eqn:Eo;
    [|by cbn; rewrite ?length_insert].
  cbn [mbind result_bind].
  destruct (np.broadcast_to_2d _ _ _) as [C'|e] eqn:Eb;
    [|by cbn; rewrite ?length_insert].
  cbn. rewrite ?length_insert. repeat split; [done|].
  exists C'. split; [|done]. exists y_true, C, old. done.
Qed.

Lemma cls_update_step f s :
  let '(s', r) := cls_update f s in
  exists b', frame (Cls.base s) b' /\
    same_lengths s s' /\
    match r with
    | Ok _ => Cls.base s' = MvpResults.set_iter (S (MvpResults.iter (Cls.base s))) b'
              /\ MvpResults.iter (Cls.base s) < length (Cls.accuracy s)
              /\ exists C', stored_confmat confusion_matrix s f C' /\
                   Cls.confmat s' = <[MvpResults.iter (Cls.base s):=C']> (Cls.confmat s)
    | Raise _ => Cls.base s' = b' /\
                 (Cls.confmat s' = Cls.confmat s \/
                  exists C', stored_confmat confusion_matrix s f C' /\
                    Cls.confmat s' = <[MvpResults.iter (Cls.base s):=C']> (Cls.confmat s))
    end.
Proof.
  unfold Cls.update. rewrite bind_unfold.
  pose proof (cls_store_metrics_spec f s) as Hm.
  destruct (cls_store_metrics f s) as [s1 [[]|e]].
  - destruct Hm as (Hb & Hl & Hlt & HC).
    unfold py.zoom.
    pose proof (finish_update_spec
                  (Cls.values f) (Cls.idx f) (Cls.base s1)) as Hf.
    destruct (MvpResults.finish_update _ _ _ _ _ _ _ _) as [b2 r].
    destruct Hf as (b1 & Hfr & Hr). rewrite Hb in Hfr.
    exists b1. split; [done|]. cbn. split; [done|].
    destruct r as [[]|e]; subst b2.
    + split; [|done]. destruct Hfr as (nv & vv & _ & _ & _ & _ & ->). by rewrite <- Hb.
    + split; [done|]. by right.
  - destruct Hm as (Hb & Hl & HC). exists (Cls.base s).
    split; [reflexivity|]. split; [done|]. split; [done|]. by left.
Qed.

Lemma cls_update_same c f s :
  Forall (has_shape c c) (Cls.confmat s) ->
  let '(s', r) := cls_update f s in
  base_same (Cls.base s) (Cls.base s') /\
  same_lengths s s' /\
  length (Cls.confmat s') = length (Cls.confmat s) /\
  Forall (has_shape c c) (Cls.confmat s') /\
  MvpResults.iter (Cls.base s')
    = MvpResults.iter (Cls.base s) + (if is_ok r then 1 else 0) /\
  (is_ok r = true ->
   MvpResults.iter (Cls.base s) < length (Cls.accuracy s) /\
   exists C', stored_confmat confusion_matrix s f C' /\
     Cls.confmat s' = <[MvpResults.iter (Cls.base s):=C']> (Cls.confmat s)).
Proof.
  intros Hsh.
  pose proof (cls_update_step f s) as Hstep.
  destruct (cls_update f s) as [s1 r].
  destruct Hstep as (b' & Hfr & Hacc & Hr).
  pose proof Hfr as (nv & vv & _ & _ & _ & _ & Hb').
  apply frame_base_same in Hfr.
  assert (forall C', stored_confmat confusion_matrix s f C' -> has_shape c c C') as Hst.
  { intros C' (yt & C & old & _ & _ & Hold & Hb).
    apply broadcast_to_2d_shape in Hb.
    eapply Forall_lookup_1 in Hold; [|exact Hsh].
    destruct Hold as (H1 & H2 & _). by rewrite H1, H2 in Hb. }
  destruct r as [[]|e].
  - destruct Hr as (-> & Hlt & C' & HC' & ->). split.
    { etrans; [exact Hfr|]. apply set_iter_base_same. }
    split; [done|].
    cbn. rewrite length_insert. split; [done|].
    split; [apply Forall_insert; auto|].
    split; [lia|]. eauto.
  - destruct Hr as (Hr & Hc). rewrite Hr. split; [done|]. split; [done|].
    cbn. split; [by destruct Hc as [->|(C' & _ & ->)]; rewrite ?length_insert|].
    split; [destruct Hc as [->|(C' & ? & ->)]; [done|apply Forall_insert; auto]|].
    split; [rewrite Hb'; cbn; lia|done].
Qed.

Lemma cls_run_spec c folds s :
  Forall (has_shape c c) (Cls.confmat s) ->
  let '(s', rs) := cls_run folds s in
  length rs = length folds /\
  base_same (Cls.base s) (Cls.base s') /\
  same_lengths s s' /\
  length (Cls.confmat s') = length (Cls.confmat s) /\
  Forall (has_shape c c) (Cls.confmat s') /\
  MvpResults.iter (Cls.base s') = MvpResults.iter (Cls.base s) + completed rs /\
  (MvpResults.iter (Cls.base s) <= length (Cls.accuracy s) ->
   MvpResults.iter (Cls.base s') <= length (Cls.accuracy s)).
Proof.
  revert s. induction folds as [|f folds IH]; intros s Hsh.
  { cbn. unfold completed. cbn. split; [done|]. split; [reflexivity|].
    repeat split; auto with lia. }
  cbn [Cls.run].
  pose proof (cls_update_same c f s Hsh) as Hstep.
  destruct (cls_update f s) as [s1 r].
  destruct Hstep as (Hsame & Hacc & Hlc & Hsh1 & Hit & Hlt).
  specialize (IH s1 Hsh1).
  destruct (cls_run folds s1) as [s2 rs].
  destruct IH as (Hl & Hsame2 & Hacc' & Hlc' & Hsh2 & Hit2 & Hle2).
  rewrite completed_cons. cbn [length].
  split; [congruence|]. split; [by etrans|].
  split; [unfold same_lengths in *; intuition congruence|].
  split; [congruence|]. split; [done|]. split; [lia|].
  intros Hle. destruct Hacc as (Hacc & _ & _). rewrite <- Hacc. apply Hle2. rewrite Hacc.
  destruct r; cbn in *; [destruct (Hlt eq_refl) as [? _]|]; lia.
Qed.


Lemma reg_update_ok f s s' :
  reg_update f s = (s', Ok tt) ->
  MvpResults.iter (Reg.base s) < length (Reg.R2 s) /\
  exists y_true r2 m,
    np.take (MvpResults.y (Reg.base s)) (Reg.test_idx f) = Ok y_true /\
    r2_score y_true (Reg.y_pred f) = Ok r2 /\
    mean_squared_error y_true (Reg.y_pred f) = Ok m /\
    Reg.R2 s' = <[MvpResults.iter (Reg.base s):=r2]> (Reg.R2 s) /\
    Reg.mse s' = Reg.MseScalar m.
Proof.
  unfold Reg.update. rewrite bind_unfold.
  pose proof (reg_store_metrics_spec f s) as Hm.
  destruct (Reg.store_metrics _ _ f s) as [s1 [[]|e]]; [|done].
  destruct Hm as (_ & _ & Hlt & yt & r2 & m & ? & ? & ? & HR2 & Hmse).
  unfold py.zoom. destruct (MvpResults.finish_update _ _ _ _ _ _ _ _) as [b2 r].
  intros [= <- ->]. split; [done|]. exists yt, r2, m. done.
Qed.

Lemma reg_run_all_ok folds s s' rs :
  reg_run folds s = (s', rs) ->
  Forall (fun r => is_ok r = true) rs ->
  (forall i f, folds !! i = Some f ->
     exists r2, fold_r2 r2_score (MvpResults.y (Reg.base s)) f = Ok r2 /\
       Reg.R2 s' !! (MvpResults.iter (Reg.base s) + i) = Some r2) /\
  (forall j, j < MvpResults.iter (Reg.base s) -> Reg.R2 s' !! j = Reg.R2 s !! j) /\
  (forall f, last folds = Some f ->
     exists m, fold_mse mean_squared_error (MvpResults.y (Reg.base s)) f = Ok m /\
       Reg.mse s' = Reg.MseScalar m).
Proof.
  revert s s' rs. induction folds as [|f folds IH]; intros s s' rs Hrun Hok.
  { cbn in Hrun. injection Hrun as <- <-. repeat split; try done. }
  cbn [Reg.run] in Hrun.
  pose proof (reg_update_same f s) as Hsame.
  destruct (reg_update f s) as [s1 r] eqn:Eu.
  destruct (reg_run folds s1) as [s2 rs2] eqn:Er.
  injection Hrun as <- <-.
  apply Forall_cons in Hok as [Hr Hok].
  destruct r as [[]|e]; [|done].
  apply reg_update_ok in Eu as (Hlt & yt & r2 & m & Hyt & Hr2 & Hm & HR2 & Hmse).
  destruct Hsame as ((_ & _ & _ & Hy & _) & _ & Hit & _). cbn in Hit.
  destruct (IH s1 s2 rs2 Er Hok) as (IH1 & IH2 & IH3).
  rewrite Hy in IH1, IH3.
  split; [|split].
  - intros [|i] g Hg.
    + injection Hg as <-. exists r2. unfold fold_r2. rewrite Hyt. cbn. split; [done|].
      rewrite Nat.add_0_r, IH2 by lia. rewrite HR2.
      by apply list_lookup_insert_eq.
    + destruct (IH1 i g Hg) as (r2' & ? & Hl). exists r2'. split; [done|].
      rewrite <- Hl. f_equal. lia.
  - intros j Hj. rewrite IH2 by lia. rewrite HR2.
    apply list_lookup_insert_ne. lia.
  - intros g Hg. destruct folds as [|f' folds'].
    + cbn in Hg. injection Hg as <-. cbn in Er. injection Er as <- <-.
      exists m. unfold fold_mse. rewrite Hyt. done.
    + apply IH3. done.
Qed.

Lemma pd_DataFrame_ok3 a b c (ca cb cc : list float) :
  length cb = length ca -> length cc = length ca ->
  pd_DataFrame [(a, ca); (b, cb); (c, cc)] = Ok [(a, ca); (b, cb); (c, cc)].
Proof.
  intros Hb Hc. unfold pd_DataFrame. rewrite bool_decide_eq_true_2; [done|].
  repeat constructor; done.
Qed.

(** C2: after a run of completed [update] calls on a regression
    aggregator, the stored mean squared error is the plain number
    computed for the last fold, whatever the earlier folds were, while
    [R2] holds the score of every fold at the fold's index; that one
    number, repeated over the rows, is the MSE column of the table that
    [compute_scores] stores and summarises. *)
Theorem regression_mse_keeps_last_fold_only (mvp : Mvp float) n fsc verbose out
    (folds : list Reg.fold) (last_fold : Reg.fold) s outcomes :
  reg_run (folds ++ [last_fold])%list (Reg.init mvp n fsc verbose out) = (s, outcomes) ->
  Forall (fun r => is_ok r = true) outcomes ->
  exists m,
    fold_mse mean_squared_error (mvp_y mvp) last_fold = Ok m /\
    Reg.mse s = Reg.MseScalar m /\
    (forall i f, (folds ++ [last_fold])%list !! i = Some f ->
       exists r2, fold_r2 r2_score (mvp_y mvp) f = Ok r2 /\ Reg.R2 s !! i = Some r2) /\
    length (Reg.R2 s) = n /\
    exists s' printed,
      Reg.compute_scores pd_mean pd_std s = (s', Ok printed) /\
      MvpResults.df (Reg.base s')
        = Some [("R2", Reg.R2 s); ("MSE", replicate n m);
                ("n_voxels", MvpResults.n_vox (Reg.base s))] /\
      printed !! 1 = Some ("MSE", (pd_mean (replicate n m), pd_std (replicate n m))).
Proof.
  intros Hrun Hok.
  pose proof (reg_init_facts mvp n fsc verbose out)
    as (HR2 & Hit & Hn & _ & _ & Hy & Hnv).
  pose proof (reg_run_spec (folds ++ [last_fold])%list
                (Reg.init mvp n fsc verbose out)) as Hspec.
  rewrite Hrun in Hspec.
  destruct Hspec as (_ & Hsame & HR2' & _ & _).
  destruct Hsame as (_ & _ & _ & _ & _ & Hnv' & _).
  destruct (reg_run_all_ok _ _ _ _ Hrun Hok) as (H1 & _ & H3).
  rewrite Hy in H1, H3. rewrite Hit in H1.
  destruct (H3 last_fold) as (m & Hm & Hmse); [by rewrite last_snoc|].
  exists m. split; [done|]. split; [done|]. split; [exact H1|].
  split; [congruence|].
  unfold Reg.compute_scores. unfold_py. unfold Reg.mse_column. cbn [id].
  rewrite Hmse. rewrite pd_DataFrame_ok3
    by (rewrite ?length_replicate; congruence).
  rewrite HR2', HR2.
  eexists _, _. split; [reflexivity|]. cbn. done.
Qed.

Lemma pd_DataFrame_ok4 a b c d (ca cb cc cd : list float) :
  length cb = length ca -> length cc = length ca -> length cd = length ca ->
  pd_DataFrame [(a, ca); (b, cb); (c, cc); (d, cd)]
  = Ok [(a, ca); (b, cb); (c, cc); (d, cd)].
Proof.
  intros Hb Hc Hd. unfold pd_DataFrame. rewrite bool_decide_eq_true_2; [done|].
  repeat constructor; done.
Qed.

(** A classification aggregator keeps [n_iter] matrices of the size of
    the number of distinct labels counted at construction; a completed
    [update] whose fold has a confusion matrix of that size stores it,
    entry by entry, at the fold's index; and the matrix that
    [compute_scores] reports is, entry by entry, the sum of the stored
    matrices. *)
Theorem confusion_matrices_sum_to_aggregate (mvp : Mvp Z) n fsc verbose out
    (folds : list Cls.fold) :
  let s := (cls_run folds (Cls.init mvp n fsc verbose out)).1 in
  let c := Cls.n_unique (mvp_y mvp) in
  length (Cls.confmat s) = n /\
  Forall (has_shape c c) (Cls.confmat s) /\
  (forall f s' y_true C,
     cls_update f s = (s', Ok tt) ->
     np.take (MvpResults.y (Cls.base s)) (Cls.test_idx f) = Ok y_true ->
     confusion_matrix y_true (Cls.y_pred f) = Ok C ->
     has_shape c c C ->
     MvpResults.iter (Cls.base s) < n /\
     exists C',
       Cls.confmat s' = <[MvpResults.iter (Cls.base s):=C']> (Cls.confmat s) /\
       has_shape c c C' /\
       forall a b, a < c -> b < c ->
         entry C' a b = np.float_of_Z ((np.rows C !!! a) !!! b)) /\
  exists s' summary aggregate,
    Cls.compute_scores pd_mean pd_std s = (s', Ok (summary, aggregate)) /\
    has_shape c c aggregate /\
    forall a b, a < c -> b < c ->
      entry aggregate a b = np.fsum (map (fun M => entry M a b) (Cls.confmat s)).
Proof.
  intros s c. subst s.
  pose proof (cls_init_facts mvp n fsc verbose out)
    as (Hacc & Hit & Hn & Hnc & _ & _ & Hnv & Hlc & Hsh).
  pose proof (cls_run_spec _ folds
                (Cls.init mvp n fsc verbose out) Hsh) as Hrun.
  destruct (cls_run folds _) as [s rs]. cbn [fst snd].
  destruct Hrun as (_ & Hsame & (Hacc' & Hprec' & Hrec') & Hlc' & Hsh' & _ & _).
  destruct Hsame as (_ & _ & Hnc' & _ & _ & Hnv' & _).
  fold c in Hsh, Hsh', Hnc.
  split; [congruence|]. split; [done|]. split.
  - intros f s' y_true C Hup Hy HC HshC.
    pose proof (cls_update_same c f s Hsh') as Hstep.
    rewrite Hup in Hstep.
    destruct Hstep as (_ & _ & _ & Hsh'' & _ & Hok).
    destruct (Hok eq_refl)
      as (Hlt & C' & (yt & C0 & old & Hy' & HC' & Hold & Hb) & Hcm).
    rewrite Hy in Hy'. injection Hy' as <-. rewrite HC in HC'. injection HC' as <-.
    split; [lia|]. exists C'. split; [done|]. split.
    + rewrite Hcm in Hsh''.
      eapply Forall_lookup_1; [exact Hsh''|].
      apply list_lookup_insert_eq. rewrite Hlc', Hlc. lia.
    + intros a b Ha Hb'.
      pose proof (Forall_lookup_1 _ _ _ _ Hsh' Hold) as (Hon & Hom & _).
      rewrite Hon, Hom in Hb. destruct HshC as (HCn & HCm & HCwf).
      unfold np.nrows in HCn. unfold np.wf2 in HCwf. rewrite HCm in HCwf.
      destruct (lookup_lt_is_Some_2 (np.rows C) a) as [row Hrow]; [lia|].
      pose proof (Forall_lookup_1 _ _ _ _ HCwf Hrow) as Hlrow. cbn in Hlrow.
      destruct (lookup_lt_is_Some_2 row b) as [x Hx]; [lia|].
      rewrite (list_lookup_total_correct _ _ _ Hrow).
      rewrite (list_lookup_total_correct _ _ _ Hx).
      unfold entry.
      apply (broadcast_to_2d_entry _ _ _ _ a b (np.float_of_Z <$> row) _ Hb);
        try done.
      * unfold np.nrows. cbn [np.rows]. by rewrite length_map.
      * cbn [np.rows]. by rewrite list_lookup_fmap, Hrow.
      * by rewrite list_lookup_fmap, Hx.
  - unfold Cls.compute_scores. unfold_py. cbn [id].
    rewrite pd_DataFrame_ok4 by (cbn in *; congruence).
    eexists _, _, _. split; [reflexivity|].
    assert (Cls.the_n_class s = c) as ->.
    { unfold Cls.the_n_class. by rewrite Hnc', Hnc. }
    split.
    + destruct c as [|c'].
      * destruct (Cls.confmat s) as [|A rest]; [apply zeros2_shape|].
        apply Forall_cons in Hsh' as [(HA1 & HA2 & HA3) Hrest].
        unfold has_shape, np.nrows, np.wf2 in *. cbn [np.sum_axis0 np.rows np.ncols].
        destruct (np.rows A); [|done]. clear HA3.
        assert (foldl np.add2 [] (map np.rows rest) = []) as ->.
        { clear. induction rest; [done|]. cbn. done. }
        done.
      * apply (sum_axis0_entry _ (S c') 0 0); [done|lia|lia].
    + intros a b Ha Hb. by apply sum_axis0_entry.
Qed.

Lemma reg_update_pipeline_error (s s1 : Reg.t) (f : Reg.fold) steps e :
  Reg.values f = Some (MvpResults.Pipeline steps) ->
  Reg.store_metrics r2_score mean_squared_error f s = (s1, Ok tt) ->
  MvpResults.extract_from_pipeline np_concatenate_mean0 steps (Reg.idx f) (Reg.base s1)
  = (Reg.base s1, Raise e) ->
  reg_update f s = (s1, Raise e).
Proof.
  intros Hv Hm He. unfold Reg.update. rewrite bind_unfold, Hm, Hv.
  unfold py.zoom.
  destruct (finish_update_pipeline_error steps (Reg.idx f) (Reg.base s1) e He) as [-> _].
  by destruct s1.
Qed.

Lemma cls_update_pipeline_error (s s1 : Cls.t) (f : Cls.fold) steps e :
  Cls.values f = Some (MvpResults.Pipeline steps) ->
  Cls.store_metrics accuracy_score precision_score_macro recall_score_macro
    confusion_matrix f s = (s1, Ok tt) ->
  MvpResults.extract_from_pipeline np_concatenate_mean0 steps (Cls.idx f) (Cls.base s1)
  = (Cls.base s1, Raise e) ->
  cls_update f s = (s1, Raise e).
Proof.
  intros Hv Hm He. unfold Cls.update. rewrite bind_unfold, Hm, Hv.
  unfold py.zoom.
  destruct (finish_update_pipeline_error steps (Cls.idx f) (Cls.base s1) e He) as [-> _].
  by destruct s1.
Qed.

(** C4: when [update] is handed a pipeline and the metrics of the fold
    have been stored, more than one step exposing the matched attribute
    makes it raise the "more than one" [ValueError], and no step exposing
    it together with no single ensemble step makes it raise the "no such
    attribute" [ValueError]; in both cases the fold counter stays where it
    was.  For both aggregators. *)
Theorem pipeline_attribute_must_be_unique :
  (forall (s s1 : Reg.t) (f : Reg.fold) steps,
     Reg.values f = Some (MvpResults.Pipeline steps) ->
     Reg.store_metrics r2_score mean_squared_error f s = (s1, Ok tt) ->
     let fs0 := MvpResults.fs (Reg.base s) in
     (1 < length (exposing fs0 steps) ->
      reg_update f s = (s1, Raise (more_than_one_error fs0))) /\
     (exposing fs0 steps = [] -> length (ensembles steps) <> 1 ->
      reg_update f s = (s1, Raise (found_no_error fs0))) /\
     MvpResults.iter (Reg.base s1) = MvpResults.iter (Reg.base s))
  /\
  (forall (s s1 : Cls.t) (f : Cls.fold) steps,
     Cls.values f = Some (MvpResults.Pipeline steps) ->
     Cls.store_metrics accuracy_score precision_score_macro recall_score_macro
       confusion_matrix f s = (s1, Ok tt) ->
     let fs0 := MvpResults.fs (Cls.base s) in
     (1 < length (exposing fs0 steps) ->
      cls_update f s = (s1, Raise (more_than_one_error fs0))) /\
     (exposing fs0 steps = [] -> length (ensembles steps) <> 1 ->
      cls_update f s = (s1, Raise (found_no_error fs0))) /\
     MvpResults.iter (Cls.base s1) = MvpResults.iter (Cls.base s)).
Proof.
  split.
  - intros s s1 f steps Hv Hm fs0.
    pose proof (reg_store_metrics_spec f s) as Hb.
    rewrite Hm in Hb. destruct Hb as (Hb & _).
    destruct (extract_from_pipeline_error steps (Reg.idx f)
                (Reg.base s1)) as [H1 H2].
    assert (MvpResults.fs (Reg.base s1) = fs0) as Hfs by (by rewrite Hb).
    rewrite Hfs in H1, H2.
    repeat split.
    + intros Hlen. eapply reg_update_pipeline_error; eauto.
    + intros Hnone Hens. eapply reg_update_pipeline_error; eauto.
    + by rewrite Hb.
  - intros s s1 f steps Hv Hm fs0.
    pose proof (cls_store_metrics_spec f s) as Hb.
    rewrite Hm in Hb. destruct Hb as (Hb & _).
    destruct (extract_from_pipeline_error steps (Cls.idx f)
                (Cls.base s1)) as [H1 H2].
    assert (MvpResults.fs (Cls.base s1) = fs0) as Hfs by (by rewrite Hb).
    rewrite Hfs in H1, H2.
    repeat split.
    + intros Hlen. eapply cls_update_pipeline_error; eauto.
    + intros Hnone Hens. eapply cls_update_pipeline_error; eauto.
    + by rewrite Hb.
Qed.

(** C10, amended: on a regression aggregator in forward mode every call
    of [update] that supplies feature values raises, with the voxel
    values and the fold counter left as they were; the error is the
    [AttributeError] on [n_class] whenever the metrics are stored, the
    values are extracted and the projection [W.T.dot(X.T)] succeeds. *)
Theorem forward_scoring_always_fails_on_regression (mvp : Mvp float) n verbose out
    (folds : list Reg.fold) test_idx y_pred (v : MvpResults.values_arg) idx :
  let s := (reg_run folds (Reg.init mvp n "forward" verbose out)).1 in
  let f := Reg.mk_fold test_idx y_pred (Some v) idx in
  exists s' e,
    reg_update f s = (s', Raise e) /\
    MvpResults.voxel_values (Reg.base s') = MvpResults.voxel_values (Reg.base s) /\
    MvpResults.iter (Reg.base s') = MvpResults.iter (Reg.base s) /\
    forall s1 b2 W idx' Xs sp,
      Reg.store_metrics r2_score mean_squared_error f s = (s1, Ok tt) ->
      MvpResults.extract_values np_concatenate_mean0 v idx (Reg.base s1)
        = (b2, Ok (W, idx')) ->
      MvpResults.index_cols (MvpResults.X b2) idx' = Ok Xs ->
      np_dot (np_T W) (np_T Xs) = Ok sp ->
      e = AttributeError "n_class".
Proof.
  intros s f. subst s.
  pose proof (reg_init_facts mvp n "forward" verbose out)
    as (_ & _ & _ & Hnc & Hfs & _).
  pose proof (reg_run_spec folds
                (Reg.init mvp n "forward" verbose out)) as Hrun.
  destruct (reg_run folds _) as [s rs]. cbn [fst snd].
  destruct Hrun as (_ & (_ & Hfs' & Hnc' & _) & _).
  rewrite Hfs in Hfs'. rewrite Hnc in Hnc'. clear Hfs Hnc.
  unfold Reg.update. rewrite bind_unfold.
  pose proof (reg_store_metrics_spec f s) as Hm.
  destruct (Reg.store_metrics _ _ f s) as [s1 [[]|e]].
  - destruct Hm as (Hb & _).
    unfold py.zoom, MvpResults.finish_update. rewrite bind_unfold.
    cbn [Reg.values Reg.idx f].
    destruct (_update_voxel_values_forward_no_n_class v idx (Reg.base s1))
      as (b' & e & -> & (nv & ->) & He); [by rewrite Hb..|].
    eexists _, e. split; [done|]. cbn. rewrite Hb.
    split; [by destruct (Reg.base s)|]. split; [by destruct (Reg.base s)|].
    intros s1' b2 W idx' Xs sp [= <-]. apply He.
  - destruct Hm as (Hb & _). eexists _, e. split; [done|]. rewrite Hb.
    split; [done|]. split; [done|]. intros; discriminate.
Qed.

(** * What a call of [update] leaves alone *)

Section base_edges.
Context {L : Type}.

#[local] Instance other_folds_same_refl : Reflexive (@other_folds_same L).
Proof. intros s. unfold other_folds_same. auto. Qed.
#[local] Instance other_folds_same_trans : Transitive (@other_folds_same L).
Proof.
  intros s1 s2 s3 (Hi & Hd & Hf & H) (Hi' & Hd' & Hf' & H').
  unfold other_folds_same.
  split; [congruence|]. split; [congruence|]. split; [congruence|].
  intros i Hne. destruct (H i Hne) as [E1 E2].
  destruct (H' i) as [E1' E2']; [congruence|]. split; congruence.
Qed.

Lemma store_n_vox_other size :
  preserves other_folds_same (MvpResults.store_n_vox (L:=L) size).
Proof.
  intros s. unfold MvpResults.store_n_vox. unfold_py. unfold np.setitem.
  destruct (decide _); cbn; [|reflexivity].
  unfold other_folds_same. destruct s; cbn. repeat split.
  by apply list_lookup_insert_ne.
Qed.

Lemma store_voxel_values_other idx a :
  preserves other_folds_same (MvpResults.store_voxel_values (L:=L) idx a).
Proof.
  intros s. unfold MvpResults.store_voxel_values. unfold_py.
  unfold MvpResults.setitem_row.
  destruct (np.rows (MvpResults.voxel_values s) !! MvpResults.iter s) as [row|];
    cbn; [|reflexivity].
  destruct (match idx with None => _ | Some _ => _ end) as [ps|]; cbn; [|reflexivity].
  destruct (np.broadcast_to_1d _ _) as [vs|]; cbn; [|reflexivity].
  unfold other_folds_same. destruct s; cbn. repeat split.
  by apply list_lookup_insert_ne.
Qed.

Lemma _update_voxel_values_other v idx :
  preserves other_folds_same
    (MvpResults._update_voxel_values (L:=L) np_T np_dot np_cov np_pinv
       np_concatenate_mean0 v idx).
Proof.
  unfold MvpResults._update_voxel_values.
  apply preserves_bind; [apply _..| |].
  - unfold MvpResults.extract_values.
    apply preserves_bind; [apply _..| |].
    + unfold MvpResults.extract_from_pipeline. destruct v; repeat preserves_step.
    + intros [a i]. apply preserves_bind; [apply _..|apply store_n_vox_other|].
      intros _. apply preserves_ret; apply _.
  - intros [a i]. unfold MvpResults.store_scores.
    apply preserves_bind; [apply _..|apply preserves_gets; apply _|]. intros fs0.
    destruct (_ || _); [apply store_voxel_values_other|].
    destruct (bool_decide _); [|apply preserves_ret; apply _].
    apply preserves_bind; [apply _..| |intros A; apply store_voxel_values_other].
    unfold MvpResults.forward_model. repeat preserves_step.
Qed.

Lemma finish_update_other values idx (s : MvpResults.t L) :
  let s' := (MvpResults.finish_update np_T np_dot np_cov np_pinv
               np_concatenate_mean0 values idx s).1 in
  MvpResults.df s' = MvpResults.df s /\
  MvpResults.featureset_id s' = MvpResults.featureset_id s /\
  forall i, i <> MvpResults.iter s ->
    MvpResults.n_vox s' !! i = MvpResults.n_vox s !! i /\
    np.rows (MvpResults.voxel_values s') !! i
    = np.rows (MvpResults.voxel_values s) !! i.
Proof.
  unfold MvpResults.finish_update. rewrite bind_unfold.
  destruct values as [v|].
  - pose proof (_update_voxel_values_other v idx s) as Hf.
    destruct (MvpResults._update_voxel_values _ _ _ _ _ _ _ s) as [s1 [[]|e]];
      cbn in *; destruct Hf as (_ & Hd & Hfi & H); by destruct s1.
  - cbn. by destruct s.
Qed.

End base_edges.

Lemma reg_store_metrics_other f s :
  let s1 := (reg_store_metrics f s).1 in
  Reg.base s1 = Reg.base s /\
  (Reg.mse s1 = Reg.mse s \/ exists m, Reg.mse s1 = Reg.MseScalar m) /\
  forall i, i <> MvpResults.iter (Reg.base s) -> Reg.R2 s1 !! i = Reg.R2 s !! i.
Proof.
  unfold Reg.store_metrics. unfold_py. unfold np.setitem.
  destruct (np.take _ _) as [y_true|e]; [|by auto].
  destruct (r2_score _ _) as [r2|e]; [|by auto].
  destruct (decide _) as [Hlt|Hge]; [|by auto].
  destruct (mean_squared_error _ _) as [m|e]; cbn.
  - split; [done|]. split; [eauto|]. intros i Hi. by apply list_lookup_insert_ne.
  - split; [done|]. split; [eauto|]. intros i Hi. by apply list_lookup_insert_ne.
Qed.

Lemma reg_update_other f s :
  let s' := (reg_update f s).1 in
  MvpResults.df (Reg.base s') = MvpResults.df (Reg.base s) /\
  MvpResults.featureset_id (Reg.base s') = MvpResults.featureset_id (Reg.base s) /\
  (Reg.mse s' = Reg.mse s \/ exists m, Reg.mse s' = Reg.MseScalar m) /\
  forall i, i <> MvpResults.iter (Reg.base s) ->
    Reg.R2 s' !! i = Reg.R2 s !! i /\
    MvpResults.n_vox (Reg.base s') !! i = MvpResults.n_vox (Reg.base s) !! i /\
    np.rows (MvpResults.voxel_values (Reg.base s')) !! i
    = np.rows (MvpResults.voxel_values (Reg.base s)) !! i.
Proof.
  unfold Reg.update. rewrite bind_unfold.
  pose proof (reg_store_metrics_other f s) as Hm.
  destruct (reg_store_metrics f s) as [s1 [[]|e]]; cbn [fst] in Hm;
    destruct Hm as (Hb & Hmse & HR2).
  - unfold py.zoom.
    pose proof (finish_update_other (Reg.values f) (Reg.idx f) (Reg.base s1)) as Hf.
    destruct (MvpResults.finish_update _ _ _ _ _ _ _ _) as [b2 r].
    cbn [fst] in *. rewrite Hb in Hf. destruct Hf as (Hd & Hfi & Ho).
    repeat split; try done; try apply Ho; auto.
  - cbn [fst]. rewrite Hb. repeat split; auto.
Qed.

Lemma reg_run_other folds s :
  let s' := (reg_run folds s).1 in
  MvpResults.df (Reg.base s') = MvpResults.df (Reg.base s) /\
  MvpResults.featureset_id (Reg.base s') = MvpResults.featureset_id (Reg.base s) /\
  (Reg.mse s' = Reg.mse s \/ exists m, Reg.mse s' = Reg.MseScalar m) /\
  forall i, MvpResults.iter (Reg.base s') < i ->
    Reg.R2 s' !! i = Reg.R2 s !! i /\
    MvpResults.n_vox (Reg.base s') !! i = MvpResults.n_vox (Reg.base s) !! i /\
    np.rows (MvpResults.voxel_values (Reg.base s')) !! i
    = np.rows (MvpResults.voxel_values (Reg.base s)) !! i.
Proof.
  revert s. induction folds as [|f folds IH]; intros s; [cbn; auto 10|].
  cbn [Reg.run].
  pose proof (reg_update_other f s) as Hstep.
  pose proof (reg_update_same f s) as Hsame.
  destruct (reg_update f s) as [s1 r]. cbn [fst] in Hstep.
  destruct Hstep as (Hd & Hfi & Hmse & Ho). destruct Hsame as (_ & _ & Hit & _).
  specialize (IH s1). pose proof (reg_run_spec folds s1) as Hrun.
  destruct (reg_run folds s1) as [s2 rs]. cbn [fst] in *.
  destruct IH as (Hd' & Hfi' & Hmse' & Ho'). destruct Hrun as (_ & _ & _ & Hit' & _).
  split; [congruence|]. split; [congruence|]. split.
  { destruct Hmse' as [->|?]; auto. }
  intros i Hi.
  destruct (Ho' i Hi) as (-> & -> & ->). apply Ho. lia.
Qed.

Lemma cls_store_metrics_other f s :
  let s1 := (cls_store_metrics f s).1 in
  forall i, i <> MvpResults.iter (Cls.base s) ->
    Cls.accuracy s1 !! i = Cls.accuracy s !! i /\
    Cls.precision s1 !! i = Cls.precision s !! i /\
    Cls.recall s1 !! i = Cls.recall s !! i /\
    Cls.confmat s1 !! i = Cls.confmat s !! i.
Proof.
  intros s1 i Hi. subst s1. revert i Hi.
  assert (forall (A : Type) (l : list A) x i,
            i <> MvpResults.iter (Cls.base s) ->
            <[MvpResults.iter (Cls.base s):=x]> l !! i = l !! i) as Hne.
  { intros A l x i Hi. by apply list_lookup_insert_ne. }
  unfold Cls.store_metrics. unfold_py. unfold np.setitem.
  destruct (np.take _ _) as [y_true|e]; [|by auto].
  destruct (accuracy_score _ _) as [a|e]; [|by auto].
  destruct (decide _) as [Hlt|Hge]; [|by auto].
  destruct (precision_score_macro _ _) as [p|e]; [|by cbn; auto].
  destruct (decide _) as [Hlt2|Hge2]; [|by cbn; auto].
  destruct (recall_score_macro _ _) as [r|e]; [|by cbn; auto].
  destruct (decide _) as [Hlt3|Hge3]; [|by cbn; auto].
  destruct (confusion_matrix _ _) as [C|e]; [|by cbn; auto].
  unfold Cls.setitem_confmat. cbn [Cls.confmat Cls.set_recall Cls.set_precision
    Cls.set_accuracy Cls.base id].
  destruct (Cls.confmat s !! MvpResults.iter (Cls.base s)) as [old|];
    [|by cbn; auto].
  cbn [mbind result_bind].
  destruct (np.broadcast_to_2d _ _ _) as [C'|e]; [|by cbn; auto].
  cbn. auto.
Qed.

Lemma cls_update_other f s :
  let s' := (cls_update f s).1 in
  MvpResults.df (Cls.base s') = MvpResults.df (Cls.base s) /\
  MvpResults.featureset_id (Cls.base s') = MvpResults.featureset_id (Cls.base s) /\
  forall i, i <> MvpResults.iter (Cls.base s) ->
    Cls.accuracy s' !! i = Cls.accuracy s !! i /\
    Cls.precision s' !! i = Cls.precision s !! i /\
    Cls.recall s' !! i = Cls.recall s !! i /\
    Cls.confmat s' !! i = Cls.confmat s !! i /\
    MvpResults.n_vox (Cls.base s') !! i = MvpResults.n_vox (Cls.base s) !! i /\
    np.rows (MvpResults.voxel_values (Cls.base s')) !! i
    = np.rows (MvpResults.voxel_values (Cls.base s)) !! i.
Proof.
  unfold Cls.update. rewrite bind_unfold.
  pose proof (cls_store_metrics_other f s) as Hm.
  pose proof (cls_store_metrics_spec f s) as Hsp.
  destruct (cls_store_metrics f s) as [s1 [[]|e]]; cbn [fst] in Hm;
    destruct Hsp as (Hb & _).
  - unfold py.zoom.
    pose proof (finish_update_other (Cls.values f) (Cls.idx f) (Cls.base s1)) as Hf.
    destruct (MvpResults.finish_update _ _ _ _ _ _ _ _) as [b2 r].
    cbn [fst] in *. rewrite Hb in Hf. destruct Hf as (Hd & Hfi & Ho).
    split; [done|]. split; [done|]. intros i Hi.
    destruct (Hm i Hi) as (? & ? & ? & ?). destruct (Ho i Hi) as (? & ?).
    cbn. auto 10.
  - cbn [fst]. rewrite Hb. split; [done|]. split; [done|]. intros i Hi.
    destruct (Hm i Hi) as (? & ? & ? & ?). auto 10.
Qed.

Lemma cls_run_other c folds s :
  Forall (has_shape c c) (Cls.confmat s) ->
  let s' := (cls_run folds s).1 in
  MvpResults.df (Cls.base s') = MvpResults.df (Cls.base s) /\
  MvpResults.featureset_id (Cls.base s') = MvpResults.featureset_id (Cls.base s) /\
  forall i, MvpResults.iter (Cls.base s') < i ->
    Cls.accuracy s' !! i = Cls.accuracy s !! i /\
    Cls.precision s' !! i = Cls.precision s !! i /\
    Cls.recall s' !! i = Cls.recall s !! i /\
    Cls.confmat s' !! i = Cls.confmat s !! i /\
    MvpResults.n_vox (Cls.base s') !! i = MvpResults.n_vox (Cls.base s) !! i /\
    np.rows (MvpResults.voxel_values (Cls.base s')) !! i
    = np.rows (MvpResults.voxel_values (Cls.base s)) !! i.
Proof.
  revert s. induction folds as [|f folds IH]; intros s Hsh; [cbn; auto 10|].
  cbn [Cls.run].
  pose proof (cls_update_other f s) as Hstep.
  pose proof (cls_update_same c f s Hsh) as Hsame.
  destruct (cls_update f s) as [s1 r]. cbn [fst] in Hstep.
  destruct Hstep as (Hd & Hfi & Ho). destruct Hsame as (_ & _ & _ & Hsh1 & Hit & _).
  specialize (IH s1 Hsh1). pose proof (cls_run_spec c folds s1 Hsh1) as Hrun.
  destruct (cls_run folds s1) as [s2 rs]. cbn [fst] in *.
  destruct IH as (Hd' & Hfi' & Ho').
  destruct Hrun as (_ & _ & _ & _ & _ & Hit' & _).
  split; [congruence|]. split; [congruence|].
  intros i Hi.
  destruct (Ho' i Hi) as (-> & -> & -> & -> & -> & ->). apply Ho. lia.
Qed.

(** X11: the entries of the folds that have not been run are the zeros of the
    constructor: on an aggregator built for [n] folds, after any sequence
    of calls of [update], completed or not, every index above the fold
    counter still holds [0.0] in each metric array and in [n_vox], a row
    of zeros in [voxel_values] and, for classification, a zero confusion
    matrix.  What [compute_scores] averages over fewer than [n] folds
    therefore includes these zeros. *)
Theorem folds_not_run_stay_zero :
  (forall (mvp : Mvp float) n fsc verbose out folds i,
     let s := (reg_run folds (Reg.init mvp n fsc verbose out)).1 in
     MvpResults.iter (Reg.base s) < i -> i < n ->
     fold_slot_untouched_reg (np.ncols (mvp_X mvp)) s i)
  /\
  (forall (mvp : Mvp Z) n fsc verbose out folds i,
     let s := (cls_run folds (Cls.init mvp n fsc verbose out)).1 in
     MvpResults.iter (Cls.base s) < i -> i < n ->
     fold_slot_untouched_cls (np.ncols (mvp_X mvp)) (Cls.n_unique (mvp_y mvp)) s i).
Proof.
  split.
  - intros mvp n fsc verbose out folds i s Hi Hn. subst s.
    pose proof (reg_run_other folds (Reg.init mvp n fsc verbose out)) as Hrun.
    destruct (reg_run folds _) as [s rs]. cbn [fst] in *.
    destruct Hrun as (_ & _ & _ & Ho). destruct (Ho i Hi) as (H1 & H2 & H3).
    unfold fold_slot_untouched_reg. rewrite H1, H2, H3. cbn.
    by rewrite !lookup_replicate_2.
  - intros mvp n fsc verbose out folds i s Hi Hn. subst s.
    pose proof (cls_init_facts mvp n fsc verbose out) as (_ & _ & _ & _ & _ & _ & _ & _ & Hsh).
    pose proof (cls_run_other _ folds (Cls.init mvp n fsc verbose out) Hsh) as Hrun.
    destruct (cls_run folds _) as [s rs]. cbn [fst] in *.
    destruct Hrun as (_ & _ & Ho).
    destruct (Ho i Hi) as (H1 & H2 & H3 & H4 & H5 & H6).
    unfold fold_slot_untouched_cls. rewrite H1, H2, H3, H4, H5, H6. cbn.
    by rewrite !lookup_replicate_2.
Qed.

(** * Further properties of [write] *)

Lemma write_featureset_inv {L} (self : MvpResults.t L) values i w :
  MvpResults.write_featureset self values i = Ok w ->
  let in_set := map (fun f => bool_decide (f = i)) (MvpResults.featureset_id self) in
  exists sh aff name ps,
    MvpResults.data_shape self !! i = Some sh /\
    MvpResults.affine self !! i = Some aff /\
    MvpResults.data_name self !! i = Some name /\
    np.norm_indices (foldr Nat.mul 1 sh) (np.select in_set (MvpResults.voxel_idx self))
      = Ok ps /\
    w = MvpResults.mk_written (MvpResults.out_path self) (name +:+ ".nii.gz") sh
          (np.scatter (replicate (foldr Nat.mul 1 sh) 0%float) ps
             (np.select in_set values))
          aff (MvpResults.n_positive (np.select in_set values)).
Proof.
  intros Hw in_set. revert Hw. unfold MvpResults.write_featureset. fold in_set.
  destruct (MvpResults.data_shape self !! i) as [sh|];
    cbn [from_option mbind result_bind]; [|intros [=]].
  unfold np.bool_index.
  destruct (decide (length in_set = length values));
    cbn [mbind result_bind]; [|intros [=]].
  destruct (decide (length in_set = length (MvpResults.voxel_idx self)));
    cbn [mbind result_bind]; [|intros [=]].
  rewrite length_replicate.
  destruct (np.norm_indices _ _) as [ps|] eqn:Eps; cbn [mbind result_bind]; [|intros [=]].
  destruct (MvpResults.affine self !! i) as [aff|];
    cbn [from_option mbind result_bind]; [|intros [=]].
  destruct (MvpResults.data_name self !! i) as [name|];
    cbn [from_option mbind result_bind]; [|intros [=]].
  intros [= <-]. by exists sh, aff, name, ps.
Qed.

Lemma norm_indices_error len l e : np.norm_indices len l = Raise e -> e = IndexError.
Proof.
  induction l as [|p l IH]; [done|]. cbn.
  destruct (np.norm_index len p) as [q|e'] eqn:Eq.
  - cbn. destruct (np.norm_indices len l) as [qs|e']; [done|].
    cbn. intros [= <-]. by apply IH.
  - cbn. intros [= <-]. revert Eq. unfold np.norm_index.
    repeat case_decide; congruence.
Qed.

Lemma write_featureset_error {L} (self : MvpResults.t L) values i e :
  MvpResults.write_featureset self values i = Raise e -> e = IndexError.
Proof.
  unfold MvpResults.write_featureset.
  destruct (MvpResults.data_shape self !! i) as [sh|];
    cbn [from_option mbind result_bind]; [|by intros [= <-]].
  unfold np.bool_index.
  destruct (decide (length _ = length values));
    cbn [mbind result_bind]; [|by intros [= <-]].
  destruct (decide (length _ = length (MvpResults.voxel_idx self)));
    cbn [mbind result_bind]; [|by intros [= <-]].
  destruct (np.norm_indices _ _) as [ps|e'] eqn:Eps; cbn [mbind result_bind].
  2:{ intros [= <-]. by eapply norm_indices_error. }
  destruct (MvpResults.affine self !! i) as [aff|];
    cbn [from_option mbind result_bind]; [|by intros [= <-]].
  destruct (MvpResults.data_name self !! i) as [name|];
    cbn [from_option mbind result_bind]; [|by intros [= <-]].
  done.
Qed.

(* the loop of [write]: the images of the feature sets before the first
   one that fails, and that one's error *)
Lemma write_loop_spec {L} (self : MvpResults.t L) values ids done :
  exists new,
    (MvpResults.write_loop self values ids done).1 = (done ++ new)%list /\
    Forall2 (fun i w => MvpResults.write_featureset self values i = Ok w)
      (take (length new) ids) new /\
    match (MvpResults.write_loop self values ids done).2 with
    | Ok _ => length new = length ids
    | Raise e => exists i, ids !! length new = Some i /\
                   MvpResults.write_featureset self values i = Raise e
    end.
Proof.
  revert done. induction ids as [|i ids IH]; intros done.
  { exists []. cbn. rewrite app_nil_r. repeat split. constructor. }
  cbn [MvpResults.write_loop].
  destruct (MvpResults.write_featureset self values i) as [w|e] eqn:Ew.
  - destruct (IH (done ++ [w])%list) as (new & H1 & H2 & H3).
    exists (w :: new). rewrite H1, <- app_assoc. split; [done|].
    split; [by constructor|].
    destruct (MvpResults.write_loop _ _ _ _).2; cbn; [lia|done].
  - exists []. cbn. rewrite app_nil_r. split; [done|]. split; [constructor|].
    by exists i.
Qed.

Section write_edges.

Context {L : Type}.

(** X6: [write] produces one image per distinct feature-set identifier, in
    the order of the identifiers, until one fails: image [k] belongs to
    the [k]-th identifier [i], is written to [out_path] under the name
    [data_name[i] + '.nii.gz'], with the shape [data_shape[i]], that many
    voxels and the affine [affine[i]]; when [write] returns, no image is
    missing. *)
Theorem write_one_image_per_feature_set (self : MvpResults.t L) (to_tstat : bool) :
  let ids := np.unique (MvpResults.featureset_id self) in
  let ws := (MvpResults.write np_mean np_std to_tstat self).1 in
  length ws <= length ids /\
  (is_ok (MvpResults.write np_mean np_std to_tstat self).2 = true ->
   length ws = length ids) /\
  forall k w, ws !! k = Some w ->
    exists i sh name aff,
      ids !! k = Some i /\
      MvpResults.data_shape self !! i = Some sh /\
      MvpResults.data_name self !! i = Some name /\
      MvpResults.affine self !! i = Some aff /\
      MvpResults.w_dir w = MvpResults.out_path self /\
      MvpResults.w_filename w = name +:+ ".nii.gz" /\
      MvpResults.w_shape w = sh /\
      MvpResults.w_affine w = aff /\
      length (MvpResults.w_img w) = foldr Nat.mul 1 sh.
Proof using Type.
  intros ids ws. subst ids ws. unfold MvpResults.write.
  set (values := MvpResults.reduce_values np_mean np_std to_tstat _).
  destruct (write_loop_spec self values
              (np.unique (MvpResults.featureset_id self)) [])
    as (new & H1 & H2 & H3).
  destruct (MvpResults.write_loop _ _ _ _) as [ws r]. cbn [fst snd app] in *.
  subst ws.
  assert (length new <= length (np.unique (MvpResults.featureset_id self))) as Hle.
  { apply Forall2_length in H2. rewrite length_take in H2. lia. }
  split; [|split].
  - by destruct r.
  - destruct r as [[]|e]; cbn; [done|discriminate].
  - intros k w Hk.
    assert ((match r with
             | Ok _ => (new, from_option Ok (Raise (AttributeError "df"))
                               (MvpResults.df self))
             | Raise e => (new, Raise e)
             end).1 = new) as Hnew by (by destruct r).
    rewrite Hnew in Hk.
    destruct (Forall2_lookup_r _ _ _ _ _ H2 Hk) as (i & Hi & Hw).
    apply lookup_take_Some in Hi as [Hi _].
    apply write_featureset_inv in Hw as (sh & aff & name & ps & ? & ? & ? & ? & ->).
    exists i, sh, name, aff. cbn. repeat split; try done.
    by rewrite length_scatter, length_replicate.
Qed.

(** X7: the images start from zeros: a position of the image of feature set
    [i] that is the position of none of its voxels holds [0.0]. *)
Theorem write_background_is_zero (self : MvpResults.t L) (to_tstat : bool)
    k w i sh q :
  (MvpResults.write np_mean np_std to_tstat self).1 !! k = Some w ->
  np.unique (MvpResults.featureset_id self) !! k = Some i ->
  MvpResults.data_shape self !! i = Some sh ->
  q < foldr Nat.mul 1 sh ->
  (forall j p,
     MvpResults.featureset_id self !! j = Some i ->
     MvpResults.voxel_idx self !! j = Some p ->
     np.norm_index (foldr Nat.mul 1 sh) p <> Ok q) ->
  MvpResults.w_img w !! q = Some 0%float.
Proof using Type.
  unfold MvpResults.write.
  set (values := MvpResults.reduce_values np_mean np_std to_tstat _).
  destruct (write_loop_spec self values
              (np.unique (MvpResults.featureset_id self)) [])
    as (new & H1 & H2 & _).
  destruct (MvpResults.write_loop _ _ _ _) as [ws r]. cbn [fst snd app] in *.
  subst ws.
  assert ((match r with
           | Ok _ => (new, from_option Ok (Raise (AttributeError "df"))
                             (MvpResults.df self))
           | Raise e => (new, Raise e)
           end).1 = new) as -> by (by destruct r).
  intros Hk Hi Hsh Hq Hfree.
  destruct (Forall2_lookup_r _ _ _ _ _ H2 Hk) as (i' & Hi' & Hw).
  apply lookup_take_Some in Hi' as [Hi' _].
  assert (i' = i) as -> by congruence.
  apply write_featureset_inv in Hw as (sh' & aff & name & ps & Hsh' & _ & _ & Hps & ->).
  assert (sh' = sh) as -> by congruence. cbn.
  rewrite scatter_other; [by apply lookup_replicate_2|].
  intros t Ht. apply norm_indices_Forall2 in Hps.
  destruct (Forall2_lookup_r _ _ _ _ _ Hps Ht) as (p & Hp & Hnp).
  apply select_lookup_inv in Hp as (j & Hin & Hvp & _).
  rewrite list_lookup_fmap in Hin.
  destruct (MvpResults.featureset_id self !! j) as [f|] eqn:Ef; [|done].
  cbn in Hin. injection Hin as Hin. apply bool_decide_eq_true in Hin as ->.
  by eapply Hfree.
Qed.

(** X8: nibabel's writing of an image left aside, the only errors of
    [write] are [IndexError], from building an image, and the
    [AttributeError] on [df] once every image is written; a feature-set
    identifier without a shape, an affine or a name always makes it raise
    [IndexError] with at least that image missing. *)
Theorem write_errors (self : MvpResults.t L) (to_tstat : bool) :
  let ids := np.unique (MvpResults.featureset_id self) in
  let ws := (MvpResults.write np_mean np_std to_tstat self).1 in
  (forall e, (MvpResults.write np_mean np_std to_tstat self).2 = Raise e ->
     (e = IndexError /\ length ws < length ids) \/
     (e = AttributeError "df" /\ MvpResults.df self = None /\
      length ws = length ids)) /\
  (forall i, i ∈ MvpResults.featureset_id self ->
     MvpResults.data_shape self !! i = None \/
     MvpResults.affine self !! i = None \/
     MvpResults.data_name self !! i = None ->
     (MvpResults.write np_mean np_std to_tstat self).2 = Raise IndexError /\
     length ws < length ids).
Proof using Type.
  intros ids ws. subst ids ws. unfold MvpResults.write.
  set (values := MvpResults.reduce_values np_mean np_std to_tstat _).
  destruct (write_loop_spec self values
              (np.unique (MvpResults.featureset_id self)) [])
    as (new & H1 & H2 & H3).
  destruct (MvpResults.write_loop _ _ _ _) as [ws r]. cbn [fst snd app] in *.
  subst ws. split.
  - intros e. destruct r as [[]|e'].
    + cbn. destruct (MvpResults.df self); [done|]. cbn. intros [= <-]. by right.
    + cbn. intros [= <-]. destruct H3 as (i & Hi & He).
      apply write_featureset_error in He as ->. left. split; [done|].
      by eapply lookup_lt_Some.
  - intros i Hi Hmiss. destruct r as [[]|e'].
    + exfalso. apply elem_of_unique in Hi.
      apply list_elem_of_lookup_1 in Hi as (k & Hk).
      rewrite H3, firstn_all in H2.
      destruct (Forall2_lookup_l _ _ _ _ _ H2 Hk) as (w & _ & Hw).
      apply write_featureset_inv in Hw as (sh & aff & name & ps & ? & ? & ? & _).
      destruct Hmiss as [?|[?|?]]; congruence.
    + cbn. destruct H3 as (i' & Hi' & He).
      apply write_featureset_error in He as ->. split; [done|].
      by eapply lookup_lt_Some.
Qed.

End write_edges.

(** * [write] and [compute_scores] on the aggregators *)

Lemma write_without_df {L} (self : MvpResults.t L) (to_tstat : bool) :
  MvpResults.df self = None ->
  let ids := np.unique (MvpResults.featureset_id self) in
  exists ws e,
    MvpResults.write np_mean np_std to_tstat self = (ws, Raise e) /\
    ((e = IndexError /\ length ws < length ids) \/
     (e = AttributeError "df" /\ length ws = length ids)).
Proof.
  intros Hdf ids. subst ids. unfold MvpResults.write.
  set (values := MvpResults.reduce_values np_mean np_std to_tstat _).
  destruct (write_loop_spec self values
              (np.unique (MvpResults.featureset_id self)) [])
    as (new & H1 & H2 & H3).
  destruct (MvpResults.write_loop _ _ _ _) as [ws r]. cbn [fst snd app] in *.
  subst ws. destruct r as [[]|e].
  - rewrite Hdf. cbn. eexists _, _. split; [done|]. by right.
  - destruct H3 as (i & Hi & He). apply write_featureset_error in He as ->.
    eexists _, _. split; [done|]. left. split; [done|]. by eapply lookup_lt_Some.
Qed.

(** X9: [write] needs the table of [compute_scores]: on an aggregator that
    has only been constructed and updated, [write] never returns.  It
    raises [IndexError] while building the images or, with one image
    written per feature set, the [AttributeError] on [df]. *)
Theorem write_before_compute_scores_raises :
  (forall (mvp : Mvp float) n fsc verbose out folds to_tstat,
     let s := (reg_run folds (Reg.init mvp n fsc verbose out)).1 in
     let ids := np.unique (mvp_featureset_id mvp) in
     exists ws e,
       MvpResults.write np_mean np_std to_tstat (Reg.base s) = (ws, Raise e) /\
       ((e = IndexError /\ length ws < length ids) \/
        (e = AttributeError "df" /\ length ws = length ids)))
  /\
  (forall (mvp : Mvp Z) n fsc verbose out folds to_tstat,
     let s := (cls_run folds (Cls.init mvp n fsc verbose out)).1 in
     let ids := np.unique (mvp_featureset_id mvp) in
     exists ws e,
       MvpResults.write np_mean np_std to_tstat (Cls.base s) = (ws, Raise e) /\
       ((e = IndexError /\ length ws < length ids) \/
        (e = AttributeError "df" /\ length ws = length ids))).
Proof.
  split.
  - intros mvp n fsc verbose out folds to_tstat s ids. subst s ids.
    pose proof (reg_run_other folds (Reg.init mvp n fsc verbose out)) as Hrun.
    destruct (reg_run folds _) as [s rs]. cbn [fst] in *.
    destruct Hrun as (Hdf & Hfi & _). cbn in Hdf, Hfi. rewrite <- Hfi.
    by apply write_without_df.
  - intros mvp n fsc verbose out folds to_tstat s ids. subst s ids.
    pose proof (cls_init_facts mvp n fsc verbose out)
      as (_ & _ & _ & _ & _ & _ & _ & _ & Hsh).
    pose proof (cls_run_other _ folds (Cls.init mvp n fsc verbose out) Hsh) as Hrun.
    destruct (cls_run folds _) as [s rs]. cbn [fst] in *.
    destruct Hrun as (Hdf & Hfi & _). cbn in Hdf, Hfi. rewrite <- Hfi.
    by apply write_without_df.
Qed.

Lemma reg_compute_scores_eq s :
  length (Reg.mse_column s) = length (Reg.R2 s) ->
  length (MvpResults.n_vox (Reg.base s)) = length (Reg.R2 s) ->
  let table := [("R2", Reg.R2 s); ("MSE", Reg.mse_column s);
                ("n_voxels", MvpResults.n_vox (Reg.base s))] in
  Reg.compute_scores pd_mean pd_std s
  = (Reg.set_base (MvpResults.set_df table (Reg.base s)) s,
     Ok (map (fun nc : string * list float => (nc.1, (pd_mean nc.2, pd_std nc.2)))
           table)).
Proof.
  intros Hm Hn table. unfold Reg.compute_scores. unfold_py. cbn [id].
  by rewrite pd_DataFrame_ok3.
Qed.

Lemma cls_compute_scores_eq s :
  length (Cls.precision s) = length (Cls.accuracy s) ->
  length (Cls.recall s) = length (Cls.accuracy s) ->
  length (MvpResults.n_vox (Cls.base s)) = length (Cls.accuracy s) ->
  let table := [("Accuracy", Cls.accuracy s); ("Precision", Cls.precision s);
                ("Recall", Cls.recall s);
                ("n_voxels", MvpResults.n_vox (Cls.base s))] in
  Cls.compute_scores pd_mean pd_std s
  = (Cls.set_base (MvpResults.set_df table (Cls.base s)) s,
     Ok (map (fun nc : string * list float => (nc.1, (pd_mean nc.2, pd_std nc.2)))
           table,
         np.sum_axis0 (Cls.the_n_class s) (Cls.the_n_class s) (Cls.confmat s))).
Proof.
  intros Hp Hr Hn table. unfold Cls.compute_scores. unfold_py. cbn [id].
  by rewrite pd_DataFrame_ok4.
Qed.

(** X12: [compute_scores] never fails on an aggregator that was constructed
    and updated any number of times, whether the updates completed or
    not: it stores a table with one row per fold whose columns are those
    of the variant, changes nothing else, and calling it again gives the
    same table and the same printed summary. *)
Theorem compute_scores_total_and_idempotent :
  (forall (mvp : Mvp float) n fsc verbose out folds,
     let s := (reg_run folds (Reg.init mvp n fsc verbose out)).1 in
     exists table printed,
       let s' := Reg.set_base (MvpResults.set_df table (Reg.base s)) s in
       Reg.compute_scores pd_mean pd_std s = (s', Ok printed) /\
       table.*1 ≡ₚ ["R2"; "MSE"; "n_voxels"] /\
       Forall (fun nc => length nc.2 = n) table /\
       Reg.compute_scores pd_mean pd_std s' = (s', Ok printed))
  /\
  (forall (mvp : Mvp Z) n fsc verbose out folds,
     let s := (cls_run folds (Cls.init mvp n fsc verbose out)).1 in
     exists table printed,
       let s' := Cls.set_base (MvpResults.set_df table (Cls.base s)) s in
       Cls.compute_scores pd_mean pd_std s = (s', Ok printed) /\
       table.*1 ≡ₚ ["Accuracy"; "Precision"; "Recall"; "n_voxels"] /\
       Forall (fun nc => length nc.2 = n) table /\
       Cls.compute_scores pd_mean pd_std s' = (s', Ok printed)).
Proof.
  split.
  - intros mvp n fsc verbose out folds s. subst s.
    pose proof (reg_init_facts mvp n fsc verbose out)
      as (HR2 & _ & _ & _ & _ & _ & Hnv).
    pose proof (reg_run_spec folds (Reg.init mvp n fsc verbose out)) as Hspec.
    pose proof (reg_run_other folds (Reg.init mvp n fsc verbose out)) as Hrun.
    destruct (reg_run folds _) as [s rs]. cbn [fst] in *.
    destruct Hspec as (_ & Hsame & HR2' & _ & _).
    destruct Hsame as (_ & _ & _ & _ & _ & Hnv' & _).
    destruct Hrun as (_ & _ & Hmse & _).
    assert (length (Reg.mse_column s) = n) as Hcol.
    { unfold Reg.mse_column. destruct Hmse as [->|(m & ->)].
      - cbn. by rewrite length_replicate.
      - rewrite length_replicate. congruence. }
    eexists _, _. cbn zeta.
    split; [apply reg_compute_scores_eq; congruence|].
    split; [done|]. split; [repeat constructor; cbn; congruence|].
    set (table := [("R2", Reg.R2 s); _; _]).
    rewrite reg_compute_scores_eq.
    + by destruct s as [[] ? ?].
    + destruct s as [[] ? ?]. unfold Reg.mse_column in *. cbn in *. congruence.
    + destruct s as [[] ? ?]. cbn in *. congruence.
  - intros mvp n fsc verbose out folds s. subst s.
    pose proof (cls_init_facts mvp n fsc verbose out)
      as (Hacc & _ & _ & _ & _ & _ & Hnv & _ & Hsh).
    pose proof (cls_run_spec _ folds (Cls.init mvp n fsc verbose out) Hsh) as Hspec.
    destruct (cls_run folds _) as [s rs]. cbn [fst] in *.
    destruct Hspec as (_ & Hsame & (Hacc' & Hprec' & Hrec') & _).
    destruct Hsame as (_ & _ & _ & _ & _ & Hnv' & _).
    cbn in Hacc', Hprec', Hrec', Hnv'. rewrite length_replicate in *.
    eexists _, _. cbn zeta.
    split; [apply cls_compute_scores_eq; congruence|].
    split; [done|]. split; [repeat constructor; cbn; congruence|].
    set (table := [("Accuracy", Cls.accuracy s); _; _; _]).
    rewrite cls_compute_scores_eq.
    + by destruct s as [[] ? ? ? ?].
    + destruct s as [[] ? ? ? ?]. cbn in *. congruence.
    + destruct s as [[] ? ? ? ?]. cbn in *. congruence.
    + destruct s as [[] ? ? ? ?]. cbn in *. congruence.
Qed.

(** * Errors of [update] *)

Lemma norm_indices_out_of_range len l :
  Exists (fun i => (i < - Z.of_nat len \/ Z.of_nat len <= i)%Z) l ->
  np.norm_indices len l = Raise IndexError.
Proof.
  induction l as [|p l IH]; intros Hex; [by apply Exists_nil in Hex|].
  apply Exists_cons in Hex. cbn. unfold np.norm_index at 1.
  destruct (decide (0 <= p < Z.of_nat len)%Z) as [Hin|Hout1].
  - cbn. destruct Hex as [Hp|Hl]; [lia|]. by rewrite IH.
  - destruct (decide (- Z.of_nat len <= p < 0)%Z) as [Hneg|Hout2]; [|done].
    cbn. destruct Hex as [Hp|Hl]; [lia|]. by rewrite IH.
Qed.

(** X13: a test index outside the labels stored at construction (at or beyond
    their number, or below minus their number) makes [update] raise
    [IndexError] before anything is stored: the aggregator is left
    exactly as it was.  For both variants. *)
Theorem update_rejects_test_index_out_of_range :
  (forall (s : Reg.t) (f : Reg.fold),
     let len := Z.of_nat (length (MvpResults.y (Reg.base s))) in
     Exists (fun i => (i < - len \/ len <= i)%Z) (Reg.test_idx f) ->
     reg_update f s = (s, Raise IndexError))
  /\
  (forall (s : Cls.t) (f : Cls.fold),
     let len := Z.of_nat (length (MvpResults.y (Cls.base s))) in
     Exists (fun i => (i < - len \/ len <= i)%Z) (Cls.test_idx f) ->
     cls_update f s = (s, Raise IndexError)).
Proof.
  split.
  - intros s f len Hex. unfold Reg.update, Reg.store_metrics. unfold_py.
    unfold np.take. by rewrite norm_indices_out_of_range.
  - intros s f len Hex. unfold Cls.update, Cls.store_metrics. unfold_py.
    unfold np.take. by rewrite norm_indices_out_of_range.
Qed.

(** * Feature scores *)

Section scores.
Context {L : Type}.

Lemma store_scores_inert a idx (b : MvpResults.t L) :
  MvpResults.fnmatch_coef_star (MvpResults.fs b)
    || MvpResults.fnmatch_ufs (MvpResults.fs b) = false ->
  MvpResults.fs b <> "forward" ->
  MvpResults.store_scores np_T np_dot np_cov np_pinv a idx b = (b, Ok tt).
Proof.
  intros Hm Hf. unfold MvpResults.store_scores.
  rewrite bind_unfold. cbn [py.gets]. rewrite Hm.
  by rewrite bool_decide_eq_false_2.
Qed.

Lemma finish_update_inert values idx (b : MvpResults.t L) :
  MvpResults.fnmatch_coef_star (MvpResults.fs b)
    || MvpResults.fnmatch_ufs (MvpResults.fs b) = false ->
  MvpResults.fs b <> "forward" ->
  MvpResults.voxel_values
    (MvpResults.finish_update np_T np_dot np_cov np_pinv np_concatenate_mean0
       values idx b).1
  = MvpResults.voxel_values b.
Proof.
  intros Hm Hf. unfold MvpResults.finish_update. rewrite bind_unfold.
  destruct values as [v|]; [|by destruct b].
  unfold MvpResults._update_voxel_values. rewrite bind_unfold.
  pose proof (extract_values_n_vox_only v idx b) as Hnv.
  destruct (MvpResults.extract_values _ _ _ b) as [b1 [[W idx']|e1]]; cbn in Hnv;
    destruct Hnv as (nv & ->).
  - rewrite store_scores_inert by (by destruct b). by destruct b.
  - by destruct b.
Qed.

(** X15: which index the feature scores of a pipeline are stored under, when
    exactly one step exposes the matched attribute: the index given by the
    caller, or none when the scores cover every feature; otherwise, with
    no index given, the support mask of the one step that has
    [get_support], and a [ValueError] when no step or several steps have
    it. *)
Theorem pipeline_support_mask_must_be_unique (steps : list (string * MvpResults.step))
    (idx : option MvpResults.index) (b : MvpResults.t L) (v : np.ndarray) :
  exposing (MvpResults.fs b) steps = [v] ->
  let supports := omap MvpResults.get_support steps.*2 in
  let extract := MvpResults.extract_from_pipeline np_concatenate_mean0 steps in
  (np.size v = np.ncols (MvpResults.X b) \/ idx <> None ->
   extract idx b = (b, Ok (v, idx))) /\
  (np.size v <> np.ncols (MvpResults.X b) ->
   (forall support, supports = [support] ->
      extract None b = (b, Ok (v, Some (MvpResults.BoolIdx support)))) /\
   (length supports <> 1 ->
      extract None b
      = (b, Raise (ValueError ("Found more than one " +:+
                               MvpResults.matched_attribute (MvpResults.fs b) +:+
                               " attribute in pipeline!"))))).
Proof.
  intros Hv supports extract. subst supports extract. unfold exposing in Hv.
  unfold MvpResults.extract_from_pipeline. unfold_py. rewrite Hv.
  split; [|intros Hsize; split].
  - intros Hnone. rewrite bool_decide_eq_false_2; [done|].
    intros [? ?]. destruct Hnone; done.
  - intros support Hs. rewrite bool_decide_eq_true_2 by done. by rewrite Hs.
  - intros Hs. rewrite bool_decide_eq_true_2 by done.
    destruct (omap MvpResults.get_support _) as [|s1 [|s2 ss]]; cbn in Hs; done.
Qed.

Lemma mapM_member_coefs (members : list MvpResults.member) (coefs : list np.ndarray) :
  map MvpResults.member_coef_ members = map Some coefs ->
  mapM (fun ens => match MvpResults.member_coef_ ens with
                   | Some c => Ok c
                   | None => Raise (AttributeError "coef_")
                   end) members = Ok coefs.
Proof.
  revert coefs. induction members as [|m members IH]; intros [|c coefs] Hc;
    try done.
  cbn in Hc. injection Hc as Hm Hc. cbn. rewrite Hm. cbn.
  by rewrite (IH coefs).
Qed.

Lemma mapM_member_missing (pre post : list MvpResults.member) m :
  Forall (fun ens => is_Some (MvpResults.member_coef_ ens)) pre ->
  MvpResults.member_coef_ m = None ->
  mapM (fun ens => match MvpResults.member_coef_ ens with
                   | Some c => Ok c
                   | None => Raise (AttributeError "coef_")
                   end) (pre ++ m :: post)
  = Raise (AttributeError "coef_").
Proof.
  intros Hpre Hm. induction Hpre as [|m0 pre [c Hc] _ IH]; cbn.
  - by rewrite Hm.
  - rewrite Hc. cbn. by rewrite IH.
Qed.

(** X21: the scores of a pipeline in which no step exposes the matched
    attribute and exactly one step is an ensemble: whatever the
    feature-scoring mode, also when the matched attribute is [scores_],
    they are [np.concatenate(...).mean(axis=0)] of the members' [coef_].
    They are stored under the index given by the caller, or under none
    when they cover every feature; otherwise, with no index given, under
    the support mask of the one step that has [get_support], and no step
    or several steps with it raise [ValueError].  The first member
    without [coef_] raises [AttributeError] on it, and an error of the
    concatenation is passed on; an error leaves the object as it was. *)
Theorem ensemble_scores_are_member_coefficients
    (steps : list (string * MvpResults.step)) (idx : option MvpResults.index)
    (b : MvpResults.t L) (members : list MvpResults.member) :
  exposing (MvpResults.fs b) steps = [] ->
  ensembles steps = [members] ->
  let supports := omap MvpResults.get_support steps.*2 in
  let extract := MvpResults.extract_from_pipeline np_concatenate_mean0 steps in
  (forall coefs,
     map MvpResults.member_coef_ members = map Some coefs ->
     (forall val,
        np_concatenate_mean0 coefs = Ok val ->
        (np.size val = np.ncols (MvpResults.X b) \/ idx <> None ->
         extract idx b = (b, Ok (val, idx))) /\
        (np.size val <> np.ncols (MvpResults.X b) ->
         (forall support, supports = [support] ->
            extract None b = (b, Ok (val, Some (MvpResults.BoolIdx support)))) /\
         (length supports <> 1 ->
            extract None b
            = (b, Raise (ValueError
                           ("Found more than one " +:+
                            MvpResults.matched_attribute (MvpResults.fs b) +:+
                            " attribute in pipeline!")))))) /\
     (forall e, np_concatenate_mean0 coefs = Raise e ->
        extract idx b = (b, Raise e))) /\
  (forall pre m post,
     members = (pre ++ m :: post)%list ->
     Forall (fun ens => is_Some (MvpResults.member_coef_ ens)) pre ->
     MvpResults.member_coef_ m = None ->
     extract idx b = (b, Raise (AttributeError "coef_"))).
Proof.
  intros Hv He supports extract. subst supports extract.
  unfold exposing in Hv. unfold ensembles in He.
  unfold MvpResults.extract_from_pipeline. unfold_py. rewrite Hv, He.
  split.
  - intros coefs Hc. rewrite (mapM_member_coefs _ _ Hc). cbn [mbind result_bind].
    split.
    + intros val Hval. rewrite Hval. split; [|intros Hsize; split].
      * intros Hnone. rewrite bool_decide_eq_false_2; [done|].
        intros [? ?]. destruct Hnone; done.
      * intros support Hs. rewrite bool_decide_eq_true_2 by done. by rewrite Hs.
      * intros Hs. rewrite bool_decide_eq_true_2 by done.
        destruct (omap MvpResults.get_support _) as [|s1 [|s2 ss]]; cbn in Hs; done.
    + intros e Hval. by rewrite Hval.
  - intros pre m post -> Hpre Hm. by rewrite mapM_member_missing.
Qed.

End scores.

Lemma reg_run_inert folds s :
  MvpResults.fnmatch_coef_star (MvpResults.fs (Reg.base s))
    || MvpResults.fnmatch_ufs (MvpResults.fs (Reg.base s)) = false ->
  MvpResults.fs (Reg.base s) <> "forward" ->
  MvpResults.voxel_values (Reg.base (reg_run folds s).1)
  = MvpResults.voxel_values (Reg.base s).
Proof.
  revert s. induction folds as [|f folds IH]; intros s Hm Hf; [done|].
  cbn [Reg.run].
  pose proof (reg_update_same f s) as Hsame.
  assert (MvpResults.voxel_values (Reg.base (reg_update f s).1)
          = MvpResults.voxel_values (Reg.base s)) as Hvv.
  { unfold Reg.update. rewrite bind_unfold.
    pose proof (reg_store_metrics_other f s) as Hb.
    destruct (reg_store_metrics f s) as [s1 [[]|e]]; cbn [fst] in Hb;
      destruct Hb as (Hb & _); [|by cbn; rewrite Hb].
    unfold py.zoom.
    pose proof (finish_update_inert (Reg.values f) (Reg.idx f) (Reg.base s1)) as Hi.
    destruct (MvpResults.finish_update _ _ _ _ _ _ _ _) as [b2 r].
    cbn [fst] in *. rewrite Hb in Hi. by apply Hi. }
  destruct (reg_update f s) as [s1 r]. cbn [fst] in Hvv.
  destruct Hsame as ((_ & Hfs & _) & _).
  specialize (IH s1). destruct (reg_run folds s1) as [s2 rs]. cbn [fst] in *.
  rewrite IH by (by rewrite Hfs). done.
Qed.

Lemma cls_run_inert c folds s :
  Forall (has_shape c c) (Cls.confmat s) ->
  MvpResults.fnmatch_coef_star (MvpResults.fs (Cls.base s))
    || MvpResults.fnmatch_ufs (MvpResults.fs (Cls.base s)) = false ->
  MvpResults.fs (Cls.base s) <> "forward" ->
  MvpResults.voxel_values (Cls.base (cls_run folds s).1)
  = MvpResults.voxel_values (Cls.base s).
Proof.
  revert s. induction folds as [|f folds IH]; intros s Hsh Hm Hf; [done|].
  cbn [Cls.run].
  pose proof (cls_update_same c f s Hsh) as Hsame.
  assert (MvpResults.voxel_values (Cls.base (cls_update f s).1)
          = MvpResults.voxel_values (Cls.base s)) as Hvv.
  { unfold Cls.update. rewrite bind_unfold.
    pose proof (cls_store_metrics_spec f s) as Hb.
    destruct (cls_store_metrics f s) as [s1 [[]|e]];
      destruct Hb as (Hb & _); [|by cbn; rewrite Hb].
    unfold py.zoom.
    pose proof (finish_update_inert (Cls.values f) (Cls.idx f) (Cls.base s1)) as Hi.
    destruct (MvpResults.finish_update _ _ _ _ _ _ _ _) as [b2 r].
    cbn [fst] in *. rewrite Hb in Hi. by apply Hi. }
  destruct (cls_update f s) as [s1 r]. cbn [fst] in Hvv.
  destruct Hsame as ((_ & Hfs & _) & _ & _ & Hsh1 & _).
  specialize (IH s1 Hsh1). destruct (cls_run folds s1) as [s2 rs]. cbn [fst] in *.
  rewrite IH by (by rewrite Hfs). done.
Qed.

(** X14: with a feature-scoring mode that is neither ['coef*'], ['ufs'] nor
    ['forward'] (the default [''] is one), no call of [update] ever
    writes to [voxel_values]: whatever values and indices the calls are
    given, the array stays the zeros of the constructor. *)
Theorem unscored_mode_keeps_voxel_values_zero (fsc : string) :
  MvpResults.fnmatch_coef_star fsc || MvpResults.fnmatch_ufs fsc = false ->
  fsc <> "forward" ->
  (forall (mvp : Mvp float) n verbose out folds,
     MvpResults.voxel_values
       (Reg.base (reg_run folds (Reg.init mvp n fsc verbose out)).1)
     = np.zeros2 n (np.ncols (mvp_X mvp)))
  /\
  (forall (mvp : Mvp Z) n verbose out folds,
     MvpResults.voxel_values
       (Cls.base (cls_run folds (Cls.init mvp n fsc verbose out)).1)
     = np.zeros2 n (np.ncols (mvp_X mvp))).
Proof.
  intros Hm Hf. split.
  - intros mvp n verbose out folds. by rewrite reg_run_inert.
  - intros mvp n verbose out folds.
    pose proof (cls_init_facts mvp n fsc verbose out)
      as (_ & _ & _ & _ & _ & _ & _ & _ & Hsh).
    by rewrite (cls_run_inert _ _ _ Hsh).
Qed.

Lemma select_fmap {A B} (f : A -> B) (m : list bool) (a : list A) :
  np.select m (f <$> a) = f <$> np.select m a.
Proof.
  revert a. induction m as [|b m IH]; intros [|x a]; try done.
  cbn. destruct b; cbn; by rewrite IH.
Qed.

Lemma flatnonzero_select (m : list bool) :
  np.flatnonzero m = np.select m (seq 0 (length m)).
Proof.
  unfold np.flatnonzero. induction m as [|b m IH]; [done|].
  cbn [np.flatnonzero_from length seq np.select].
  rewrite flatnonzero_from_S, IH, <- fmap_S_seq, select_fmap. done.
Qed.

Lemma flatnonzero_lookup_rank (m : list bool) j :
  m !! j = Some true -> np.flatnonzero m !! rank m j = Some j.
Proof.
  intros Hj. rewrite flatnonzero_select. apply select_lookup_rank; [done|].
  apply lookup_seq. split; [done|]. by eapply lookup_lt_Some.
Qed.

Lemma flatnonzero_lookup_inv (m : list bool) t j :
  np.flatnonzero m !! t = Some j -> m !! j = Some true /\ rank m j = t.
Proof.
  rewrite flatnonzero_select. intros Ht.
  apply select_lookup_inv in Ht as (j' & Hm & Hs & Hr).
  apply lookup_seq in Hs as [-> _]. done.
Qed.

Section stored_scores.
Context {L : Type}.

(** X16: storing the scores of a fold under a support mask, in the ['coef*']
    and ['ufs'] modes: [k] scores given with a boolean index that selects
    [k] of the features are written, in order, to the selected columns of
    the current fold's row of [voxel_values]; the other columns of the
    row and all other rows stay as they were, and [n_vox] of the fold
    becomes [k]. *)
Theorem scores_stored_at_support (b : MvpResults.t L) (a : np.ndarray)
    (m : list bool) (k : nat) (row : list float) :
  MvpResults.fnmatch_coef_star (MvpResults.fs b)
    || MvpResults.fnmatch_ufs (MvpResults.fs b) = true ->
  np.shape (np.squeeze a) = [k] ->
  length (np.data a) = k ->
  np.count_true m = k ->
  length m = np.ncols (MvpResults.voxel_values b) ->
  MvpResults.iter b < length (MvpResults.n_vox b) ->
  np.rows (MvpResults.voxel_values b) !! MvpResults.iter b = Some row ->
  length row = np.ncols (MvpResults.voxel_values b) ->
  exists b' row',
    MvpResults._update_voxel_values np_T np_dot np_cov np_pinv np_concatenate_mean0
      (MvpResults.Array a) (Some (MvpResults.BoolIdx m)) b = (b', Ok tt) /\
    MvpResults.iter b' = MvpResults.iter b /\
    MvpResults.n_vox b'
    = <[MvpResults.iter b:=np.float_of_nat k]> (MvpResults.n_vox b) /\
    np.rows (MvpResults.voxel_values b')
    = <[MvpResults.iter b:=row']> (np.rows (MvpResults.voxel_values b)) /\
    length row' = length row /\
    forall j, j < length row ->
      row' !! j = (if decide (m !! j = Some true) then np.data a !! rank m j
                   else row !! j).
Proof.
  intros Hfs Hshape Hdata Hcount Hm Hit Hrow Hlen.
  assert (np.broadcast_to_1d (length (np.flatnonzero m)) (np.squeeze a)
          = Ok (np.data a)) as Hbc.
  { unfold np.broadcast_to_1d. rewrite Hshape.
    unfold np.flatnonzero. rewrite length_flatnonzero_from, Hcount.
    assert (k <> 1) as Hk1.
    { intros ->. unfold np.squeeze in Hshape. cbn in Hshape.
      assert (1 ∈ filter (fun d => d ≠ 1) (np.shape a)) as Hin
        by (rewrite Hshape; by left).
      apply list_elem_of_filter in Hin as [? _]. done. }
    destruct k as [|[|k']]; [|done|]; cbn [np.strip_ones np.squeeze np.data].
    - rewrite decide_True; [done|]. cbn in *. done.
    - rewrite decide_True; [done|]. done. }
  exists (MvpResults.set_voxel_values
            (np.mk_array2 (np.ncols (MvpResults.voxel_values b))
               (<[MvpResults.iter b:=np.scatter row (np.flatnonzero m) (np.data a)]>
                  (np.rows (MvpResults.voxel_values b))))
            (MvpResults.set_n_vox
               (<[MvpResults.iter b:=np.float_of_nat k]> (MvpResults.n_vox b)) b)),
    (np.scatter row (np.flatnonzero m) (np.data a)).
  split; [|split; [by destruct b|split; [by destruct b|split; [by destruct b|]]]].
  - unfold MvpResults._update_voxel_values, MvpResults.extract_values,
      MvpResults.store_n_vox, MvpResults.store_scores, MvpResults.store_voxel_values.
    unfold_py. unfold np.setitem. rewrite decide_True by done.
    assert (np.size (np.squeeze a) = k) as ->.
    { unfold np.size. rewrite Hshape. cbn. lia. }
    destruct b; cbn [MvpResults.fs MvpResults.set_n_vox MvpResults.iter
      MvpResults.voxel_values MvpResults.n_vox] in *.
    rewrite Hfs. unfold MvpResults.setitem_row.
    cbn [MvpResults.fs MvpResults.set_n_vox MvpResults.iter
      MvpResults.voxel_values MvpResults.n_vox].
    rewrite Hrow.
    rewrite decide_True by done. cbn [mbind result_bind].
    rewrite Hbc. cbn [mbind result_bind]. reflexivity.
  - split; [by rewrite length_scatter|].
    intros j Hj. destruct (decide (m !! j = Some true)) as [Ht|Hf].
    + destruct (lookup_lt_is_Some_2 (np.data a) (rank m j)) as [x Hx].
      { rewrite Hdata, <- Hcount. unfold np.flatnonzero.
        rewrite <- (length_flatnonzero_from 0).
        eapply lookup_lt_Some. by apply flatnonzero_lookup_rank. }
      rewrite Hx. apply scatter_lookup with (t := rank m j); try done.
      * by apply flatnonzero_lookup_rank.
      * intros t' Hlt Ht'. apply flatnonzero_lookup_inv in Ht' as [_ Hr]. lia.
    + apply scatter_other. intros t Ht.
      by apply flatnonzero_lookup_inv in Ht as [? _].
Qed.

End stored_scores.

(** * Confusion matrices of folds that miss a class *)

Lemma broadcast_to_2d_single {A} `{Inhabited A} n m (x : A) :
  np.broadcast_to_2d n m (np.mk_array2 1 [[x]])
  = Ok (np.mk_array2 m (replicate n (replicate m x))).
Proof.
  unfold np.broadcast_to_2d, np.nrows. cbn [np.rows np.ncols length].
  rewrite decide_True by auto. f_equal. f_equal.
  apply list_eq. intros i. rewrite list_lookup_fmap.
  destruct (decide (i < n)) as [Hi|Hi].
  - rewrite lookup_seq_lt, lookup_replicate_2 by done. cbn. f_equal.
    assert ([[x]] !!! (if decide (1 = n) then i else 0) = [x]) as ->.
    { destruct (decide (1 = n)) as [<-|]; [|done].
      by replace i with 0 by lia. }
    apply list_eq. intros j. rewrite list_lookup_fmap.
    destruct (decide (j < m)) as [Hj|Hj].
    + rewrite lookup_seq_lt, lookup_replicate_2 by done. cbn. f_equal.
      destruct (decide (1 = m)) as [<-|]; [|done].
      by replace j with 0 by lia.
    + rewrite lookup_seq_ge by lia. cbn. symmetry.
      apply lookup_replicate_None. lia.
  - rewrite lookup_seq_ge by lia. cbn. symmetry.
    apply lookup_replicate_None. lia.
Qed.

(** X17: a fold whose confusion matrix has a single entry (its test labels and
    predictions are all of one class) does not raise: numpy stretches the
    one count over the whole slot, so every entry of the matrix stored
    for the fold is that count. *)
Theorem single_class_fold_fills_confusion_matrix (s s' : Cls.t) (f : Cls.fold)
    (c : nat) (y_true : list Z) (count : Z) :
  Forall (has_shape c c) (Cls.confmat s) ->
  np.take (MvpResults.y (Cls.base s)) (Cls.test_idx f) = Ok y_true ->
  confusion_matrix y_true (Cls.y_pred f) = Ok (np.mk_array2 1 [[count]]) ->
  cls_update f s = (s', Ok tt) ->
  exists C',
    Cls.confmat s' !! MvpResults.iter (Cls.base s) = Some C' /\
    has_shape c c C' /\
    forall a b, a < c -> b < c -> entry C' a b = np.float_of_Z count.
Proof.
  intros Hsh Hy HC Hup.
  pose proof (cls_update_same c f s Hsh) as Hstep. rewrite Hup in Hstep.
  destruct Hstep as (_ & _ & _ & Hsh' & _ & Hok).
  destruct (Hok eq_refl) as (Hlt & C' & (yt & C & old & Hy' & HC' & Hold & Hb) & Hcm).
  rewrite Hy in Hy'. injection Hy' as <-. rewrite HC in HC'. injection HC' as <-.
  cbn [np.ncols np.rows map] in Hb. rewrite broadcast_to_2d_single in Hb.
  injection Hb as <-.
  eapply Forall_lookup_1 in Hsh as (Hn & Hm & _); [|exact Hold].
  rewrite Hn, Hm in Hcm.
  exists (np.mk_array2 c (replicate c (replicate c (np.float_of_Z count)))).
  split.
  { rewrite Hcm. apply list_lookup_insert_eq. by eapply lookup_lt_Some. }
  split.
  { unfold has_shape, np.nrows, np.wf2. cbn. rewrite length_replicate.
    repeat split. apply Forall_replicate. by rewrite length_replicate. }
  intros a b Ha Hb. unfold entry. cbn.
  by rewrite !lookup_total_replicate_2.
Qed.

(** X18: a fold whose confusion matrix has neither the size of the slot nor a
    single entry (the fold misses some, but not all but one, of the
    classes counted at construction) makes [update] raise [ValueError].
    The fold's accuracy, precision and recall are stored by then; the
    confusion matrices, the base object and the fold counter are as
    before. *)
Theorem confusion_matrix_of_other_size_raises (s : Cls.t) (f : Cls.fold)
    (c : nat) (y_true : list Z) (a p r : float) (C : np.array2 Z) :
  let i := MvpResults.iter (Cls.base s) in
  Forall (has_shape c c) (Cls.confmat s) ->
  i < length (Cls.confmat s) ->
  i < length (Cls.accuracy s) ->
  i < length (Cls.precision s) ->
  i < length (Cls.recall s) ->
  np.take (MvpResults.y (Cls.base s)) (Cls.test_idx f) = Ok y_true ->
  accuracy_score y_true (Cls.y_pred f) = Ok a ->
  precision_score_macro y_true (Cls.y_pred f) = Ok p ->
  recall_score_macro y_true (Cls.y_pred f) = Ok r ->
  confusion_matrix y_true (Cls.y_pred f) = Ok C ->
  (np.nrows C <> c /\ np.nrows C <> 1) \/ (np.ncols C <> c /\ np.ncols C <> 1) ->
  exists s' msg,
    cls_update f s = (s', Raise (ValueError msg)) /\
    Cls.accuracy s' = <[i:=a]> (Cls.accuracy s) /\
    Cls.precision s' = <[i:=p]> (Cls.precision s) /\
    Cls.recall s' = <[i:=r]> (Cls.recall s) /\
    Cls.confmat s' = Cls.confmat s /\
    Cls.base s' = Cls.base s.
Proof.
  intros i Hsh Hic Hia Hip Hir Hy Ha Hp Hr HC Hsize. subst i.
  destruct (lookup_lt_is_Some_2 _ _ Hic) as [old Hold].
  pose proof (Forall_lookup_1 _ _ _ _ Hsh Hold) as (Hn & Hm & _).
  unfold Cls.update, Cls.store_metrics. unfold_py. unfold np.setitem.
  rewrite Hy, Ha. rewrite decide_True by done.
  cbn [Cls.base Cls.set_accuracy Cls.precision]. rewrite Hp.
  rewrite decide_True by done.
  cbn [Cls.base Cls.set_accuracy Cls.set_precision Cls.precision Cls.recall].
  rewrite Hr. rewrite decide_True by done.
  cbn [Cls.base Cls.set_accuracy Cls.set_precision Cls.set_recall Cls.precision
       Cls.recall id]. rewrite HC.
  unfold Cls.setitem_confmat.
  cbn [Cls.base Cls.set_accuracy Cls.set_precision Cls.set_recall Cls.confmat].
  rewrite Hold. cbn [mbind result_bind]. unfold np.broadcast_to_2d.
  rewrite decide_False.
  2:{ unfold np.nrows in *. cbn [np.rows np.ncols]. rewrite length_map.
      rewrite Hn, Hm. intros [[?|?] [?|?]]; destruct Hsize as [[? ?]|[? ?]]; done. }
  cbn. eexists _, _. split; [reflexivity|]. cbn. done.
Qed.

(** * The forward model *)

Section forward_mode.
Context {L : Type}.

(* [_update_voxel_values] on an array in forward mode: the size is
   recorded, then the forward model is computed and stored *)
Lemma _update_voxel_values_forward (b : MvpResults.t L) (W0 : np.ndarray)
    (idx : option MvpResults.index) (nc : nat) :
  let W := np.squeeze W0 in
  let b1 := MvpResults.set_n_vox
              (<[MvpResults.iter b:=np.float_of_nat (np.size W)]> (MvpResults.n_vox b))
              b in
  MvpResults.fs b = "forward" ->
  MvpResults.n_class b = Some nc ->
  MvpResults.iter b < length (MvpResults.n_vox b) ->
  MvpResults._update_voxel_values np_T np_dot np_cov np_pinv np_concatenate_mean0
    (MvpResults.Array W0) idx b
  = match (Xs ← MvpResults.index_cols (MvpResults.X b) idx;
           s ← np_dot (np_T W) (np_T Xs);
           if bool_decide (nc < 3) then
             c ← np_cov (np_T Xs); np_dot c W
           else
             X_cov ← np_cov (np_T Xs);
             XW ← np_dot X_cov W;
             cs ← np_cov s;
             p ← np_pinv cs;
             np_dot XW p) with
    | Ok A =>
        match MvpResults.setitem_row (MvpResults.voxel_values b) (MvpResults.iter b)
                idx A with
        | Ok vv => (MvpResults.set_voxel_values vv b1, Ok tt)
        | Raise e => (b1, Raise e)
        end
    | Raise e => (b1, Raise e)
    end.
Proof.
  intros W b1 Hfs Hnc Hit. subst b1 W.
  unfold MvpResults._update_voxel_values, MvpResults.extract_values,
    MvpResults.store_n_vox, MvpResults.store_scores, MvpResults.forward_model,
    MvpResults.store_voxel_values.
  unfold_py. unfold np.setitem. rewrite decide_True by done.
  destruct b; cbn [MvpResults.fs MvpResults.set_n_vox MvpResults.iter
    MvpResults.voxel_values MvpResults.n_vox MvpResults.n_class MvpResults.X] in *.
  subst. cbn [orb MvpResults.fnmatch_coef_star MvpResults.fnmatch_ufs].
  change (MvpResults.fnmatch_coef_star "forward" || MvpResults.fnmatch_ufs "forward")
    with false.
  change (bool_decide ("forward" = "forward")) with true.
  cbn [MvpResults.fs MvpResults.set_n_vox MvpResults.iter MvpResults.voxel_values
    MvpResults.n_vox MvpResults.n_class MvpResults.X from_option mbind result_bind].
  destruct (MvpResults.index_cols _ _) as [Xs|e]; cbn [mbind result_bind]; [|done].
  destruct (np_dot (np_T _) (np_T Xs)) as [s|e]; cbn [mbind result_bind from_option];
    [|done].
  destruct (bool_decide (nc < 3)).
  - destruct (np_cov (np_T Xs)) as [c|e]; cbn [mbind result_bind]; [|done].
    destruct (np_dot c _) as [A|e]; [|done].
    by destruct (MvpResults.setitem_row _ _ _ _).
  - destruct (np_cov (np_T Xs)) as [c|e]; cbn [mbind result_bind]; [|done].
    destruct (np_dot c _) as [XW|e]; cbn [mbind result_bind]; [|done].
    destruct (np_cov s) as [cs|e]; cbn [mbind result_bind]; [|done].
    destruct (np_pinv cs) as [p|e]; cbn [mbind result_bind]; [|done].
    destruct (np_dot XW p) as [A|e]; [|done].
    by destruct (MvpResults.setitem_row _ _ _ _).
Qed.

(** C3: in forward mode, with the scores recorded as a vector [W] of
    shape [(k,)] and [X] the selected feature data, an aggregator with
    fewer than three classes stores [A = np.cov(X.T).dot(W)] in the
    fold's row.  With three or more classes nothing is ever stored:
    [s = W.T.dot(X.T)] is a vector, so numpy's [np.cov(s)] has no axis
    and [np.linalg.pinv], which needs at least two, raises; the call
    ends in that error with [voxel_values] as it was. *)
Theorem forward_scores_fail_for_three_classes (b : MvpResults.t L) (W0 : np.ndarray)
    (idx : option MvpResults.index) (nc : nat) :
  let W := np.squeeze W0 in
  let update := MvpResults._update_voxel_values np_T np_dot np_cov np_pinv
                  np_concatenate_mean0 (MvpResults.Array W0) idx in
  let b1 := MvpResults.set_n_vox
              (<[MvpResults.iter b:=np.float_of_nat (np.size W)]> (MvpResults.n_vox b))
              b in
  MvpResults.fs b = "forward" ->
  MvpResults.n_class b = Some nc ->
  MvpResults.iter b < length (MvpResults.n_vox b) ->
  (nc < 3 ->
   forall Xs s c A vv,
     MvpResults.index_cols (MvpResults.X b) idx = Ok Xs ->
     np_dot (np_T W) (np_T Xs) = Ok s ->
     np_cov (np_T Xs) = Ok c ->
     np_dot c W = Ok A ->
     MvpResults.setitem_row (MvpResults.voxel_values b) (MvpResults.iter b) idx A
     = Ok vv ->
     update b = (MvpResults.set_voxel_values vv b1, Ok tt)) /\
  (3 <= nc ->
   (forall Xs s,
      MvpResults.index_cols (MvpResults.X b) idx = Ok Xs ->
      np_dot (np_T W) (np_T Xs) = Ok s -> length (np.shape s) = 1) ->
   (forall s c, length (np.shape s) = 1 -> np_cov s = Ok c -> np.shape c = []) ->
   (forall c, np.shape c = [] -> exists e, np_pinv c = Raise e) ->
   exists e,
     update b = (b1, Raise e) /\
     forall Xs s X_cov XW c,
       MvpResults.index_cols (MvpResults.X b) idx = Ok Xs ->
       np_dot (np_T W) (np_T Xs) = Ok s ->
       np_cov (np_T Xs) = Ok X_cov ->
       np_dot X_cov W = Ok XW ->
       np_cov s = Ok c ->
       np.shape c = [] /\ np_pinv c = Raise e).
Proof.
  intros W update b1 Hfs Hnc Hit. subst update.
  rewrite (_update_voxel_values_forward b W0 idx nc Hfs Hnc Hit).
  fold W. fold b1. split.
  - intros Hlt Xs s c A vv HXs Hs Hc HA Hvv.
    rewrite HXs. cbn [mbind result_bind]. rewrite Hs. cbn [mbind result_bind].
    rewrite bool_decide_eq_true_2 by done. rewrite Hc. cbn [mbind result_bind].
    by rewrite HA, Hvv.
  - intros Hge Hvec Hcov Hpinv.
    rewrite bool_decide_eq_false_2 by lia.
    destruct (MvpResults.index_cols _ _) as [Xs|e] eqn:EXs; cbn [mbind result_bind].
    2:{ exists e. split; [done|]. intros; discriminate. }
    destruct (np_dot (np_T W) (np_T Xs)) as [s|e] eqn:Es; cbn [mbind result_bind].
    2:{ exists e. split; [done|]. intros ? ? ? ? ? [= <-] H1 H2 H3 H4. congruence. }
    destruct (np_cov (np_T Xs)) as [X_cov|e] eqn:EX; cbn [mbind result_bind].
    2:{ exists e. split; [done|]. intros ? ? ? ? ? [= <-] H1 H2 H3 H4. congruence. }
    destruct (np_dot X_cov W) as [XW|e] eqn:EXW; cbn [mbind result_bind].
    2:{ exists e. split; [done|]. intros ? ? ? ? ? [= <-] H1 H2 H3 H4. congruence. }
    destruct (np_cov s) as [cs|e] eqn:Ecs; cbn [mbind result_bind].
    2:{ exists e. split; [done|]. intros ? ? ? ? ? [= <-] H1 H2 H3 H4. congruence. }
    pose proof (Hcov s cs (Hvec Xs s eq_refl Es) Ecs) as Hshape.
    destruct (Hpinv cs Hshape) as (e & He). rewrite He. cbn [mbind result_bind].
    exists e. split; [done|].
    intros Xs' s' X_cov' XW' c' [= <-] Hs' _ _ Hc'.
    assert (s' = s) as -> by congruence. assert (c' = cs) as -> by congruence.
    done.
Qed.

End forward_mode.

End aggregators.

(** * The theorems at concrete inputs *)

Lemma transform_selects_overlap_witness :
  exists X_new,
    RoiIndexer.transform Examples.nib Examples.roi Examples.X = Ok X_new /\
    np.rows X_new = [[2; 4]; [6; 8]]%float.
Proof.
  destruct (transform_selects_overlap Examples.nib Examples.roi Examples.X
              Examples.vol)
    as (X_new & Ht & _ & _ & _ & Hrows & _).
  - reflexivity.
  - reflexivity.
  - repeat constructor.
  - reflexivity.
  - exists X_new. split; [exact Ht|]. rewrite Hrows. vm_compute. reflexivity.
Defined.

Lemma transform_empty_intersection_witness :
  exists X_new,
    RoiIndexer.transform Examples.nib Examples.roi_outside Examples.X = Ok X_new /\
    np.nrows X_new = 2 /\ np.ncols X_new = 0.
Proof.
  destruct (transform_empty_intersection Examples.nib Examples.roi_outside Examples.X
              Examples.vol_outside)
    as (X_new & Ht & Hn & Hc & _).
  - reflexivity.
  - reflexivity.
  - repeat constructor.
  - reflexivity.
  - intros voxel [HM HR]. vm_compute in HM, HR.
    do 6 (destruct voxel as [|voxel]; [discriminate HM || discriminate HR|]).
    discriminate HR.
  - exists X_new. split; [exact Ht|]. split; [exact Hn|exact Hc].
Defined.

Lemma regression_mse_keeps_last_fold_only_witness :
  exists m,
    Reg.mse (Examples.reg_run [Examples.fold1; Examples.fold2]
               (Reg.init Examples.mvp_reg 2 "coef" false "out")).1
    = Reg.MseScalar m /\
    fold_mse Reference.mean_squared_error (mvp_y Examples.mvp_reg) Examples.fold2
    = Ok m.
Proof.
  destruct (regression_mse_keeps_last_fold_only
              Reference.np_T Reference.np_dot Reference.np_cov Reference.np_pinv
              Reference.np_concatenate_mean0 Reference.r2_score
              Reference.mean_squared_error Reference.pd_mean Reference.pd_std
              Examples.mvp_reg 2 "coef" false "out"
              [Examples.fold1] Examples.fold2
              (Examples.reg_run [Examples.fold1; Examples.fold2]
                 (Reg.init Examples.mvp_reg 2 "coef" false "out")).1
              (Examples.reg_run [Examples.fold1; Examples.fold2]
                 (Reg.init Examples.mvp_reg 2 "coef" false "out")).2)
    as (m & Hm & Hmse & _).
  - apply surjective_pairing.
  - vm_compute. repeat constructor.
  - exists m. split; [exact Hmse|exact Hm].
Defined.

Lemma pipeline_attribute_must_be_unique_witness :
  (Examples.reg_update Examples.fold_two_models
     (Reg.init Examples.mvp_reg 2 "coef" false "out")).2
  = Raise (ValueError "Found more than one coef_ attribute in the pipeline!") /\
  (Examples.reg_update Examples.fold_no_model
     (Reg.init Examples.mvp_reg 2 "coef" false "out")).2
  = Raise (ValueError "Found no coef_ attribute anywhere in the pipeline!") /\
  (Examples.cls_update Examples.cfold_two_models
     (Cls.init Examples.mvp_cls 2 "ufs" false "out")).2
  = Raise (ValueError "Found no scores_ attribute anywhere in the pipeline!").
Proof.
  pose proof (pipeline_attribute_must_be_unique
                Reference.np_T Reference.np_dot Reference.np_cov Reference.np_pinv
                Reference.np_concatenate_mean0 Reference.r2_score
                Reference.mean_squared_error Reference.accuracy_score
                Reference.precision_score_macro Reference.recall_score_macro
                Reference.confusion_matrix) as [Hreg Hcls].
  split; [|split].
  - destruct (Hreg (Reg.init Examples.mvp_reg 2 "coef" false "out")
                (Reg.store_metrics Reference.r2_score Reference.mean_squared_error
                   Examples.fold_two_models
                   (Reg.init Examples.mvp_reg 2 "coef" false "out")).1
                Examples.fold_two_models Examples.two_models)
      as (Hmany & _ & _).
    + reflexivity.
    + vm_compute. reflexivity.
    + unfold Examples.reg_update. rewrite Hmany; [reflexivity|].
      vm_compute. lia.
  - destruct (Hreg (Reg.init Examples.mvp_reg 2 "coef" false "out")
                (Reg.store_metrics Reference.r2_score Reference.mean_squared_error
                   Examples.fold_no_model
                   (Reg.init Examples.mvp_reg 2 "coef" false "out")).1
                Examples.fold_no_model Examples.no_model)
      as (_ & Hnone & _).
    + reflexivity.
    + vm_compute. reflexivity.
    + unfold Examples.reg_update. rewrite Hnone; [reflexivity|reflexivity|].
      vm_compute. lia.
  - destruct (Hcls (Cls.init Examples.mvp_cls 2 "ufs" false "out")
                (Cls.store_metrics Reference.accuracy_score
                   Reference.precision_score_macro Reference.recall_score_macro
                   Reference.confusion_matrix Examples.cfold_two_models
                   (Cls.init Examples.mvp_cls 2 "ufs" false "out")).1
                Examples.cfold_two_models Examples.two_models)
      as (_ & Hnone & _).
    + reflexivity.
    + vm_compute. reflexivity.
    + unfold Examples.cls_update. rewrite Hnone; [reflexivity|reflexivity|].
      vm_compute. lia.
Defined.

Lemma write_t_statistic_per_voxel_witness :
  exists ws w,
    MvpResults.write Reference.np_mean Reference.np_std true
      (Reg.base Examples.finished) = (ws, Ok Examples.finished_table) /\
    w ∈ ws /\
    MvpResults.w_img w !! 1
    = Some (voxel_value Reference.np_mean Reference.np_std true 2
              (MvpResults.voxel_values (Reg.base Examples.finished)) 1).
Proof.
  destruct (write_t_statistic_per_voxel Reference.np_mean Reference.np_std
              (Reg.base Examples.finished) true Examples.finished_table)
    as (ws & Hw & _ & Hvox).
  - reflexivity.
  - reflexivity.
  - reflexivity.
  - reflexivity.
  - intros i Hi. vm_compute in Hi.
    assert (i = 0) as -> by (repeat (apply elem_of_cons in Hi as [->|Hi]; [done|]);
                             by apply elem_of_nil in Hi).
    vm_compute. lia.
  - intros j i p sh Hj Hp Hsh.
    do 3 (destruct j as [|j];
          [vm_compute in Hj, Hp; injection Hj as <-; injection Hp as <-;
           vm_compute in Hsh; injection Hsh as <-; reflexivity|]).
    discriminate Hj.
  - destruct (Hvox 1 0 1%Z [3] "stat" 1) as (w & Hin & _ & _ & Himg);
      try reflexivity.
    + intros j' p' Hlt Hj' Hp'.
      do 2 (destruct j' as [|j']; [lia|]).
      destruct j' as [|j']; [|discriminate Hj'].
      vm_compute in Hp'. injection Hp' as <-. vm_compute. discriminate.
    + exists ws, w. split; [exact Hw|]. split; [exact Hin|exact Himg].
Defined.

(** C9: the count that [write] prints under the words "non-zero voxels"
    is the number of strictly positive entries.  For one feature set whose
    reduced values are [0.25; -0.5; 1], [write] reports 2, whereas 3
    entries differ from zero. *)
Theorem write_nonzero_count_skips_negative_voxels :
  exists w,
    MvpResults.write Reference.np_mean Reference.np_std false
      (Reg.base Examples.finished) = ([w], Ok Examples.finished_table) /\
    MvpResults.w_img w = [0.25; -0.5; 1]%float /\
    MvpResults.w_n_nonzero w = 2 /\
    n_nonzero (MvpResults.w_img w) = 3.
Proof. eexists. vm_compute. repeat split. Qed.

(** C10 as stated fails: a regression aggregator in forward mode that is
    handed a pipeline with two steps exposing [coef_] raises the
    "more than one" [ValueError] of line 126, and no [AttributeError]. *)
Lemma forward_scoring_error_need_not_be_attribute_error :
  (Examples.reg_update Examples.fold_two_models
     (Reg.init Examples.mvp_reg 2 "forward" false "out")).2
  = Raise (ValueError "Found more than one coef_ attribute in the pipeline!") /\
  ~ exists attr,
      (Examples.reg_update Examples.fold_two_models
         (Reg.init Examples.mvp_reg 2 "forward" false "out")).2
      = Raise (AttributeError attr).
Proof.
  split; [vm_compute; reflexivity|].
  intros [attr H]. vm_compute in H. discriminate H.
Qed.

(** The attribute error itself: weights handed over as an array reach the
    class-count test. *)
Example forward_scoring_attribute_error :
  (Examples.reg_update Examples.fold_weights
     (Reg.init Examples.mvp_reg 2 "forward" false "out")).2
  = Raise (AttributeError "n_class").
Proof. vm_compute. reflexivity. Qed.

(** A third call on an aggregator built for two folds raises and leaves
    the counter at two. *)
Example update_past_last_fold_raises :
  (Examples.reg_run [Examples.fold1; Examples.fold2; Examples.fold2]
     (Reg.init Examples.mvp_reg 2 "coef" false "out")).2
  = [Ok tt; Ok tt; Raise IndexError] /\
  MvpResults.iter
    (Reg.base (Examples.reg_run [Examples.fold1; Examples.fold2; Examples.fold2]
                 (Reg.init Examples.mvp_reg 2 "coef" false "out")).1) = 2.
Proof. vm_compute. split; reflexivity. Qed.

(** Two folds of a two-class problem: the reported matrix is the sum of
    the two stored ones. *)
Example confusion_matrices_of_two_folds :
  let s := (Examples.cls_run [Examples.cfold1; Examples.cfold2]
              (Cls.init Examples.mvp_cls 2 "coef" false "out")).1 in
  map np.rows (Cls.confmat s)
  = [[[1; 0]; [0; 1]]; [[0; 1]; [0; 1]]]%float /\
  match (Cls.compute_scores Reference.pd_mean Reference.pd_std s).2 with
  | Ok (_, aggregate) => aggregate = np.mk_array2 2 [[1; 1]; [0; 2]]%float
  | Raise _ => False
  end.
Proof. vm_compute. split; reflexivity. Qed.

(** C6: a fold that does not contain every class is not stored as its
    confusion matrix.  On an aggregator over the three classes 0, 1 and 2,
    a fold whose two test labels and predictions are all of class 0
    completes, and the matrix stored for it holds the count 2 in all nine
    entries, where its confusion matrix over the three classes has the 2
    at [(0, 0)] and zeros elsewhere; the matrix that [compute_scores]
    reports then carries the nine 2s.  A fold that sees two of the three
    classes makes [update] raise [ValueError] and stores no matrix. *)
Theorem fold_missing_a_class_is_not_stored_as_its_confusion_matrix :
  let s := Cls.init MoreExamples.mvp_three_classes 2 "coef" false "out" in
  let labels := class_labels (mvp_y MoreExamples.mvp_three_classes) in
  let nine_twos := np.mk_array2 3 [[2; 2; 2]; [2; 2; 2]; [2; 2; 2]]%float in
  labels = [0; 1; 2]%Z /\
  (exists s' summary,
     np.take (mvp_y MoreExamples.mvp_three_classes) [0; 3]%Z = Ok [0; 0]%Z /\
     Examples.cls_update (Cls.mk_fold [0; 3]%Z [0; 0]%Z None None) s = (s', Ok tt) /\
     Cls.confmat s' !! 0 = Some nine_twos /\
     confusion_over labels [0; 0]%Z [0; 0]%Z
     = np.mk_array2 3 [[2; 0; 0]; [0; 0; 0]; [0; 0; 0]]%float /\
     (Cls.compute_scores Reference.pd_mean Reference.pd_std s').2
     = Ok (summary, nine_twos)) /\
  (exists s' msg,
     np.take (mvp_y MoreExamples.mvp_three_classes) [0; 1]%Z = Ok [0; 1]%Z /\
     Examples.cls_update (Cls.mk_fold [0; 1]%Z [0; 1]%Z None None) s
     = (s', Raise (ValueError msg)) /\
     Cls.confmat s' = Cls.confmat s /\
     MvpResults.iter (Cls.base s') = 0 /\
     confusion_over labels [0; 1]%Z [0; 1]%Z
     = np.mk_array2 3 [[1; 0; 0]; [0; 1; 0]; [0; 0; 0]]%float).
Proof.
  intros s labels nine_twos. split; [vm_compute; reflexivity|]. split.
  - eexists _, _. vm_compute. repeat split.
  - eexists _, _. vm_compute. repeat split.
Qed.

Lemma forward_scores_fail_for_three_classes_witness :
  let b := Cls.base (Cls.init MoreExamples.mvp_three_classes 2 "forward" false "out") in
  let idx := Some (MvpResults.BoolIdx [true; true; true]) in
  let W := np.squeeze Examples.weights in
  let update :=
    MvpResults._update_voxel_values Reference.np_T Reference.np_dot Reference.np_cov
      Reference.np_pinv Reference.np_concatenate_mean0
      (MvpResults.Array Examples.weights) idx in
  np.shape W = [3] /\
  (update b).2
  = Raise (LibraryError "LinAlgError: array must be at least two-dimensional") /\
  MvpResults.voxel_values (update b).1 = MvpResults.voxel_values b /\
  exists Xs s c,
    MvpResults.index_cols (MvpResults.X b) idx = Ok Xs /\ np.shape Xs = [4; 3] /\
    Reference.np_dot (Reference.np_T W) (Reference.np_T Xs) = Ok s /\
    np.shape s = [4] /\
    Reference.np_cov s = Ok c /\ np.shape c = [].
Proof.
  intros b idx W update. subst update.
  destruct (forward_scores_fail_for_three_classes
              Reference.np_T Reference.np_dot Reference.np_cov Reference.np_pinv
              Reference.np_concatenate_mean0 b Examples.weights idx 3)
    as [_ Hmany].
  - reflexivity.
  - reflexivity.
  - cbn. lia.
  - destruct Hmany as (e & Hup & Hwhy).
    + lia.
    + intros Xs s HXs Hs. vm_compute in HXs. injection HXs as <-.
      vm_compute in Hs. injection Hs as <-. reflexivity.
    + intros s c Hs. unfold Reference.np_cov.
      destruct (np.shape s) as [|d [|d' sh]]; [done| |done].
      intros [= <-]. reflexivity.
    + intros c Hc. unfold Reference.np_pinv. rewrite Hc. by eexists.
    + split; [reflexivity|]. split; [vm_compute; reflexivity|].
      split; [by rewrite Hup|].
      eexists _, _, _. vm_compute. repeat split.
Defined.

(** * Further properties of the region indexer *)

Lemma transform_cols {A} nib (self : RoiIndexer.t) (X : np.array2 A) vol :
  nib (RoiIndexer.mask self) = Ok vol ->
  length (np.data vol) = length (RoiIndexer.orig_mask self) ->
  RoiIndexer.transform nib self X
  = np.bool_index_cols
      (np.select (RoiIndexer.orig_mask self)
         (roi_mask (RoiIndexer.mask_threshold self) vol)) X.
Proof.
  intros Hload Hgeom. unfold RoiIndexer.transform.
  rewrite Hload. cbn [mbind result_bind].
  fold (roi_mask (RoiIndexer.mask_threshold self) vol).
  assert (length (roi_mask (RoiIndexer.mask_threshold self) vol)
          = length (RoiIndexer.orig_mask self)) as HlenR.
  { unfold roi_mask. by rewrite length_map. }
  unfold np.add. rewrite decide_True
    by (unfold np.astype_int; rewrite !length_map; done).
  cbn [mbind result_bind]. unfold np.bool_index.
  rewrite decide_True
    by (unfold np.astype_int; rewrite length_map, length_zip_with, !length_map; lia).
  cbn [mbind result_bind]. by rewrite overlap_restricted.
Qed.

Lemma count_true_le_length (m : list bool) : np.count_true m <= length m.
Proof.
  induction m as [|b m IH]; [done|].
  rewrite count_true_cons. destruct b; cbn; lia.
Qed.

Lemma select_all {A} (m : list bool) (a : list A) :
  length a = length m -> np.count_true m = length m -> np.select m a = a.
Proof.
  revert a. induction m as [|b m IH]; intros [|x a] Hlen Hall; try done.
  rewrite count_true_cons in Hall. cbn in Hlen, Hall.
  pose proof (count_true_le_length m).
  destruct b; [|lia]. cbn. f_equal. apply IH; lia.
Qed.

Lemma count_true_select_all (M R : list bool) :
  length R = length M ->
  (forall voxel, M !! voxel = Some true -> R !! voxel = Some true) ->
  np.count_true (np.select M R) = np.count_true M.
Proof.
  revert R. induction M as [|b M IH]; intros [|r R] Hlen Hcov; try done.
  cbn in Hlen. cbn [np.select]. rewrite (count_true_cons b M).
  assert (np.count_true (np.select M R) = np.count_true M) as IH'.
  { apply IH; [lia|]. intros v. apply (Hcov (S v)). }
  destruct b; [|done].
  specialize (Hcov 0 eq_refl). cbn in Hcov. injection Hcov as ->.
  rewrite count_true_cons. by rewrite IH'.
Qed.

Lemma bool_index_cols_all {A} (sel : list bool) (X : np.array2 A) :
  np.wf2 X -> length sel = np.ncols X -> np.count_true sel = length sel ->
  np.bool_index_cols sel X = Ok X.
Proof.
  intros Hwf Hlen Hall. unfold np.bool_index_cols.
  rewrite decide_True by done. destruct X as [k rows].
  unfold np.wf2 in Hwf. cbn [np.ncols np.rows] in *.
  f_equal. f_equal; [congruence|].
  rewrite <- (list_fmap_id rows) at 2.
  apply map_ext_Forall. eapply Forall_impl; [exact Hwf|].
  intros row Hrow. cbn in Hrow. apply (select_all sel row); [congruence|done].
Qed.

Section RoiIndexer_edges.

Variable nib_load_get_data : string -> result np.ndarray.

(** X1: [transform] needs one column per voxel of the original mask: with a
    region volume of the mask's geometry, a feature matrix with any other
    number of columns makes the final column selection raise
    [IndexError], whatever its rows are. *)
Theorem transform_wrong_column_count {A} (self : RoiIndexer.t) (X : np.array2 A)
    (vol : np.ndarray) :
  nib_load_get_data (RoiIndexer.mask self) = Ok vol ->
  length (np.data vol) = length (RoiIndexer.orig_mask self) ->
  np.ncols X <> np.count_true (RoiIndexer.orig_mask self) ->
  RoiIndexer.transform nib_load_get_data self X = Raise IndexError.
Proof.
  intros Hload Hgeom Hcols. rewrite (transform_cols _ _ _ vol) by done.
  unfold np.bool_index_cols. rewrite decide_False; [done|].
  rewrite length_select by (unfold roi_mask; by rewrite length_map).
  congruence.
Qed.

(** X2: a region volume whose number of voxels differs from that of the
    original mask is never accepted, unless it has a single voxel (which
    numpy stretches): [transform] raises, and the error is the
    [ValueError] of the addition of the two masks when the original mask
    has more than one voxel. *)
Theorem transform_other_geometry {A} (self : RoiIndexer.t) (X : np.array2 A)
    (vol : np.ndarray) :
  nib_load_get_data (RoiIndexer.mask self) = Ok vol ->
  length (np.data vol) <> length (RoiIndexer.orig_mask self) ->
  length (np.data vol) <> 1 ->
  exists e,
    RoiIndexer.transform nib_load_get_data self X = Raise e /\
    (length (RoiIndexer.orig_mask self) <> 1 -> exists msg, e = ValueError msg).
Proof.
  intros Hload Hgeom Hone. unfold RoiIndexer.transform.
  rewrite Hload. cbn [mbind result_bind]. unfold np.add, np.astype_int.
  rewrite decide_False by (rewrite !length_map; done).
  destruct (np.data vol) as [|v [|v' vs]] eqn:Ev; [| done |].
  - destruct (RoiIndexer.orig_mask self) as [|b [|b' bs]] eqn:Em; [done| |].
    + cbn. eexists. split; [reflexivity|]. done.
    + cbn. eexists. split; [reflexivity|]. intros _. by eexists.
  - destruct (RoiIndexer.orig_mask self) as [|b [|b' bs]] eqn:Em.
    + cbn. eexists. split; [reflexivity|]. intros _. by eexists.
    + cbn [map mbind result_bind]. unfold np.bool_index.
      rewrite decide_False by (cbn; rewrite !length_map; lia).
      cbn. eexists. split; [reflexivity|]. done.
    + cbn. eexists. split; [reflexivity|]. intros _. by eexists.
Qed.

(** X3: when the thresholded region covers every voxel of the original mask,
    [transform] hands back the feature matrix as it is. *)
Theorem transform_region_covering_mask {A} (self : RoiIndexer.t) (X : np.array2 A)
    (vol : np.ndarray) :
  nib_load_get_data (RoiIndexer.mask self) = Ok vol ->
  length (np.data vol) = length (RoiIndexer.orig_mask self) ->
  np.wf2 X ->
  np.ncols X = np.count_true (RoiIndexer.orig_mask self) ->
  (forall voxel,
     RoiIndexer.orig_mask self !! voxel = Some true ->
     roi_mask (RoiIndexer.mask_threshold self) vol !! voxel = Some true) ->
  RoiIndexer.transform nib_load_get_data self X = Ok X.
Proof.
  intros Hload Hgeom Hwf Hcols Hcover. rewrite (transform_cols _ _ _ vol) by done.
  assert (length (roi_mask (RoiIndexer.mask_threshold self) vol)
          = length (RoiIndexer.orig_mask self)) as HlenR.
  { unfold roi_mask. by rewrite length_map. }
  apply bool_index_cols_all; [done|..].
  - rewrite length_select by done. done.
  - rewrite length_select by done. by apply count_true_select_all.
Qed.

(** X4: applying the same indexer to its own output: either the first
    application kept every column, and the second returns the same matrix
    again, or it dropped some, and the second raises [IndexError]. *)
Theorem transform_twice {A} (self : RoiIndexer.t) (X X1 : np.array2 A)
    (vol : np.ndarray) :
  nib_load_get_data (RoiIndexer.mask self) = Ok vol ->
  length (np.data vol) = length (RoiIndexer.orig_mask self) ->
  np.wf2 X ->
  RoiIndexer.transform nib_load_get_data self X = Ok X1 ->
  np.ncols X1 <= np.ncols X /\
  (np.ncols X1 = np.ncols X ->
   X1 = X /\ RoiIndexer.transform nib_load_get_data self X1 = Ok X1) /\
  (np.ncols X1 < np.ncols X ->
   RoiIndexer.transform nib_load_get_data self X1 = Raise IndexError).
Proof.
  intros Hload Hgeom Hwf. rewrite !(transform_cols _ _ _ vol) by done.
  assert (length (roi_mask (RoiIndexer.mask_threshold self) vol)
          = length (RoiIndexer.orig_mask self)) as HlenR.
  { unfold roi_mask. by rewrite length_map. }
  set (sel := np.select _ _).
  assert (length sel = np.count_true (RoiIndexer.orig_mask self)) as Hsel.
  { unfold sel. by rewrite length_select. }
  unfold np.bool_index_cols at 1. destruct (decide _) as [Hc|]; [|done].
  intros [= <-]. cbn [np.ncols].
  pose proof (count_true_le_length sel) as Hle.
  split; [lia|]. split.
  - intros Hall.
    assert (np.bool_index_cols sel X = Ok X) as HX.
    { apply bool_index_cols_all; [done..|lia]. }
    unfold np.bool_index_cols in HX. rewrite decide_True in HX by done.
    injection HX as HX. rewrite HX. split; [done|].
    by apply bool_index_cols_all; [|lia..].
  - intros Hlt. unfold np.bool_index_cols. cbn [np.ncols].
    rewrite decide_False; [done|lia].
Qed.

End RoiIndexer_edges.

(** X5: the constructor of the indexer always keeps the container's mask and
    the threshold it is given.  Outside EPI space it keeps the mask path
    as given; in EPI space a mask already present in the [epi_masks]
    directory is used and the conversion is not looked at.  It raises only
    in EPI space with no such mask, and then either with the error of the
    conversion or with [IndexError] when the conversion returns no file. *)
Theorem roi_indexer_init_cases {L} op_dirname op_basename op_join glob_glob
    (convert2epi : string -> string -> string -> result (list string))
    (mvp : Mvp L) (mask0 : string) (thr : float) :
  let init := RoiIndexer.init op_dirname op_basename op_join glob_glob in
  let epi_dir := op_join [op_dirname (mvp_directory mvp); "epi_masks";
                          op_basename (op_dirname mask0)] in
  let cached := glob_glob (op_join [epi_dir; op_basename mask0]) in
  let converted := convert2epi mask0 (op_join [mvp_directory mvp; "reg"]) epi_dir in
  (forall r, init convert2epi L mvp mask0 thr = Ok r ->
     RoiIndexer.orig_mask r = mvp_mask_index mvp /\
     RoiIndexer.mask_threshold r = thr) /\
  (mvp_ref_space mvp <> "epi" ->
   init convert2epi L mvp mask0 thr
   = Ok (RoiIndexer.mk mask0 thr (mvp_mask_index mvp))) /\
  (forall found rest other,
     mvp_ref_space mvp = "epi" -> cached = found :: rest ->
     init other L mvp mask0 thr
     = Ok (RoiIndexer.mk found thr (mvp_mask_index mvp))) /\
  (forall e, init convert2epi L mvp mask0 thr = Raise e ->
     mvp_ref_space mvp = "epi" /\ cached = [] /\
     (converted = Raise e \/ (converted = Ok [] /\ e = IndexError))).
Proof.
  intros init epi_dir cached converted.
  unfold init, RoiIndexer.init. fold epi_dir. fold cached. fold converted.
  split; [|split; [|split]].
  - intros r. destruct (decide _); [|by intros [= <-]].
    destruct cached; [|by intros [= <-]].
    destruct converted as [[|m ms]|e']; cbn; [done|by intros [= <-]|done].
  - intros Hns. by rewrite decide_False.
  - intros found rest other Hepi Hc. rewrite decide_True by done. by rewrite Hc.
  - intros e. destruct (decide _); [|discriminate].
    destruct cached; [|discriminate].
    destruct converted as [[|m ms]|e']; cbn; [|discriminate|].
    + intros [= <-]. repeat split; auto.
    + intros [= <-]. repeat split; auto.
Qed.

(** * The count printed by [write] *)

Lemma float_sign_count (v : float) :
  (if PrimFloat.eqb v 0%float then 0 else 1)
  = (if PrimFloat.ltb 0%float v then 1 else 0)
    + (if PrimFloat.ltb v 0%float then 1 else 0)
    + (if PrimFloat.eqb v v then 0 else 1).
Proof.
  rewrite !FloatAxioms.eqb_spec, !FloatAxioms.ltb_spec.
  change (FloatOps.Prim2SF 0%float) with (SpecFloat.S754_zero false).
  unfold SpecFloat.SFeqb, SpecFloat.SFltb, SpecFloat.SFcompare.
  destruct (FloatOps.Prim2SF v) as [s|s| |s m e]; [by destruct s..|done|].
  assert (IntDef.Z.compare e e = Eq) as -> by apply Z.compare_refl.
  assert (PosDef.Pos.compare_cont Eq m m = Eq) as ->
    by apply Pos.compare_cont_refl.
  by destruct s.
Qed.

Lemma length_filter_cons_bool {A} (f : A -> bool) (b : bool) x (l : list A) :
  length (filter (fun v => f v = b) (x :: l))
  = (if Bool.eqb (f x) b then 1 else 0) + length (filter (fun v => f v = b) l).
Proof.
  rewrite filter_cons.
  destruct (decide (f x = b)) as [Hb|Hb]; destruct (f x), b; done.
Qed.

(** X10: the count that [write] prints as the number of non-zero voxels is
    the number of strictly positive entries: the entries that differ from
    zero are these, the negative ones and the ones that are not a number,
    so the printed count falls short by the number of the latter two. *)
Theorem printed_count_leaves_out_negative_voxels (subset : list float) :
  n_nonzero subset
  = MvpResults.n_positive subset + n_negative subset + n_nan subset.
Proof.
  unfold n_nonzero, MvpResults.n_positive, n_negative, n_nan.
  induction subset as [|v subset IH]; [done|].
  rewrite !length_filter_cons_bool, IH.
  pose proof (float_sign_count v) as Hv.
  destruct (PrimFloat.eqb v 0%float), (PrimFloat.ltb 0%float v),
    (PrimFloat.ltb v 0%float), (PrimFloat.eqb v v); cbn in *; lia.
Qed.

(** * Saving and loading models *)

Section models.

Context {L E V : Type}.
Variable op_join : string -> string -> string.
Variable getattr : E -> string -> option V.

Lemma save_steps_eq out (steps : list (string * E)) (files : gmap string E) :
  MvpResultsIO.save_steps op_join out steps files
  = (foldl (fun fs (step : string * E) =>
              <[op_join out (step.1 +:+ ".jl"):=step.2]> fs) files steps,
     Ok tt).
Proof.
  revert files. induction steps as [|step steps IH]; intros files; [done|].
  cbn [MvpResultsIO.save_steps foldl]. rewrite bind_unfold.
  unfold MvpResultsIO.joblib_dump. cbn [py.modify]. by rewrite IH.
Qed.

Lemma foldl_insert_other out (steps : list (string * E)) (files : gmap string E)
    path :
  path ∉ step_files op_join out steps ->
  foldl (fun fs (step : string * E) =>
           <[op_join out (step.1 +:+ ".jl"):=step.2]> fs) files steps !! path
  = files !! path.
Proof.
  revert files. induction steps as [|step steps IH]; intros files Hnot; [done|].
  cbn [foldl]. unfold step_files in Hnot. cbn [map] in Hnot.
  apply not_elem_of_cons in Hnot as [Hne Hnot].
  rewrite IH by done. by apply lookup_insert_ne.
Qed.

(** X19: what [save_model] saves, [load_model] loads: after [save_model], the
    file [out_path/name.jl] of a step holds the estimator of that step
    (of the last such step, when several steps share the file), so
    [load_model] on that path returns it; every other path holds what it
    held before.  Neither a pipeline nor a list of steps makes a
    difference. *)
Theorem save_model_then_load_model (self : MvpResults.t L)
    (model : MvpResultsIO.model_arg E) (steps pre post : list (string * E))
    (name : string) (e : E) (files : gmap string E) :
  model = MvpResultsIO.PipelineModel steps \/ model = MvpResultsIO.StepList steps ->
  steps = (pre ++ (name, e) :: post)%list ->
  let out := MvpResults.out_path self in
  op_join out (name +:+ ".jl") ∉ step_files op_join out post ->
  exists files',
    MvpResultsIO.save_model op_join self model files = (files', Ok tt) /\
    MvpResultsIO.load_model getattr (op_join out (name +:+ ".jl")) None files'
    = (files', Ok (MvpResultsIO.Model e)) /\
    forall path, path ∉ step_files op_join out steps ->
      files' !! path = files !! path.
Proof using Type.
  intros Hmodel -> out Hlast. eexists. split; [|split].
  - unfold MvpResultsIO.save_model. fold out.
    destruct Hmodel as [->| ->]; apply save_steps_eq.
  - unfold MvpResultsIO.load_model, MvpResultsIO.joblib_load. unfold_py. cbn [id].
    rewrite foldl_app. cbn [foldl fst snd].
    rewrite foldl_insert_other by done. rewrite lookup_insert_eq. done.
  - intros path Hpath. by apply foldl_insert_other.
Qed.

Lemma getattr_dict_ok (model : E) (names : list string) (d0 : gmap string V) :
  Forall (fun p => is_Some (getattr model p)) names ->
  exists d,
    MvpResultsIO.getattr_dict getattr model names d0 = Ok d /\
    forall p, d !! p = if decide (p ∈ names) then getattr model p else d0 !! p.
Proof.
  intros Hall. revert d0. induction Hall as [|p0 names [v Hv] _ IH]; intros d0.
  { exists d0. split; [done|]. intros p. rewrite decide_False; [done|].
    apply not_elem_of_nil. }
  cbn [MvpResultsIO.getattr_dict]. rewrite Hv. cbn [from_option mbind result_bind].
  destruct (IH (<[p0:=v]> d0)) as (d & Hd & Hlook).
  exists d. split; [done|]. intros p. rewrite Hlook.
  destruct (decide (p ∈ names)) as [Hin|Hnin].
  - rewrite decide_True; [done|]. by right.
  - destruct (decide (p = p0)) as [->|Hne].
    + rewrite decide_True by (by left). by rewrite lookup_insert_eq.
    + rewrite decide_False by (by apply not_elem_of_cons).
      by apply lookup_insert_ne.
Qed.

Lemma getattr_dict_missing (model : E) (pre post : list string) p
    (d0 : gmap string V) :
  Forall (fun p => is_Some (getattr model p)) pre ->
  getattr model p = None ->
  MvpResultsIO.getattr_dict getattr model (pre ++ p :: post) d0
  = Raise (AttributeError p).
Proof.
  intros Hpre Hp. revert d0.
  induction Hpre as [|p0 pre [v Hv] _ IH]; intros d0; cbn.
  - by rewrite Hp.
  - rewrite Hv. cbn. apply IH.
Qed.

(** X20: [load_model] with [param]: a path that holds no model raises
    [IOError] and leaves the files alone.  Otherwise the result is a
    dict with exactly the requested names, each bound to the model's
    attribute of that name, provided the model has them all; the first
    requested name that the model lacks raises [AttributeError] on it; a
    single name stands for the list of that one name. *)
Theorem load_model_params (path : string) (param : MvpResultsIO.param_arg)
    (files : gmap string E) :
  let names := match param with
               | MvpResultsIO.OneParam p => [p]
               | MvpResultsIO.ParamList ps => ps
               end in
  let load := MvpResultsIO.load_model getattr path in
  (files !! path = None ->
   load None files = (files, Raise (IOError path)) /\
   load (Some param) files = (files, Raise (IOError path))) /\
  (forall model, files !! path = Some model ->
     load (Some param) files = load (Some (MvpResultsIO.ParamList names)) files /\
     (Forall (fun p => is_Some (getattr model p)) names ->
      exists d,
        load (Some param) files = (files, Ok (MvpResultsIO.Params d)) /\
        forall p, d !! p = if decide (p ∈ names) then getattr model p else None) /\
     (forall pre p post,
        names = (pre ++ p :: post)%list ->
        Forall (fun p => is_Some (getattr model p)) pre ->
        getattr model p = None ->
        load (Some param) files = (files, Raise (AttributeError p)))).
Proof using Type.
  intros names load. subst load.
  unfold MvpResultsIO.load_model, MvpResultsIO.joblib_load. unfold_py. cbn [id].
  split.
  - intros ->. done.
  - intros model ->. cbn [from_option]. fold names. split; [by destruct param|].
    split.
    + intros Hall. destruct (getattr_dict_ok model names ∅ Hall) as (d & -> & Hd).
      exists d. split; [done|]. intros p. rewrite Hd.
      destruct (decide _); [done|]. apply lookup_empty.
    + intros pre p post Hn Hpre Hp. rewrite Hn.
      by rewrite getattr_dict_missing.
Qed.

End models.

(** * The further properties at concrete inputs *)

Lemma transform_wrong_column_count_witness :
  RoiIndexer.transform Examples.nib Examples.roi
    (np.mk_array2 3 [[1; 2; 3]]%float) = Raise IndexError.
Proof.
  apply (transform_wrong_column_count Examples.nib Examples.roi
           (np.mk_array2 3 [[1; 2; 3]]%float) Examples.vol).
  - reflexivity.
  - reflexivity.
  - vm_compute. lia.
Defined.

Lemma transform_other_geometry_witness :
  exists e,
    RoiIndexer.transform
      (fun _ => Ok (np.mk_ndarray [1; 1; 5] [0; 30; 60; 10; 0]%float))
      Examples.roi Examples.X = Raise e /\
    exists msg, e = ValueError msg.
Proof.
  destruct (transform_other_geometry
              (fun _ => Ok (np.mk_ndarray [1; 1; 5] [0; 30; 60; 10; 0]%float))
              Examples.roi Examples.X
              (np.mk_ndarray [1; 1; 5] [0; 30; 60; 10; 0]%float))
    as (e & He & Hmsg).
  - reflexivity.
  - vm_compute. lia.
  - vm_compute. lia.
  - exists e. split; [exact He|]. apply Hmsg. vm_compute. lia.
Defined.

Lemma transform_region_covering_mask_witness :
  RoiIndexer.transform Examples.nib
    (RoiIndexer.mk "roi.nii.gz" (-1)%float Examples.original_mask) Examples.X
  = Ok Examples.X.
Proof.
  apply (transform_region_covering_mask Examples.nib
           (RoiIndexer.mk "roi.nii.gz" (-1)%float Examples.original_mask)
           Examples.X Examples.vol).
  - reflexivity.
  - reflexivity.
  - repeat constructor.
  - reflexivity.
  - intros voxel HM.
    do 6 (destruct voxel as [|voxel];
          [first [discriminate HM | vm_compute; reflexivity]|]).
    discriminate HM.
Defined.

Lemma transform_twice_witness :
  RoiIndexer.transform Examples.nib Examples.roi
    (np.mk_array2 2 [[2; 4]; [6; 8]]%float) = Raise IndexError.
Proof.
  destruct (transform_twice Examples.nib Examples.roi Examples.X
              (np.mk_array2 2 [[2; 4]; [6; 8]]%float) Examples.vol)
    as (_ & _ & Hdrop).
  - reflexivity.
  - reflexivity.
  - repeat constructor.
  - vm_compute. reflexivity.
  - apply Hdrop. vm_compute. lia.
Defined.

Lemma write_background_is_zero_witness :
  exists w,
    (MvpResults.write Reference.np_mean Reference.np_std false
       MoreExamples.two_sets).1 !! 0 = Some w /\
    MvpResults.w_img w = [0; 0.5; 0; -1]%float /\
    MvpResults.w_img w !! 2 = Some 0%float.
Proof.
  eexists. split; [vm_compute; reflexivity|]. split; [reflexivity|].
  apply (write_background_is_zero Reference.np_mean Reference.np_std
           MoreExamples.two_sets false 0 _ 0 [2; 2] 2).
  - vm_compute. reflexivity.
  - vm_compute. reflexivity.
  - reflexivity.
  - cbn. lia.
  - intros j p Hj Hp.
    do 4 (destruct j as [|j];
          [vm_compute in Hj, Hp; injection Hp as <-;
           first [discriminate Hj | vm_compute; discriminate]|]).
    discriminate Hj.
Defined.

Lemma write_errors_witness :
  (MvpResults.write Reference.np_mean Reference.np_std true
     (MvpResults.init MoreExamples.mvp_missing_shape 2 "out" "coef" false None)).2
  = Raise IndexError.
Proof.
  destruct (write_errors Reference.np_mean Reference.np_std
              (MvpResults.init MoreExamples.mvp_missing_shape 2 "out" "coef" false
                 None) true) as [_ Hmiss].
  destruct (Hmiss 1) as [Hraise _].
  - cbn. apply elem_of_cons. right. apply elem_of_cons. by left.
  - left. reflexivity.
  - exact Hraise.
Defined.

Lemma folds_not_run_stay_zero_witness :
  fold_slot_untouched_reg 3
    (Examples.reg_run [Examples.fold1]
       (Reg.init Examples.mvp_reg 3 "coef" false "out")).1 2.
Proof.
  destruct (folds_not_run_stay_zero
              Reference.np_T Reference.np_dot Reference.np_cov Reference.np_pinv
              Reference.np_concatenate_mean0 Reference.r2_score
              Reference.mean_squared_error Reference.accuracy_score
              Reference.precision_score_macro Reference.recall_score_macro
              Reference.confusion_matrix) as [Hreg _].
  apply (Hreg Examples.mvp_reg 3 "coef" false "out" [Examples.fold1] 2).
  - vm_compute. lia.
  - lia.
Defined.

Lemma update_rejects_test_index_out_of_range_witness :
  Examples.reg_update MoreExamples.fold_bad_index
    (Reg.init Examples.mvp_reg 2 "coef" false "out")
  = (Reg.init Examples.mvp_reg 2 "coef" false "out", Raise IndexError).
Proof.
  destruct (update_rejects_test_index_out_of_range
              Reference.np_T Reference.np_dot Reference.np_cov Reference.np_pinv
              Reference.np_concatenate_mean0 Reference.r2_score
              Reference.mean_squared_error Reference.accuracy_score
              Reference.precision_score_macro Reference.recall_score_macro
              Reference.confusion_matrix) as [Hreg _].
  apply Hreg. apply Exists_cons_tl, Exists_cons_hd. right. cbn. lia.
Defined.

Lemma unscored_mode_keeps_voxel_values_zero_witness :
  MvpResults.voxel_values
    (Reg.base (Examples.reg_run [Examples.fold1; Examples.fold2]
                 (Reg.init Examples.mvp_reg 2 "" false "out")).1)
  = np.zeros2 2 3.
Proof.
  destruct (unscored_mode_keeps_voxel_values_zero
              Reference.np_T Reference.np_dot Reference.np_cov Reference.np_pinv
              Reference.np_concatenate_mean0 Reference.r2_score
              Reference.mean_squared_error Reference.accuracy_score
              Reference.precision_score_macro Reference.recall_score_macro
              Reference.confusion_matrix "") as [Hreg _].
  - reflexivity.
  - discriminate.
  - apply (Hreg Examples.mvp_reg 2 false "out" [Examples.fold1; Examples.fold2]).
Defined.

Lemma pipeline_support_mask_must_be_unique_witness :
  let b := Reg.base (Reg.init Examples.mvp_reg 2 "ufs" false "out") in
  MvpResults.extract_from_pipeline Reference.np_concatenate_mean0
    MoreExamples.selecting_pipeline None b
  = (b, Ok (MoreExamples.scores, Some (MvpResults.BoolIdx [true; false; true]))) /\
  MvpResults.extract_from_pipeline Reference.np_concatenate_mean0
    MoreExamples.opaque_pipeline None b
  = (b, Raise (ValueError "Found more than one scores_ attribute in pipeline!")).
Proof.
  intros b. split.
  - destruct (pipeline_support_mask_must_be_unique Reference.np_concatenate_mean0
                MoreExamples.selecting_pipeline None b MoreExamples.scores)
      as [_ Hsel].
    + reflexivity.
    + destruct Hsel as [Hone _]; [vm_compute; lia|]. by apply Hone.
  - destruct (pipeline_support_mask_must_be_unique Reference.np_concatenate_mean0
                MoreExamples.opaque_pipeline None b MoreExamples.scores)
      as [_ Hsel].
    + reflexivity.
    + destruct Hsel as [_ Hnone]; [vm_compute; lia|]. apply Hnone. cbn. lia.
Defined.

Lemma scores_stored_at_support_witness :
  exists b' row',
    MvpResults._update_voxel_values Reference.np_T Reference.np_dot Reference.np_cov
      Reference.np_pinv Reference.np_concatenate_mean0
      (MvpResults.Array (np.mk_ndarray [1; 2] [0.5; -1]%float))
      (Some (MvpResults.BoolIdx [true; false; true]))
      (Reg.base (Reg.init Examples.mvp_reg 2 "coef" false "out")) = (b', Ok tt) /\
    np.rows (MvpResults.voxel_values b') = [row'; [0; 0; 0]%float] /\
    row' !! 0 = Some 0.5%float /\ row' !! 1 = Some 0%float /\
    row' !! 2 = Some (-1)%float.
Proof.
  destruct (scores_stored_at_support Reference.np_T Reference.np_dot
              Reference.np_cov Reference.np_pinv Reference.np_concatenate_mean0
              (Reg.base (Reg.init Examples.mvp_reg 2 "coef" false "out"))
              (np.mk_ndarray [1; 2] [0.5; -1]%float) [true; false; true] 2
              [0; 0; 0]%float)
    as (b' & row' & Hup & _ & _ & Hrows & _ & Hrow); try reflexivity.
  - cbn. lia.
  - exists b', row'. split; [exact Hup|]. split; [exact Hrows|].
    split; [apply (Hrow 0); cbn; lia|].
    split; [apply (Hrow 1); cbn; lia|apply (Hrow 2); cbn; lia].
Defined.

Lemma single_class_fold_fills_confusion_matrix_witness :
  exists C',
    Cls.confmat (Examples.cls_update MoreExamples.cfold_one_class
                   (Cls.init Examples.mvp_cls 2 "coef" false "out")).1 !! 0
    = Some C' /\
    entry C' 0 1 = 2%float /\ entry C' 1 0 = 2%float.
Proof.
  destruct (single_class_fold_fills_confusion_matrix
              Reference.np_T Reference.np_dot Reference.np_cov Reference.np_pinv
              Reference.np_concatenate_mean0 Reference.accuracy_score
              Reference.precision_score_macro Reference.recall_score_macro
              Reference.confusion_matrix
              (Cls.init Examples.mvp_cls 2 "coef" false "out")
              (Examples.cls_update MoreExamples.cfold_one_class
                 (Cls.init Examples.mvp_cls 2 "coef" false "out")).1
              MoreExamples.cfold_one_class 2 [0; 0]%Z 2%Z)
    as (C' & Hc & _ & Hentry).
  - repeat constructor.
  - reflexivity.
  - vm_compute. reflexivity.
  - vm_compute. reflexivity.
  - exists C'. split; [exact Hc|].
    split; [apply (Hentry 0 1); lia|apply (Hentry 1 0); lia].
Defined.

Lemma confusion_matrix_of_other_size_raises_witness :
  exists s' msg,
    Cls.update Reference.np_T Reference.np_dot Reference.np_cov Reference.np_pinv
      Reference.np_concatenate_mean0 Reference.accuracy_score
      Reference.precision_score_macro Reference.recall_score_macro
      Reference.confusion_matrix MoreExamples.cfold_two_classes
      (Cls.init MoreExamples.mvp_three_classes 2 "coef" false "out")
    = (s', Raise (ValueError msg)) /\
    Cls.accuracy s' = [1; 0]%float /\
    MvpResults.iter (Cls.base s') = 0.
Proof.
  destruct (confusion_matrix_of_other_size_raises
              Reference.np_T Reference.np_dot Reference.np_cov Reference.np_pinv
              Reference.np_concatenate_mean0 Reference.accuracy_score
              Reference.precision_score_macro Reference.recall_score_macro
              Reference.confusion_matrix
              (Cls.init MoreExamples.mvp_three_classes 2 "coef" false "out")
              MoreExamples.cfold_two_classes 3 [0; 1]%Z 1%float 1%float 1%float
              (np.mk_array2 2 [[1; 0]; [0; 1]]%Z))
    as (s' & msg & Hup & Hacc & _ & _ & _ & Hbase).
  - repeat constructor.
  - cbn. lia.
  - cbn. lia.
  - cbn. lia.
  - cbn. lia.
  - reflexivity.
  - vm_compute. reflexivity.
  - vm_compute. reflexivity.
  - vm_compute. reflexivity.
  - vm_compute. reflexivity.
  - left. cbn. lia.
  - exists s', msg. split; [exact Hup|]. split; [by rewrite Hacc|by rewrite Hbase].
Defined.

Lemma save_model_then_load_model_witness :
  exists files',
    MvpResultsIO.save_model MoreExamples.op_join
      (Reg.base (Reg.init Examples.mvp_reg 2 "coef" false "out"))
      MoreExamples.pipeline_model ∅ = (files', Ok tt) /\
    MvpResultsIO.load_model MoreExamples.getattr "out/svm.jl" None files'
    = (files', Ok (MvpResultsIO.Model 2)).
Proof.
  destruct (save_model_then_load_model MoreExamples.op_join MoreExamples.getattr
              (Reg.base (Reg.init Examples.mvp_reg 2 "coef" false "out"))
              MoreExamples.pipeline_model
              [("scaler", 1); ("svm", 2); ("pca", 3)] [("scaler", 1)] [("pca", 3)]
              "svm" 2 ∅)
    as (files' & Hsave & Hload & _).
  - by left.
  - reflexivity.
  - cbn. intros Hin. apply list_elem_of_singleton in Hin. discriminate Hin.
  - exists files'. split; [exact Hsave|exact Hload].
Defined.

Lemma load_model_params_witness :
  MvpResultsIO.load_model MoreExamples.getattr "out/svm.jl"
    (Some (MvpResultsIO.ParamList ["coef_"; "C"])) {["out/svm.jl" := 2]}
  = ({["out/svm.jl" := 2]}, Raise (AttributeError "C")) /\
  exists d,
    MvpResultsIO.load_model MoreExamples.getattr "out/svm.jl"
      (Some (MvpResultsIO.OneParam "coef_")) {["out/svm.jl" := 2]}
    = ({["out/svm.jl" := 2]}, Ok (MvpResultsIO.Params d)) /\
    d !! "coef_" = Some 2 /\ d !! "C" = None.
Proof.
  split.
  - destruct (load_model_params MoreExamples.getattr "out/svm.jl"
                (MvpResultsIO.ParamList ["coef_"; "C"]) {["out/svm.jl" := 2]})
      as [_ Hfound].
    destruct (Hfound 2) as (_ & _ & Hmissing); [apply lookup_singleton_eq|].
    apply (Hmissing ["coef_"] "C" []); [reflexivity| |reflexivity].
    repeat constructor. by exists 2.
  - destruct (load_model_params MoreExamples.getattr "out/svm.jl"
                (MvpResultsIO.OneParam "coef_") {["out/svm.jl" := 2]})
      as [_ Hfound].
    destruct (Hfound 2) as (_ & Hall & _); [apply lookup_singleton_eq|].
    destruct Hall as (d & Hload & Hd); [repeat constructor; by exists 2|].
    exists d. split; [exact Hload|].
    split; [by rewrite Hd|by rewrite Hd].
Defined.

Lemma ensemble_scores_are_member_coefficients_witness :
  let b := Reg.base (Reg.init Examples.mvp_reg 2 "ufs" false "out") in
  let c := Reg.base (Reg.init Examples.mvp_reg 2 "coef" false "out") in
  MvpResults.extract_from_pipeline Reference.np_concatenate_mean0
    MoreExamples.bagging_pipeline None b
  = (b, Ok (np.mk_ndarray [3] [2; 2; 4]%float, None)) /\
  MvpResults.extract_from_pipeline Reference.np_concatenate_mean0
    MoreExamples.selected_bagging_pipeline None c
  = (c, Ok (np.mk_ndarray [2] [2; 4]%float,
            Some (MvpResults.BoolIdx [true; false; true]))) /\
  MvpResults.extract_from_pipeline Reference.np_concatenate_mean0
    MoreExamples.unselected_bagging_pipeline None c
  = (c, Raise (ValueError "Found more than one coef_ attribute in pipeline!")) /\
  MvpResults.extract_from_pipeline Reference.np_concatenate_mean0
    MoreExamples.tree_bagging_pipeline None b
  = (b, Raise (AttributeError "coef_")).
Proof.
  intros b c. split; [|split; [|split]].
  - destruct (ensemble_scores_are_member_coefficients
                Reference.np_concatenate_mean0 MoreExamples.bagging_pipeline None b
                [MvpResults.mk_member (Some (np.mk_ndarray [1; 3] [1; 2; 3]%float));
                 MvpResults.mk_member (Some (np.mk_ndarray [1; 3] [3; 2; 5]%float))])
      as [Hmean _]; [reflexivity..|].
    destruct (Hmean [np.mk_ndarray [1; 3] [1; 2; 3]%float;
                     np.mk_ndarray [1; 3] [3; 2; 5]%float]) as [Hval _];
      [reflexivity|].
    destruct (Hval (np.mk_ndarray [3] [2; 2; 4]%float)) as [Hall _];
      [vm_compute; reflexivity|].
    apply Hall. left. reflexivity.
  - destruct (ensemble_scores_are_member_coefficients
                Reference.np_concatenate_mean0
                MoreExamples.selected_bagging_pipeline None c
                [MvpResults.mk_member (Some (np.mk_ndarray [1; 2] [1; 2]%float));
                 MvpResults.mk_member (Some (np.mk_ndarray [1; 2] [3; 6]%float))])
      as [Hmean _]; [reflexivity..|].
    destruct (Hmean [np.mk_ndarray [1; 2] [1; 2]%float;
                     np.mk_ndarray [1; 2] [3; 6]%float]) as [Hval _];
      [reflexivity|].
    destruct (Hval (np.mk_ndarray [2] [2; 4]%float)) as [_ Hsel];
      [vm_compute; reflexivity|].
    destruct Hsel as [Hone _]; [vm_compute; lia|]. by apply Hone.
  - destruct (ensemble_scores_are_member_coefficients
                Reference.np_concatenate_mean0
                MoreExamples.unselected_bagging_pipeline None c
                [MvpResults.mk_member (Some (np.mk_ndarray [1; 2] [1; 2]%float));
                 MvpResults.mk_member (Some (np.mk_ndarray [1; 2] [3; 6]%float))])
      as [Hmean _]; [reflexivity..|].
    destruct (Hmean [np.mk_ndarray [1; 2] [1; 2]%float;
                     np.mk_ndarray [1; 2] [3; 6]%float]) as [Hval _];
      [reflexivity|].
    destruct (Hval (np.mk_ndarray [2] [2; 4]%float)) as [_ Hsel];
      [vm_compute; reflexivity|].
    destruct Hsel as [_ Hnone]; [vm_compute; lia|]. apply Hnone. cbn. lia.
  - destruct (ensemble_scores_are_member_coefficients
                Reference.np_concatenate_mean0 MoreExamples.tree_bagging_pipeline
                None b
                [MvpResults.mk_member (Some (np.mk_ndarray [1; 3] [1; 2; 3]%float));
                 MvpResults.mk_member None])
      as [_ Hmissing]; [reflexivity..|].
    apply (Hmissing
             [MvpResults.mk_member (Some (np.mk_ndarray [1; 3] [1; 2; 3]%float))]
             (MvpResults.mk_member None) []).
    + reflexivity.
    + repeat constructor. by eexists.
    + reflexivity.
Defined.

Lemma roi_indexer_init_cases_witness :
  RoiIndexer.init id id (fun parts => default "" (last parts))
    (fun _ => ["/data/epi_masks/roi.nii.gz"])
    (fun _ _ _ => Raise (LibraryError "FSL is not installed"))
    (mk_Mvp (mvp_X Examples.mvp_reg) (mvp_y Examples.mvp_reg)
       Examples.original_mask "/data/sub01" "epi" [[6]] ["stat"] [] [] [])
    "roi.nii.gz" 25%float
  = Ok (RoiIndexer.mk "/data/epi_masks/roi.nii.gz" 25%float Examples.original_mask).
Proof.
  destruct (roi_indexer_init_cases id id (fun parts => default "" (last parts))
              (fun _ => ["/data/epi_masks/roi.nii.gz"])
              (fun _ _ _ => Ok [])
              (mk_Mvp (mvp_X Examples.mvp_reg) (mvp_y Examples.mvp_reg)
                 Examples.original_mask "/data/sub01" "epi" [[6]] ["stat"] [] [] [])
              "roi.nii.gz" 25%float)
    as (_ & _ & Hcached & _).
  apply (Hcached "/data/epi_masks/roi.nii.gz" []); reflexivity.
Defined.
